(** * Power-consumption forecasting script: a shallow embedding

    The script [Prediction of Power Consumption/code.py] is a straight line
    of pandas and scikit-learn calls.  Each call is embedded as a function
    on an explicit, column-oriented [DataFrame]; Python exceptions are the
    [Raise] branch of [result].  Floating-point numbers are idealised as
    rationals ([Q]); the numerical routines of the libraries (parsing of
    date strings, the random permutation, least-squares fitting) are
    section variables. *)

From Stdlib Require Import String Ascii ZArith QArith Bool Lia Arith List.
From Stdlib Require Import Qround Permutation DecimalString.
From Stdlib Require Import Qabs Lqa Sorted.
From Stdlib Require OrderedTypeEx.
Import ListNotations.
Local Open Scope string_scope.
Local Open Scope nat_scope.

(** ** Exceptions *)

Inductive exn : Type :=
| KeyError (what : string)
| ValueError (what : string).

Inductive result (A : Type) : Type :=
| Ok (a : A)
| Raise (e : exn).
Arguments Ok {A} a.
Arguments Raise {A} e.

Definition bind {A B : Type} (m : result A) (k : A -> result B) : result B :=
  match m with
  | Ok a => k a
  | Raise e => Raise e
  end.

Notation "x <- m ;; k" := (bind m (fun x => k))
  (at level 61, m at next level, right associativity).

Definition raises {A : Type} (m : result A) : Prop :=
  exists e, m = Raise e.

(** ** Timestamps

    A parsed [pandas.Timestamp]; [dayofweek] counts from Monday = 0.
    [ts_offset] is the UTC offset the value was written with, in minutes;
    a value written without one (a naive timestamp) has [None]. *)

Record Timestamp : Type := mkTimestamp {
  ts_year : Z;
  ts_month : Z;
  ts_day : Z;
  ts_hour : Z;
  ts_minute : Z;
  ts_second : Z;
  ts_offset : option Z
}.

(** Days since 1970-01-01 in the proleptic Gregorian calendar. *)
Definition days_from_civil (y m d : Z) : Z :=
  let y' := if (m <=? 2)%Z then (y - 1)%Z else y in
  let era := (y' / 400)%Z in
  let yoe := (y' - era * 400)%Z in
  let mp := ((m + 9) mod 12)%Z in
  let doy := ((153 * mp + 2) / 5 + d - 1)%Z in
  let doe := (yoe * 365 + yoe / 4 - yoe / 100 + doy)%Z in
  (era * 146097 + doe - 719468)%Z.

(** 1970-01-01 was a Thursday, index 3. *)
Definition ts_dayofweek (t : Timestamp) : Z :=
  ((days_from_civil (ts_year t) (ts_month t) (ts_day t) + 3) mod 7)%Z.

(** ** Cells, dtypes, series and frames *)

Inductive cell : Type :=
| NA                      (* NaN, NaT or None *)
| Float (q : Q)
| Int (z : Z)
| Str (s : string)
| Flag (b : bool)
| Time (t : Timestamp).

Inductive dtype : Type :=
| float64 | int64 | int32 | bool_ | object | datetime64.

Definition dtype_eqb (a b : dtype) : bool :=
  match a, b with
  | float64, float64 | int64, int64 | int32, int32
  | bool_, bool_ | object, object | datetime64, datetime64 => true
  | _, _ => false
  end.

Record Series : Type := mkSeries {
  col_name : string;
  col_dtype : dtype;
  col_values : list cell
}.

(** [index] holds the row labels: [Int i] for the [RangeIndex] that
    [read_csv] creates, [Time t] once a timestamp column is made the index. *)
Record DataFrame : Type := mkFrame {
  index : list cell;
  columns : list Series
}.

Definition is_na (c : cell) : bool :=
  match c with NA => true | _ => false end.

Definition column_names (df : DataFrame) : list string :=
  map col_name (columns df).

(** Every column is as long as the index. *)
Definition well_formed (df : DataFrame) : Prop :=
  Forall (fun s => length (col_values s) = length (index df)) (columns df).

(** [df[name]] *)
Fixpoint find_column (nm : string) (cols : list Series) : option Series :=
  match cols with
  | [] => None
  | s :: cols' => if String.eqb nm (col_name s) then Some s else find_column nm cols'
  end.

Definition get_column (nm : string) (df : DataFrame) : result Series :=
  match find_column nm (columns df) with
  | Some s => Ok s
  | None => Raise (KeyError nm)
  end.

(** [df[name] = series]: overwrite in place, or append a new column. *)
Fixpoint assign (s : Series) (cols : list Series) : list Series :=
  match cols with
  | [] => [s]
  | c :: cols' =>
      if String.eqb (col_name s) (col_name c) then s :: cols'
      else c :: assign s cols'
  end.

Definition set_column (s : Series) (df : DataFrame) : DataFrame :=
  mkFrame (index df) (assign s (columns df)).

(** Boolean-mask row selection. *)
Fixpoint filter_mask {A : Type} (mask : list bool) (l : list A) : list A :=
  match mask, l with
  | b :: mask', x :: l' =>
      if b then x :: filter_mask mask' l' else filter_mask mask' l'
  | _, _ => []
  end.

Definition mask_series (mask : list bool) (s : Series) : Series :=
  mkSeries (col_name s) (col_dtype s) (filter_mask mask (col_values s)).

(** [df.dropna(subset=[name])]: the surviving rows keep their labels. *)
Definition dropna (nm : string) (df : DataFrame) : result DataFrame :=
  s <- get_column nm df ;;
  let mask := map (fun c => negb (is_na c)) (col_values s) in
  Ok (mkFrame (filter_mask mask (index df)) (map (mask_series mask) (columns df))).

(** ** Feature derivation (lines 23-29) *)

(** A failed conversion becomes the missing value. *)
Definition coerce (parse : cell -> option Timestamp) (c : cell) : cell :=
  match parse c with
  | Some t => Time t
  | None => NA
  end.

(** A calendar field of a timestamp cell. *)
Definition field_cell (f : Timestamp -> Z) (c : cell) : cell :=
  match c with
  | Time t => Int (f t)
  | _ => NA
  end.

Definition offset_eqb (a b : option Z) : bool :=
  match a, b with
  | Some x, Some y => (x =? y)%Z
  | None, None => true
  | _, _ => false
  end.

(** The timestamps of the values that convert. *)
Definition converted (parse : cell -> option Timestamp) (cells : list cell)
  : list Timestamp :=
  flat_map (fun c => match parse c with Some t => [t] | None => [] end) cells.

(** Whether all timestamps carry the UTC offset of the first one (all
    naive, or all with the same offset). *)
Definition same_offset (l : list Timestamp) : bool :=
  match l with
  | [] => true
  | t :: l' => forallb (fun u => offset_eqb (ts_offset t) (ts_offset u)) l'
  end.

Section FeatureDeriver.

(** [pd.to_datetime] converts one element; the format it infers may
    depend on the whole column, which is the first argument.  [None] is
    a failed conversion. *)
Variable parse_datetime : list cell -> cell -> option Timestamp.

(** The dtype pandas gives to [Series.dt.year] and its siblings (int64
    before pandas 2.0, int32 since). *)
Variable calendar_dtype : dtype.

(** The datetime64 column of the converted values; a failed conversion
    is the missing value. *)
Definition datetime_column (s : Series) : Series :=
  mkSeries (col_name s) datetime64
    (map (coerce (parse_datetime (col_values s))) (col_values s)).

(** Whether the converted values of the column carry one UTC offset. *)
Definition one_offset (s : Series) : bool :=
  same_offset (converted (parse_datetime (col_values s)) (col_values s)).

(** [pd.to_datetime(series, errors='coerce')].  [errors='coerce'] covers
    the single values only: converted values that differ in their UTC
    offset do not fit one datetime64 column.  pandas 3 raises the
    ValueError below at this call (line 23); pandas 1.5 and 2 return an
    object column instead, on which the first [.dt] access (line 25)
    raises AttributeError.  Either way lines 23-25 raise. *)
Definition to_datetime (s : Series) : result Series :=
  if one_offset s then Ok (datetime_column s)
  else Raise (ValueError "Mixed timezones detected").

(** [series.dt.<field>] stored under a new name. *)
Definition dt_field (nm : string) (f : Timestamp -> Z) (s : Series) : Series :=
  mkSeries nm calendar_dtype (map (field_cell f) (col_values s)).

Definition add_dt_field (nm : string) (f : Timestamp -> Z) (data : DataFrame)
  : result DataFrame :=
  ts <- get_column "timestamp" data ;;
  Ok (set_column (dt_field nm f ts) data).

Definition feature_derive (data : DataFrame) : result DataFrame :=
  ts <- get_column "timestamp" data ;;
  ts <- to_datetime ts ;;
  let data := set_column ts data in
  data <- dropna "timestamp" data ;;
  data <- add_dt_field "year" ts_year data ;;
  data <- add_dt_field "month" ts_month data ;;
  data <- add_dt_field "day" ts_day data ;;
  data <- add_dt_field "hour" ts_hour data ;;
  add_dt_field "dayofweek" ts_dayofweek data.

End FeatureDeriver.

(** ** Row view of a frame

    A row is the label with the list of (column name, cell) pairs, in
    column order. *)

Definition row : Type := list (string * cell).

Definition tail_series (s : Series) : Series :=
  mkSeries (col_name s) (col_dtype s) (tl (col_values s)).

Definition head_row (cols : list Series) : row :=
  map (fun s => (col_name s, hd NA (col_values s))) cols.

Fixpoint rows_of (idx : list cell) (cols : list Series) : list (cell * row) :=
  match idx with
  | [] => []
  | l :: idx' => (l, head_row cols) :: rows_of idx' (map tail_series cols)
  end.

Definition rows (df : DataFrame) : list (cell * row) :=
  rows_of (index df) (columns df).

Fixpoint row_get (nm : string) (r : row) : cell :=
  match r with
  | [] => NA
  | (k, v) :: r' => if String.eqb nm k then v else row_get nm r'
  end.

Fixpoint row_set (nm : string) (v : cell) (r : row) : row :=
  match r with
  | [] => [(nm, v)]
  | (k, w) :: r' =>
      if String.eqb nm k then (k, v) :: r' else (k, w) :: row_set nm v r'
  end.

(** What the specification asks of the feature deriver, row by row: a row
    is kept when its timestamp converts, and is then extended with the
    parsed timestamp and the five calendar fields. *)
Definition extend_row (t : Timestamp) (r : row) : row :=
  row_set "dayofweek" (Int (ts_dayofweek t))
    (row_set "hour" (Int (ts_hour t))
      (row_set "day" (Int (ts_day t))
        (row_set "month" (Int (ts_month t))
          (row_set "year" (Int (ts_year t))
            (row_set "timestamp" (Time t) r))))).

Definition derive_row (parse : cell -> option Timestamp) (lr : cell * row)
  : option (cell * row) :=
  match parse (row_get "timestamp" (snd lr)) with
  | Some t => Some (fst lr, extend_row t (snd lr))
  | None => None
  end.

Fixpoint filter_map {A B : Type} (f : A -> option B) (l : list A) : list B :=
  match l with
  | [] => []
  | x :: l' =>
      match f x with
      | Some y => y :: filter_map f l'
      | None => filter_map f l'
      end
  end.

Definition rows_with_parsable_timestamp
  (parse : cell -> option Timestamp) (rs : list (cell * row)) : list (cell * row) :=
  filter_map (derive_row parse) rs.

(** ** Column classifier (lines 31-37) *)

Definition target : string := "consumption".

Definition mem_string (x : string) (l : list string) : bool :=
  existsb (String.eqb x) l.

(** [Index.drop(labels)]: a label that is not in the index is a KeyError. *)
Definition index_drop (labels : list string) (names : list string)
  : result (list string) :=
  match find (fun l => negb (mem_string l names)) labels with
  | Some l => Raise (KeyError l)
  | None => Ok (filter (fun n => negb (mem_string n labels)) names)
  end.

(** [df.select_dtypes(include=...)] *)
Definition select_dtypes (include : list dtype) (df : DataFrame) : DataFrame :=
  mkFrame (index df)
    (filter (fun s => existsb (dtype_eqb (col_dtype s)) include) (columns df)).

Record ColumnRoles : Type := mkRoles {
  features : list string;
  num_cols : list string;
  cat_cols : list string
}.

Definition classify_columns (data : DataFrame) : result ColumnRoles :=
  features <- index_drop [target; "timestamp"] (column_names data) ;;
  num_cols <- index_drop [target] (column_names (select_dtypes [float64; int64] data)) ;;
  let cat_cols := column_names (select_dtypes [object] data) in
  Ok (mkRoles features num_cols cat_cols).

(** The property the specification states for the classifier: each feature
    column is in exactly one of the two groups. *)
Definition in_exactly_one_group (r : ColumnRoles) : Prop :=
  forall c, In c (features r) ->
    (In c (num_cols r) /\ ~ In c (cat_cols r)) \/
    (~ In c (num_cols r) /\ In c (cat_cols r)).

(** The property the specification states for a column of any other
    dtype: it is listed in the feature set, and it is in neither group
    that the transformer reads. *)
Definition listed_but_dropped (r : ColumnRoles) (s : Series) : Prop :=
  In (col_name s) (features r) /\
  ~ In (col_name s) (num_cols r) /\ ~ In (col_name s) (cat_cols r).

(** [df[names]] and [df[name]]; a series with its index is kept as a
    one-column frame. *)
Fixpoint select_series (names : list string) (cols : list Series)
  : result (list Series) :=
  match names with
  | [] => Ok []
  | nm :: names' =>
      match find_column nm cols with
      | Some s => rest <- select_series names' cols ;; Ok (s :: rest)
      | None => Raise (KeyError nm)
      end
  end.

Definition select_columns (names : list string) (df : DataFrame) : result DataFrame :=
  cols <- select_series names (columns df) ;;
  Ok (mkFrame (index df) cols).

Definition series_frame (nm : string) (df : DataFrame) : result DataFrame :=
  select_columns [nm] df.

(** ** Train/test split (line 74) *)

Definition n_rows (df : DataFrame) : nat := length (index df).

(** Positional row selection, [df.iloc[positions]]. *)
Definition take {A : Type} (d : A) (positions : list nat) (l : list A) : list A :=
  map (fun i => nth i l d) positions.

Definition take_series (positions : list nat) (s : Series) : Series :=
  mkSeries (col_name s) (col_dtype s) (take NA positions (col_values s)).

Definition take_rows (positions : list nat) (df : DataFrame) : DataFrame :=
  mkFrame (take NA positions (index df)) (map (take_series positions) (columns df)).

Record Split : Type := mkSplit {
  X_train : DataFrame;
  X_test : DataFrame;
  y_train : DataFrame;
  y_test : DataFrame
}.

(** [test_size=0.2].  The double nearest to 0.2 exceeds 1/5 by a relative
    2^-54, so for every row count below 2^53 the ceiling of its product
    with the count is the ceiling of the exact fifth. *)
Definition test_size : Q := 1 # 5.
Definition random_state : Z := 42.

Section TrainTestSplit.

(** [RandomState(seed).permutation(n)] *)
Variable rng_permutation : Z -> nat -> list nat.

(** [n_test = ceil(test_size * n)], [n_train = n - n_test]; an empty
    training set is a ValueError.  The shuffled positions are cut into
    the test block first, then the training block. *)
Definition n_test_of (size : Q) (n : nat) : nat :=
  Z.to_nat (Qceiling (size * inject_Z (Z.of_nat n))).

Definition shuffle_split (size : Q) (seed : Z) (n : nat)
  : result (list nat * list nat) :=
  let n_test := n_test_of size n in
  let n_train := n - n_test in
  if n_train =? 0 then
    Raise (ValueError "the resulting train set will be empty")
  else
    let p := rng_permutation seed n in
    Ok (firstn n_train (skipn n_test p), firstn n_test p).

Definition train_test_split (X y : DataFrame) (size : Q) (seed : Z)
  : result Split :=
  if n_rows X =? n_rows y then
    parts <- shuffle_split size seed (n_rows X) ;;
    let (ind_train, ind_test) := parts in
    Ok (mkSplit (take_rows ind_train X) (take_rows ind_test X)
                (take_rows ind_train y) (take_rows ind_test y))
  else Raise (ValueError "inconsistent numbers of samples").

End TrainTestSplit.

(** ** Preprocessing transformer (lines 39-55) *)

(** *** Categorical path: most-frequent imputation, then one-hot encoding *)

Definition count_string (x : string) (l : list string) : nat :=
  length (filter (String.eqb x) l).

(** The most frequent string; among equally frequent ones the smallest. *)
Fixpoint most_frequent_from (all : list string) (l : list string) : option string :=
  match l with
  | [] => None
  | x :: l' =>
      match most_frequent_from all l' with
      | None => Some x
      | Some b =>
          let cx := count_string x all in
          let cb := count_string b all in
          if cb <? cx then Some x
          else if (cx =? cb) && String.ltb x b then Some x
          else Some b
      end
  end.

Definition most_frequent (l : list string) : option string :=
  most_frequent_from l l.

(** Sorted list of the distinct strings, as [numpy.unique] returns it. *)
Fixpoint insert_unique (x : string) (l : list string) : list string :=
  match l with
  | [] => [x]
  | y :: l' =>
      if String.eqb x y then l
      else if String.ltb x y then x :: l
      else y :: insert_unique x l'
  end.

Definition unique_sorted (l : list string) : list string :=
  fold_right insert_unique [] l.

(** What a float64 or int64 column holds, a number or a missing value,
    and what an object column of strings holds. *)
Definition numeric_cell (c : cell) : bool :=
  match c with
  | NA | Float _ | Int _ => true
  | _ => false
  end.

Definition text_cell (c : cell) : bool :=
  match c with
  | NA | Str _ => true
  | _ => false
  end.

(** The strings of an object column; [None] marks a missing value. *)
Definition cell_text (c : cell) : result (option string) :=
  match c with
  | NA => Ok None
  | Str s => Ok (Some s)
  | _ => Raise (ValueError "argument must be a string")
  end.

Fixpoint cells_text (l : list cell) : result (list (option string)) :=
  match l with
  | [] => Ok []
  | c :: l' =>
      t <- cell_text c ;;
      ts <- cells_text l' ;;
      Ok (t :: ts)
  end.

Fixpoint present {A : Type} (l : list (option A)) : list A :=
  match l with
  | [] => []
  | Some x :: l' => x :: present l'
  | None :: l' => present l'
  end.

Inductive handle_unknown : Type := hu_error | hu_ignore.

(** State of the fitted categorical path for one column.  [fill = None]
    when every training value was missing; the imputer then discards the
    column. *)
Record CatState : Type := mkCatState {
  fill : option string;
  categories : list string
}.

Definition impute_string (fill : string) (v : option string) : string :=
  match v with
  | Some s => s
  | None => fill
  end.

Definition cat_fit (train : list cell) : result CatState :=
  vals <- cells_text train ;;
  match most_frequent (present vals) with
  | None => Ok (mkCatState None [])
  | Some m => Ok (mkCatState (Some m) (unique_sorted (map (impute_string m) vals)))
  end.

(** [OneHotEncoder.transform] of one value. *)
Definition onehot (hu : handle_unknown) (cats : list string) (v : cell)
  : result (list Q) :=
  let known := match v with Str s => mem_string s cats | _ => false end in
  if known then
    Ok (map (fun c => match v with
                      | Str s => if String.eqb s c then 1%Q else 0%Q
                      | _ => 0%Q
                      end) cats)
  else
    match hu with
    | hu_ignore => Ok (map (fun _ => 0%Q) cats)
    | hu_error => Raise (ValueError "Found unknown categories")
    end.

(** The script's categorical pipeline applied to one presented value:
    [SimpleImputer(strategy='most_frequent')] then
    [OneHotEncoder(handle_unknown='ignore')]. *)
Definition cat_transform (st : CatState) (v : cell) : result (list Q) :=
  match fill st with
  | None => Ok []
  | Some m =>
      let v' := if is_na v then Str m else v in
      onehot hu_ignore (categories st) v'
  end.

Fixpoint map_result {A B : Type} (f : A -> result B) (l : list A) : result (list B) :=
  match l with
  | [] => Ok []
  | x :: l' =>
      y <- f x ;;
      ys <- map_result f l' ;;
      Ok (y :: ys)
  end.

Section Preprocessor.

(** The numeric path ([SimpleImputer(strategy='median')] then
    [StandardScaler]) works column by column: [num_state] holds the
    statistics fitted from one training column, [num_apply] transforms
    one value with them. *)
Variable NumState : Type.
Variable num_state : list cell -> NumState.
Variable num_apply : NumState -> cell -> Q.

(** A fitted column: [None] when the imputer discards it because every
    training value was missing. *)
Definition num_fit (train : list cell) : option NumState :=
  if forallb is_na train then None else Some (num_state train).

Record Preprocessor : Type := mkPreprocessor {
  num_fitted : list (string * option NumState);
  cat_fitted : list (string * CatState)
}.

(** A column requested by name that the frame lacks is a ValueError. *)
Definition transformer_column (nm : string) (X : DataFrame) : result Series :=
  match find_column nm (columns X) with
  | Some s => Ok s
  | None => Raise (ValueError "A given column is not a column of the dataframe")
  end.

(** [ColumnTransformer.fit]: only the columns named by the two
    transformers are read; the remainder is dropped. *)
Definition preprocessor_fit (r : ColumnRoles) (X : DataFrame) : result Preprocessor :=
  nums <- map_result (fun nm => s <- transformer_column nm X ;;
                                Ok (nm, num_fit (col_values s))) (num_cols r) ;;
  cats <- map_result (fun nm => s <- transformer_column nm X ;;
                                st <- cat_fit (col_values s) ;;
                                Ok (nm, st)) (cat_cols r) ;;
  Ok (mkPreprocessor nums cats).

(** One row of the feature matrix: the numeric block, then the one-hot
    block of every categorical column. *)
Definition num_block (p : Preprocessor) (r : row) : list Q :=
  flat_map (fun ns => match snd ns with
                      | Some st => [num_apply st (row_get (fst ns) r)]
                      | None => []
                      end) (num_fitted p).

Definition cat_block (p : Preprocessor) (r : row) : result (list Q) :=
  blocks <- map_result (fun cs => cat_transform (snd cs) (row_get (fst cs) r))
                       (cat_fitted p) ;;
  Ok (concat blocks).

Definition preprocessor_transform_row (p : Preprocessor) (r : row) : result (list Q) :=
  cs <- cat_block p r ;;
  Ok (num_block p r ++ cs)%list.

(** A row as the frames of the split hand it to the fitted transformer:
    it has every column of the two groups, with a number or a missing
    value in a numeric column and a string or a missing value in a
    categorical one. *)
Definition row_fits (r : ColumnRoles) (rw : row) : Prop :=
  (forall nm, In nm (num_cols r) ->
     In nm (map fst rw) /\ numeric_cell (row_get nm rw) = true) /\
  (forall nm, In nm (cat_cols r) ->
     In nm (map fst rw) /\ text_cell (row_get nm rw) = true).

(** Width of the feature matrix, [n_features_in_] of the next step. *)
Definition preprocessor_width (p : Preprocessor) : nat :=
  length (filter (fun ns => match snd ns with Some _ => true | None => false end)
                 (num_fitted p))
  + list_sum (map (fun cs => length (categories (snd cs))) (cat_fitted p)).

End Preprocessor.

(** ** Polynomial expansion (line 60) *)

(** [itertools.combinations_with_replacement(range(n), k)] restricted to
    indices from [lo] on, in lexicographic order. *)
Fixpoint combinations_from (n k lo : nat) : list (list nat) :=
  match k with
  | 0 => [[]]
  | S k' =>
      flat_map (fun i => map (cons i) (combinations_from n k' i)) (seq lo (n - lo))
  end.

(** The monomials of [PolynomialFeatures(degree, include_bias=False)] over
    [n] inputs: degree 1 first, then degree 2, ... *)
Definition poly_combinations (n degree : nat) : list (list nat) :=
  flat_map (fun k => combinations_from n k 0) (seq 1 degree).

Definition n_output_features (n degree : nat) : nat :=
  length (poly_combinations n degree).

(** Exponent of each input in a monomial (its indices are ascending). *)
Fixpoint powers (combo : list nat) : list (nat * nat) :=
  match combo with
  | [] => []
  | i :: rest =>
      match powers rest with
      | (j, e) :: ps => if i =? j then (j, S e) :: ps else (i, 1) :: (j, e) :: ps
      | [] => [(i, 1)]
      end
  end.

Definition string_of_nat (n : nat) : string :=
  NilZero.string_of_uint (Nat.to_uint n).

Definition term_name (input_features : list string) (ie : nat * nat) : string :=
  let nm := nth (fst ie) input_features EmptyString in
  if snd ie =? 1 then nm else nm ++ "^" ++ string_of_nat (snd ie).

Definition monomial_name (input_features : list string) (combo : list nat) : string :=
  String.concat " " (map (term_name input_features) (powers combo)).

(** [PolynomialFeatures.get_feature_names_out(input_features)] on a step
    fitted on [n_features_in] columns. *)
Definition get_feature_names_out (n_features_in degree : nat)
  (input_features : list string) : result (list string) :=
  if length input_features =? n_features_in then
    Ok (map (monomial_name input_features) (poly_combinations n_features_in degree))
  else
    Raise (ValueError "input_features should have length equal to number of features").

(** ** Estimators, pipeline and parameter grid (lines 57-69) *)

Inductive estimator : Type :=
| LinearRegression
| Ridge (alpha : Q)
| Lasso (alpha : Q).

(** [estimator.set_params(alpha=a)]: [LinearRegression] has no such
    parameter. *)
Definition set_alpha (e : estimator) (a : Q) : result estimator :=
  match e with
  | LinearRegression =>
      Raise (ValueError "Invalid parameter 'alpha' for estimator LinearRegression()")
  | Ridge _ => Ok (Ridge a)
  | Lasso _ => Ok (Lasso a)
  end.

Record Pipeline : Type := mkPipeline {
  pre_num_cols : list string;
  pre_cat_cols : list string;
  poly_degree : nat;
  model : estimator
}.

Definition pipeline (r : ColumnRoles) : Pipeline :=
  mkPipeline (num_cols r) (cat_cols r) 2 LinearRegression.

Record ParamGrid : Type := mkGrid {
  grid_degree : list nat;      (* 'poly_features__degree' *)
  grid_model : list estimator; (* 'model' *)
  grid_alpha : list Q          (* 'model__alpha' *)
}.

Definition param_grid : ParamGrid :=
  mkGrid [1; 2; 3]
         [LinearRegression; Ridge 1; Lasso 1]
         [1 # 10; 1; 10]%Q.

Record Candidate : Type := mkCandidate {
  c_model : estimator;
  c_alpha : Q;
  c_degree : nat
}.

(** [ParameterGrid]: keys in sorted order ('model', 'model__alpha',
    'poly_features__degree'), the last one varying fastest. *)
Definition ParameterGrid (g : ParamGrid) : list Candidate :=
  flat_map (fun m =>
    flat_map (fun a =>
      map (fun d => mkCandidate m a d) (grid_degree g)) (grid_alpha g)) (grid_model g).

(** [Pipeline.set_params] with a candidate's entries: the 'model' step is replaced
    first, then the nested parameters are handed to the steps. *)
Definition set_params (p : Pipeline) (c : Candidate) : result Pipeline :=
  m <- set_alpha (c_model c) (c_alpha c) ;;
  Ok (mkPipeline (pre_num_cols p) (pre_cat_cols p) (c_degree c) m).

(** Whether a candidate's parameters can be set on the pipeline. *)
Definition accepted (p : Pipeline) (c : Candidate) : bool :=
  match set_params p c with
  | Ok _ => true
  | Raise _ => false
  end.

(** ** Cross-validated grid search (lines 77-81) *)

Definition fold_sizes (k n : nat) : list nat :=
  map (fun i => n / k + (if i <? n mod k then 1 else 0)) (seq 0 k).

Fixpoint folds_from (n start : nat) (sizes : list nat) : list (list nat * list nat) :=
  match sizes with
  | [] => []
  | sz :: rest =>
      ((seq 0 start ++ seq (start + sz) (n - (start + sz)))%list, seq start sz)
        :: folds_from n (start + sz) rest
  end.

(** [KFold(n_splits=k).split]: consecutive blocks, no shuffling. *)
Definition kfold (k n : nat) : result (list (list nat * list nat)) :=
  if n <? k then
    Raise (ValueError "Cannot have number of splits greater than the number of samples")
  else Ok (folds_from n 0 (fold_sizes k n)).

Definition Qsum (l : list Q) : Q := fold_right Qplus 0%Q l.

Definition Qmean (l : list Q) : Q := (Qsum l / inject_Z (Z.of_nat (length l)))%Q.

(** First entry with the highest score. *)
Fixpoint best_of {A : Type} (l : list (A * Q)) : option (A * Q) :=
  match l with
  | [] => None
  | (c, s) :: rest =>
      match best_of rest with
      | None => Some (c, s)
      | Some (c', s') => if Qle_bool s' s then Some (c, s) else Some (c', s')
      end
  end.

Section ModelSearch.

(** A fitted pipeline. *)
Variable Model : Type.

(** [cv_score p X y fold]: coefficient of determination of [p] fitted on
    the training part of [fold] and scored on its validation part. *)
Variable cv_score : Pipeline -> DataFrame -> DataFrame -> list nat * list nat -> Q.

(** [p.fit(X, y)] *)
Variable fit_pipeline : Pipeline -> DataFrame -> DataFrame -> Model.

(** [_fit_and_score]: the candidate's parameters are set on a clone of
    the base pipeline outside any exception handler. *)
Definition fit_and_score (base : Pipeline) (X y : DataFrame)
  (c : Candidate) (fold : list nat * list nat) : result Q :=
  p <- set_params base c ;;
  Ok (cv_score p X y fold).

Definition evaluate_candidates (base : Pipeline) (X y : DataFrame)
  (cands : list Candidate) (folds : list (list nat * list nat))
  : result (list (Candidate * Q)) :=
  map_result (fun c =>
    scores <- map_result (fit_and_score base X y c) folds ;;
    Ok (c, Qmean scores)) cands.

(** [GridSearchCV(base, grid, cv=5, scoring='r2').fit(X, y)] with
    [refit=True]: the best candidate and the pipeline refitted on all
    of [X], [y]. *)
Definition GridSearchCV_fit (base : Pipeline) (g : ParamGrid) (X y : DataFrame)
  : result (Candidate * Model) :=
  folds <- kfold 5 (n_rows X) ;;
  results <- evaluate_candidates base X y (ParameterGrid g) folds ;;
  match best_of results with
  | None => Raise (ValueError "No fits were performed")
  | Some (c, _) =>
      p <- set_params base c ;;
      Ok (c, fit_pipeline p X y)
  end.

(** *** Evaluation (lines 85-86) *)

(** [model.predict] works row by row. *)
Variable predict_row : Model -> row -> Q.

Definition predict (m : Model) (X : DataFrame) : list Q :=
  map (fun lr => predict_row m (snd lr)) (rows X).

End ModelSearch.

Definition cell_number (c : cell) : result Q :=
  match c with
  | Float q => Ok q
  | Int z => Ok (inject_Z z)
  | Flag b => Ok (if b then 1%Q else 0%Q)
  | NA => Raise (ValueError "Input contains NaN")
  | _ => Raise (ValueError "could not convert to float")
  end.

Definition cell_value (c : cell) : Q :=
  match cell_number c with
  | Ok q => q
  | Raise _ => 0%Q
  end.

Definition frame_values (y : DataFrame) : list cell :=
  match columns y with
  | s :: _ => col_values s
  | [] => []
  end.

(** [mean_squared_error(y_true, y_pred)] *)
Definition mean_squared_error (y_true : list cell) (y_pred : list Q) : result Q :=
  ys <- map_result cell_number y_true ;;
  if negb (length ys =? length y_pred) then
    Raise (ValueError "Found input variables with inconsistent numbers of samples")
  else if length ys =? 0 then
    Raise (ValueError "Found array with 0 sample(s)")
  else
    Ok (Qmean (map (fun tp => ((fst tp - snd tp) ^ 2)%Q) (combine ys y_pred))).

(** ** Feature importance table (lines 106-110) *)

Fixpoint insert_desc (x : string * Q) (l : list (string * Q)) : list (string * Q) :=
  match l with
  | [] => [x]
  | y :: l' =>
      if Qle_bool (snd y) (snd x) then x :: l else y :: insert_desc x l'
  end.

(** [sort_values(by='importance', ascending=False)] *)
Definition sort_values_desc (l : list (string * Q)) : list (string * Q) :=
  fold_right insert_desc [] l.

(** [pd.DataFrame({'feature': names, 'importance': coef})] *)
Definition frame_of_pairs (names : list string) (coef : list Q)
  : result (list (string * Q)) :=
  if length names =? length coef then Ok (combine names coef)
  else Raise (ValueError "All arrays must be of the same length").

(** The polynomial step was fitted on [n_features_in] columns, the width
    of the preprocessor's output; the script asks it for names with
    [num_cols] as the input names. *)
Definition feature_importance_df (n_features_in degree : nat)
  (num_cols : list string) (coef : list Q) : result (list (string * Q)) :=
  feature_names <- get_feature_names_out n_features_in degree num_cols ;;
  table <- frame_of_pairs feature_names coef ;;
  Ok (sort_values_desc table).

(** Lines 106-110 on the selected pipeline: its polynomial step was fitted
    on the output of the fitted preprocessor [p]. *)
Definition best_model_feature_importance {NumState : Type}
  (p : Preprocessor NumState) (r : ColumnRoles) (degree : nat) (coef : list Q)
  : result (list (string * Q)) :=
  feature_importance_df (preprocessor_width NumState p) degree (num_cols r) coef.

(** ** Prediction merge (lines 125-127) *)

(** Equality of two timestamps of one converted column, whose values
    all carry the same UTC offset. *)
Definition timestamp_eqb (a b : Timestamp) : bool :=
  (ts_year a =? ts_year b)%Z && (ts_month a =? ts_month b)%Z &&
  (ts_day a =? ts_day b)%Z && (ts_hour a =? ts_hour b)%Z &&
  (ts_minute a =? ts_minute b)%Z && (ts_second a =? ts_second b)%Z &&
  offset_eqb (ts_offset a) (ts_offset b).

(** Equality of index labels; an integer never equals a timestamp. *)
Definition label_eqb (a b : cell) : bool :=
  match a, b with
  | Int x, Int y => (x =? y)%Z
  | Float p, Float q => Qeq_bool p q
  | Str s, Str t => String.eqb s t
  | Flag x, Flag y => Bool.eqb x y
  | Time s, Time t => timestamp_eqb s t
  | _, _ => false
  end.

Definition drop_column (nm : string) (cols : list Series) : list Series :=
  filter (fun s => negb (String.eqb nm (col_name s))) cols.

(** [df.set_index(name, inplace=True)]: the column becomes the index. *)
Definition set_index (nm : string) (df : DataFrame) : result DataFrame :=
  s <- get_column nm df ;;
  Ok (mkFrame (col_values s) (drop_column nm (columns df))).

(** The value listed with a label; the values are written in order, so
    for a label listed twice the later value stays. *)
Fixpoint lookup_label (l : cell) (labels : list cell) (vals : list cell) : option cell :=
  match labels, vals with
  | k :: labels', v :: vals' =>
      match lookup_label l labels' vals' with
      | Some w => Some w
      | None => if label_eqb l k then Some v else None
      end
  | _, _ => None
  end.

(** [df.loc[labels, name] = vals]: every label has to be in the index. *)
Definition loc_assign (labels : list cell) (nm : string) (vals : list cell)
  (df : DataFrame) : result DataFrame :=
  match find (fun l => negb (existsb (label_eqb l) (index df))) labels with
  | Some _ => Raise (KeyError "labels not in index")
  | None =>
      s <- get_column nm df ;;
      if length labels =? length vals then
        Ok (set_column
              (mkSeries nm (col_dtype s)
                 (map (fun lv => match lookup_label (fst lv) labels vals with
                                 | Some v => v
                                 | None => snd lv
                                 end) (combine (index df) (col_values s)))) df)
      else Raise (ValueError "shape mismatch")
  end.

Definition prediction_merge (data : DataFrame) (test_index : list cell)
  (y_pred : list Q) : result DataFrame :=
  data <- set_index "timestamp" data ;;
  let data :=
    set_column (mkSeries "predicted_consumption" float64 (repeat NA (n_rows data)))
               data in
  loc_assign test_index "predicted_consumption" (map Float y_pred) data.

(** What the specification asks of the merge: the test rows, found by
    their label, carry their prediction and every other row is missing. *)
Definition merged_as_specified (data : DataFrame) (test_index : list cell)
  (y_pred : list Q) (out : DataFrame) : Prop :=
  exists s,
    find_column "predicted_consumption" (columns out) = Some s /\
    col_values s =
      map (fun l => match lookup_label l test_index (map Float y_pred) with
                    | Some v => v
                    | None => NA
                    end) (index data).

(** ** The script from the classified columns to the evaluation *)

Section Script.

Variable rng_permutation : Z -> nat -> list nat.
Variable Model : Type.
Variable cv_score : Pipeline -> DataFrame -> DataFrame -> list nat * list nat -> Q.
Variable fit_pipeline : Pipeline -> DataFrame -> DataFrame -> Model.
Variable predict_row : Model -> row -> Q.

(** Lines 33-37 and 72-74. *)
Definition split_data (data : DataFrame) : result (ColumnRoles * Split) :=
  roles <- classify_columns data ;;
  X <- select_columns (features roles) data ;;
  y <- series_frame target data ;;
  sp <- train_test_split rng_permutation X y test_size random_state ;;
  Ok (roles, sp).

(** Lines 77-81, for any parameter grid. *)
Definition model_search (g : ParamGrid) (data : DataFrame)
  : result (Candidate * Model) :=
  rs <- split_data data ;;
  GridSearchCV_fit Model cv_score fit_pipeline (pipeline (fst rs)) g
    (X_train (snd rs)) (y_train (snd rs)).

(** Lines 85-86. *)
Definition evaluate_mse (best_model : Model) (sp : Split) : result Q :=
  let y_pred := predict Model predict_row best_model (X_test sp) in
  mean_squared_error (frame_values (y_test sp)) y_pred.

End Script.

(** The mean of the squared differences prediction minus actual over the
    rows at the given positions of the dataset. *)
Definition mean_squared_difference (positions : list nat)
  (prediction actual : nat -> Q) : Q :=
  (Qsum (map (fun i => ((prediction i - actual i) ^ 2)%Q) positions)
   / inject_Z (Z.of_nat (length positions)))%Q.

Definition row_at (df : DataFrame) (i : nat) : cell * row :=
  (nth i (index df) NA,
   map (fun s => (col_name s, nth i (col_values s) NA)) (columns df)).

(** ** A small dataset

    A concrete table, a date parser for the format [YYYY-MM-DD HH:MM:SS]
    with an optional UTC offset, and a concrete permutation, used to run
    the definitions. *)

Definition digit_value (a : ascii) : option Z :=
  let n := nat_of_ascii a in
  if (48 <=? n) && (n <=? 57) then Some (Z.of_nat (n - 48)) else None.

Fixpoint digits_value (acc : Z) (s : string) : option Z :=
  match s with
  | EmptyString => Some acc
  | String a s' =>
      match digit_value a with
      | Some d => digits_value (10 * acc + d)%Z s'
      | None => None
      end
  end.

Definition digits_at (s : string) (start len : nat) : option Z :=
  digits_value 0%Z (substring start len s).

Definition in_range (lo hi x : Z) : bool := (lo <=? x)%Z && (x <=? hi)%Z.

(** The UTC offset written after the seconds: nothing (a naive
    timestamp), or [+HH:MM] or [-HH:MM]. *)
Definition parse_offset (s : string) : option (option Z) :=
  if String.length s =? 19 then Some None
  else if String.length s =? 25 then
    match digits_at s 20 2, digits_at s 23 2 with
    | Some h, Some m =>
        if String.eqb (substring 22 1 s) ":" && in_range 0 23 h && in_range 0 59 m
        then
          if String.eqb (substring 19 1 s) "+" then Some (Some (60 * h + m)%Z)
          else if String.eqb (substring 19 1 s) "-" then Some (Some (- (60 * h + m))%Z)
          else None
        else None
    | _, _ => None
    end
  else None.

Definition parse_iso (s : string) : option Timestamp :=
  match digits_at s 0 4, digits_at s 5 2, digits_at s 8 2,
        digits_at s 11 2, digits_at s 14 2, digits_at s 17 2, parse_offset s with
  | Some y, Some m, Some d, Some hh, Some mm, Some ss, Some offset =>
      if String.eqb (substring 4 1 s) "-" && String.eqb (substring 7 1 s) "-"
         && String.eqb (substring 10 1 s) " "
         && String.eqb (substring 13 1 s) ":" && String.eqb (substring 16 1 s) ":"
         && in_range 1 12 m && in_range 1 31 d
         && in_range 0 23 hh && in_range 0 59 mm && in_range 0 59 ss
      then Some (mkTimestamp y m d hh mm ss offset)
      else None
  | _, _, _, _, _, _, _ => None
  end.

Definition example_parse (_ : list cell) (c : cell) : option Timestamp :=
  match c with
  | Str s => parse_iso s
  | _ => None
  end.

(** Eight rows as [read_csv] delivers them; the third timestamp does not
    parse. *)
Definition example_timestamps : Series :=
  mkSeries "timestamp" object
    [Str "2017-01-02 00:00:00"; Str "2017-01-02 01:00:00"; Str "yesterday";
     Str "2017-01-03 00:00:00"; Str "2017-01-03 01:00:00";
     Str "2017-01-04 12:00:00"; Str "2017-01-05 06:00:00";
     Str "2017-01-06 18:00:00"].

Definition example_raw : DataFrame :=
  mkFrame
    [Int 0; Int 1; Int 2; Int 3; Int 4; Int 5; Int 6; Int 7]%Z
    [ example_timestamps;
      mkSeries "consumption" float64
        [Float 10; Float 12; Float 11; Float 14; Float 13; Float 20;
         Float 16; Float 18]%Q;
      mkSeries "temperature" float64
        [Float 3; Float 4; Float 4; NA; Float 5; Float 6; Float 7; Float 8]%Q;
      mkSeries "site" object
        [Str "A"; Str "B"; Str "A"; Str "A"; NA; Str "B"; Str "A"; Str "C"];
      mkSeries "is_holiday" bool_
        [Flag true; Flag false; Flag false; Flag false; Flag false; Flag false;
         Flag false; Flag true] ].

(** The table after feature derivation, with int64 calendar fields. *)
Definition example_data : DataFrame :=
  match feature_derive example_parse int64 example_raw with
  | Ok data => data
  | Raise _ => mkFrame [] []
  end.

Definition example_permutation (_ : Z) (n : nat) : list nat := rev (seq 0 n).

Definition example_roles : ColumnRoles :=
  match classify_columns example_data with
  | Ok r => r
  | Raise _ => mkRoles [] [] []
  end.

Definition example_X : DataFrame :=
  match select_columns (features example_roles) example_data with
  | Ok X => X
  | Raise _ => mkFrame [] []
  end.

Definition example_y : DataFrame :=
  match series_frame target example_data with
  | Ok y => y
  | Raise _ => mkFrame [] []
  end.

Definition example_target : Series :=
  match columns example_y with
  | s :: _ => s
  | [] => mkSeries target float64 []
  end.

Definition example_holiday : Series :=
  match find_column "is_holiday" (columns example_data) with
  | Some s => s
  | None => mkSeries "is_holiday" bool_ []
  end.

Definition example_split : Split :=
  match train_test_split example_permutation example_X example_y
          test_size random_state with
  | Ok sp => sp
  | Raise _ => mkSplit (mkFrame [] []) (mkFrame [] []) (mkFrame [] []) (mkFrame [] [])
  end.

(** A second run: the same table except for its last two rows, which
    the example permutation puts in the test set. *)
Definition example_raw' : DataFrame :=
  mkFrame
    [Int 0; Int 1; Int 2; Int 3; Int 4; Int 5; Int 6; Int 7]%Z
    [ mkSeries "timestamp" object
        [Str "2017-01-02 00:00:00"; Str "2017-01-02 01:00:00"; Str "yesterday";
         Str "2017-01-03 00:00:00"; Str "2017-01-03 01:00:00";
         Str "2017-01-04 12:00:00"; Str "2017-02-01 00:00:00";
         Str "2017-02-02 00:00:00"];
      mkSeries "consumption" float64
        [Float 10; Float 12; Float 11; Float 14; Float 13; Float 20;
         Float 99; Float 1]%Q;
      mkSeries "temperature" float64
        [Float 3; Float 4; Float 4; NA; Float 5; Float 6; Float 30; NA]%Q;
      mkSeries "site" object
        [Str "A"; Str "B"; Str "A"; Str "A"; NA; Str "B"; Str "D"; Str "D"];
      mkSeries "is_holiday" bool_
        [Flag true; Flag false; Flag false; Flag false; Flag false; Flag false;
         Flag true; Flag true] ].

Definition example_data' : DataFrame :=
  match feature_derive example_parse int64 example_raw' with
  | Ok data => data
  | Raise _ => mkFrame [] []
  end.

Definition example_split' : Split :=
  match split_data example_permutation example_data' with
  | Ok rs => snd rs
  | Raise _ => mkSplit (mkFrame [] []) (mkFrame [] []) (mkFrame [] []) (mkFrame [] [])
  end.

(** Stand-ins for the numerical routines: a "model" that is the pipeline
    itself and predicts the temperature of the row. *)
Definition example_cv_score (_ : Pipeline) (_ _ : DataFrame) (_ : list nat * list nat)
  : Q := 0%Q.

Definition example_fit_pipeline (p : Pipeline) (_ _ : DataFrame) : Pipeline := p.

Definition example_predict_row (_ : Pipeline) (r : row) : Q :=
  cell_value (row_get "temperature" r).

Definition example_num_state (_ : list cell) : unit := tt.

Definition example_num_apply (_ : unit) (c : cell) : Q := cell_value c.

(** A grid whose estimators all have a regularization strength. *)
Definition example_grid : ParamGrid :=
  mkGrid [1; 2] [Ridge 1; Lasso 1] [1 # 10; 1]%Q.

Definition example_preprocessor : Preprocessor unit :=
  match preprocessor_fit unit example_num_state example_roles (X_train example_split) with
  | Ok p => p
  | Raise _ => mkPreprocessor unit [] []
  end.

(** ** The other test metrics (lines 87-88) *)

(** [mean_absolute_error(y_true, y_pred)] *)
Definition mean_absolute_error (y_true : list cell) (y_pred : list Q) : result Q :=
  ys <- map_result cell_number y_true ;;
  if negb (length ys =? length y_pred) then
    Raise (ValueError "Found input variables with inconsistent numbers of samples")
  else if length ys =? 0 then
    Raise (ValueError "Found array with 0 sample(s)")
  else
    Ok (Qmean (map (fun tp => Qabs (snd tp - fst tp)) (combine ys y_pred))).


(** ** Cross-validation of the selected pipeline (lines 101-103) *)

Section CrossValScore.

Variable cv_score : Pipeline -> DataFrame -> DataFrame -> list nat * list nat -> Q.

(** [cross_val_score(p, X, y, cv=5, scoring='r2')]: one score per fold of
    the whole of [X], [y]. *)
Definition cross_val_score (p : Pipeline) (X y : DataFrame) : result (list Q) :=
  if n_rows X =? n_rows y then
    folds <- kfold 5 (n_rows X) ;;
    Ok (map (cv_score p X y) folds)
  else Raise (ValueError "Found input variables with inconsistent numbers of samples").

End CrossValScore.

(** ** Numeric path: the median of the imputer (line 41) *)




(** ** Values of the polynomial expansion (line 60) *)

Definition monomial_value (x : list Q) (combo : list nat) : Q :=
  fold_right (fun i acc => (nth i x 0 * acc)%Q) 1%Q combo.

(** [PolynomialFeatures(degree, include_bias=False).transform] of one row. *)
Definition poly_transform (degree : nat) (x : list Q) : list Q :=
  map (monomial_value x) (poly_combinations (length x) degree).

(** Binomial coefficient, by Pascal's rule. *)
Fixpoint binomial (n k : nat) : nat :=
  match n, k with
  | _, 0 => 1
  | 0, S _ => 0
  | S n', S k' => binomial n' k' + binomial n' k
  end.

(** ** The derived frame in closed form

    What [feature_derive] returns on a table whose timestamp column [ts]
    converts, with the lookups of the intermediate frames resolved. *)

Section DerivedFrame.

Variable parse_datetime : list cell -> cell -> option Timestamp.
Variable calendar_dtype : dtype.

Definition parsed_mask (ts : Series) : list bool :=
  map (fun c => negb (is_na c)) (col_values (datetime_column parse_datetime ts)).

Definition kept_timestamps (ts : Series) : Series :=
  mask_series (parsed_mask ts) (datetime_column parse_datetime ts).

Definition derived_columns (raw : DataFrame) (ts : Series) : list Series :=
  let t := kept_timestamps ts in
  assign (dt_field calendar_dtype "dayofweek" ts_dayofweek t)
    (assign (dt_field calendar_dtype "hour" ts_hour t)
      (assign (dt_field calendar_dtype "day" ts_day t)
        (assign (dt_field calendar_dtype "month" ts_month t)
          (assign (dt_field calendar_dtype "year" ts_year t)
            (map (mask_series (parsed_mask ts))
                 (assign (datetime_column parse_datetime ts) (columns raw))))))).

Definition derived_frame (raw : DataFrame) (ts : Series) : DataFrame :=
  mkFrame (filter_mask (parsed_mask ts) (index raw)) (derived_columns raw ts).

End DerivedFrame.

Definition calendar_fields : list string :=
  ["year"; "month"; "day"; "hour"; "dayofweek"].


(** The lexicographic order on strings that [numpy.unique] sorts by. *)
Definition string_lt : string -> string -> Prop := OrderedTypeEx.String_as_OT.lt.

(** ** Further runs on the small dataset *)

(** The derived table when the calendar fields are int32 (pandas 2). *)
Definition example_data32 : DataFrame :=
  match feature_derive example_parse int32 example_raw with
  | Ok data => data
  | Raise _ => mkFrame [] []
  end.

Definition example_roles32 : ColumnRoles :=
  match classify_columns example_data32 with
  | Ok r => r
  | Raise _ => mkRoles [] [] []
  end.

(** The parsed timestamp column of the derived table. *)
Definition example_parsed : Series :=
  match find_column "timestamp" (columns example_data) with
  | Some s => s
  | None => mkSeries "timestamp" datetime64 []
  end.

(** A table whose two timestamps are written with different UTC
    offsets. *)
Definition example_mixed_timestamps : Series :=
  mkSeries "timestamp" object
    [Str "2017-01-02 00:00:00+01:00"; Str "2017-01-02 01:00:00+02:00"].

Definition example_mixed_raw : DataFrame :=
  mkFrame [Int 0; Int 1]%Z
    [ example_mixed_timestamps;
      mkSeries "consumption" float64 [Float 10; Float 12]%Q ].

(** The first row of the test frame. *)
Definition example_test_row : row :=
  match rows (X_test example_split) with
  | lr :: _ => snd lr
  | [] => []
  end.

(** The first six rows of the derived table. *)
Definition example_data6 : DataFrame := take_rows [0; 1; 2; 3; 4; 5] example_data.

Definition example_split6 : ColumnRoles * Split :=
  match split_data example_permutation example_data6 with
  | Ok rs => rs
  | Raise _ =>
      (mkRoles [] [] [],
       mkSplit (mkFrame [] []) (mkFrame [] []) (mkFrame [] []) (mkFrame [] []))
  end.

(** Column groups without a categorical column. *)
Definition example_numeric_roles : ColumnRoles :=
  mkRoles ["temperature"; "hour"] ["temperature"; "hour"] [].

Definition example_numeric_preprocessor : Preprocessor unit :=
  match preprocessor_fit unit example_num_state example_numeric_roles
          (X_train example_split) with
  | Ok p => p
  | Raise _ => mkPreprocessor unit [] []
  end.

(** * Properties *)

(** ** Generic facts about frames and their row view *)

Lemma dtype_eqb_eq (a b : dtype) : dtype_eqb a b = true <-> a = b.
Proof. destruct a, b; simpl; split; intros H; try reflexivity; discriminate. Qed.

Lemma bind_ok {A B : Type} (m : result A) (k : A -> result B) (b : B) :
  bind m k = Ok b -> exists a, m = Ok a /\ k a = Ok b.
Proof.
  destruct m as [a | e]; simpl; intros H.
  - exists a. split; [reflexivity | exact H].
  - discriminate.
Qed.

Lemma find_column_name nm cols s :
  find_column nm cols = Some s -> col_name s = nm.
Proof.
  induction cols as [| c cols IH]; simpl; [discriminate |].
  destruct (String.eqb_spec nm (col_name c)) as [E | _].
  - intros H. injection H as <-. symmetry. exact E.
  - exact IH.
Qed.

Lemma find_column_In nm cols s :
  find_column nm cols = Some s -> In s cols.
Proof.
  induction cols as [| c cols IH]; simpl; [discriminate |].
  destruct (String.eqb nm (col_name c)).
  - intros H. injection H as <-. now left.
  - intros H. right. now apply IH.
Qed.

Lemma find_column_assign_same s cols :
  find_column (col_name s) (assign s cols) = Some s.
Proof.
  induction cols as [| c cols IH]; simpl.
  - now rewrite String.eqb_refl.
  - destruct (String.eqb_spec (col_name s) (col_name c)) as [E | NE]; simpl.
    + now rewrite String.eqb_refl.
    + destruct (String.eqb_spec (col_name s) (col_name c)); [contradiction | exact IH].
Qed.

Lemma find_column_assign_other nm s cols :
  col_name s <> nm -> find_column nm (assign s cols) = find_column nm cols.
Proof.
  intros NE. induction cols as [| c cols IH]; simpl.
  - destruct (String.eqb_spec nm (col_name s)); [congruence | reflexivity].
  - destruct (String.eqb_spec (col_name s) (col_name c)) as [E | NE']; simpl.
    + destruct (String.eqb_spec nm (col_name s)); [congruence |].
      destruct (String.eqb_spec nm (col_name c)); [congruence | reflexivity].
    + destruct (String.eqb nm (col_name c)); [reflexivity | exact IH].
Qed.

Lemma find_column_map_tail nm cols :
  find_column nm (map tail_series cols) = option_map tail_series (find_column nm cols).
Proof.
  induction cols as [| c cols IH]; simpl; [reflexivity |].
  destruct (String.eqb nm (col_name c)); [reflexivity | exact IH].
Qed.

Lemma row_get_set_same nm v r : row_get nm (row_set nm v r) = v.
Proof.
  induction r as [| [k w] r IH]; simpl.
  - now rewrite String.eqb_refl.
  - destruct (String.eqb_spec nm k) as [E | NE]; simpl.
    + subst k. now rewrite String.eqb_refl.
    + destruct (String.eqb_spec nm k); [contradiction | exact IH].
Qed.

Lemma row_get_set_other nm nm' v r :
  nm <> nm' -> row_get nm (row_set nm' v r) = row_get nm r.
Proof.
  intros NE. induction r as [| [k w] r IH]; simpl.
  - destruct (String.eqb_spec nm nm'); [contradiction | reflexivity].
  - destruct (String.eqb_spec nm' k) as [E | NE']; simpl.
    + subst k. destruct (String.eqb_spec nm nm'); [contradiction | reflexivity].
    + destruct (String.eqb nm k); [reflexivity | exact IH].
Qed.

Lemma row_get_head_row nm cols :
  row_get nm (head_row cols) =
  match find_column nm cols with
  | Some s => hd NA (col_values s)
  | None => NA
  end.
Proof.
  induction cols as [| c cols IH]; simpl; [reflexivity |].
  destruct (String.eqb nm (col_name c)); [reflexivity | exact IH].
Qed.

Lemma head_row_assign s cols :
  head_row (assign s cols) = row_set (col_name s) (hd NA (col_values s)) (head_row cols).
Proof.
  induction cols as [| c cols IH]; simpl; [reflexivity |].
  destruct (String.eqb_spec (col_name s) (col_name c)) as [E | NE]; simpl.
  - now rewrite E.
  - now rewrite IH.
Qed.

Lemma map_tail_assign s cols :
  map tail_series (assign s cols) = assign (tail_series s) (map tail_series cols).
Proof.
  induction cols as [| c cols IH]; simpl; [reflexivity |].
  destruct (String.eqb (col_name s) (col_name c)); simpl; [reflexivity | now rewrite IH].
Qed.

Lemma length_rows_of idx cols : length (rows_of idx cols) = length idx.
Proof.
  revert cols. induction idx as [| l idx IH]; intros cols; simpl; [reflexivity |].
  now rewrite IH.
Qed.

(** Assigning a column computed cell by cell from another column changes
    every row by the matching [row_set]. *)
Lemma rows_of_assign_map idx : forall cols nm nm' dt (g : cell -> cell) s,
  find_column nm cols = Some s ->
  length (col_values s) = length idx ->
  rows_of idx (assign (mkSeries nm' dt (map g (col_values s))) cols) =
  map (fun lr => (fst lr, row_set nm' (g (row_get nm (snd lr))) (snd lr)))
      (rows_of idx cols).
Proof.
  induction idx as [| l idx IH]; intros cols nm nm' dt g s Hf Hlen; simpl.
  - reflexivity.
  - rewrite head_row_assign, row_get_head_row, Hf. simpl.
    destruct (col_values s) as [| v vs] eqn:Ev; [discriminate |]. simpl.
    f_equal.
    rewrite map_tail_assign.
    change (tail_series (mkSeries nm' dt (g v :: map g vs)))
      with (mkSeries nm' dt (map g vs)).
    assert (Hvs : vs = col_values (tail_series s)) by (simpl; now rewrite Ev).
    rewrite Hvs.
    apply IH.
    + rewrite find_column_map_tail, Hf. reflexivity.
    + rewrite <- Hvs. simpl in Hlen. lia.
Qed.

Lemma filter_mask_nil {A : Type} (mask : list bool) : filter_mask mask (@nil A) = [].
Proof. destruct mask as [| [] ?]; reflexivity. Qed.

Lemma length_filter_mask {A B : Type} (mask : list bool) :
  forall (l : list A) (l' : list B),
  length l = length l' ->
  length (filter_mask mask l) = length (filter_mask mask l').
Proof.
  induction mask as [| b mask IH]; intros [| x l] [| y l'] H; simpl in *;
    try reflexivity; try discriminate.
  destruct b; simpl; [f_equal |]; apply IH; lia.
Qed.

Lemma rows_of_mask mask : forall idx cols,
  rows_of (filter_mask mask idx) (map (mask_series mask) cols) =
  filter_mask mask (rows_of idx cols).
Proof.
  induction mask as [| b mask IH]; intros idx cols.
  - reflexivity.
  - destruct idx as [| l idx]; [reflexivity |].
    assert (Htail : map tail_series (map (mask_series (true :: mask)) cols) =
                    map (mask_series mask) (map tail_series cols)).
    { rewrite !map_map. apply map_ext. intros s.
      unfold tail_series, mask_series. simpl.
      destruct (col_values s); simpl; [now rewrite filter_mask_nil | reflexivity]. }
    assert (Hskip : map (mask_series (false :: mask)) cols =
                    map (mask_series mask) (map tail_series cols)).
    { rewrite map_map. apply map_ext. intros s.
      unfold tail_series, mask_series. simpl.
      destruct (col_values s); simpl; [now rewrite filter_mask_nil | reflexivity]. }
    destruct b; cbn [filter_mask rows_of].
    + f_equal.
      * f_equal. unfold head_row. rewrite map_map. apply map_ext. intros s.
        simpl. destruct (col_values s); reflexivity.
      * rewrite Htail. apply IH.
    + rewrite Hskip. apply IH.
Qed.

Lemma filter_mask_rows (f : cell -> bool) idx : forall cols nm s,
  find_column nm cols = Some s ->
  length (col_values s) = length idx ->
  filter_mask (map f (col_values s)) (rows_of idx cols) =
  filter (fun lr => f (row_get nm (snd lr))) (rows_of idx cols).
Proof.
  induction idx as [| l idx IH]; intros cols nm s Hf Hlen; simpl.
  - now rewrite filter_mask_nil.
  - rewrite row_get_head_row, Hf.
    destruct (col_values s) as [| v vs] eqn:Ev; [discriminate |]. simpl.
    assert (Hvs : vs = col_values (tail_series s)) by (simpl; now rewrite Ev).
    assert (Hrec : filter_mask (map f vs) (rows_of idx (map tail_series cols)) =
                   filter (fun lr => f (row_get nm (snd lr)))
                          (rows_of idx (map tail_series cols))).
    { rewrite Hvs. apply IH.
      - rewrite find_column_map_tail, Hf. reflexivity.
      - rewrite <- Hvs. simpl in Hlen. lia. }
    destruct (f v); now rewrite Hrec.
Qed.

(** ** Column classifier *)

Lemma mem_string_In x l : mem_string x l = true <-> In x l.
Proof.
  unfold mem_string. rewrite existsb_exists. split.
  - intros (y & Hy & E). apply String.eqb_eq in E. now subst.
  - intros H. exists x. split; [exact H | apply String.eqb_refl].
Qed.

Lemma not_mem_string x l : negb (mem_string x l) = true <-> ~ In x l.
Proof.
  rewrite negb_true_iff, <- not_true_iff_false. now rewrite mem_string_In.
Qed.

Lemma index_drop_ok labels names l :
  index_drop labels names = Ok l ->
  l = filter (fun n => negb (mem_string n labels)) names /\
  (forall x, In x labels -> In x names).
Proof.
  unfold index_drop.
  destruct (find _ labels) as [x |] eqn:E; [discriminate |].
  intros H. injection H as <-. split; [reflexivity |].
  intros x Hx.
  pose proof (find_none _ _ E x Hx) as Hn. cbn beta in Hn.
  apply negb_false_iff in Hn. now apply mem_string_In.
Qed.

Lemma classify_columns_ok data r :
  classify_columns data = Ok r ->
  features r =
    filter (fun n => negb (mem_string n [target; "timestamp"])) (column_names data) /\
  num_cols r =
    filter (fun n => negb (mem_string n [target]))
           (column_names (select_dtypes [float64; int64] data)) /\
  cat_cols r = column_names (select_dtypes [object] data) /\
  In target (column_names (select_dtypes [float64; int64] data)).
Proof.
  unfold classify_columns. intros H.
  apply bind_ok in H. destruct H as (fs & Hfs & H).
  apply bind_ok in H. destruct H as (ns & Hns & H).
  injection H as <-. cbn [features num_cols cat_cols].
  apply index_drop_ok in Hfs. apply index_drop_ok in Hns.
  destruct Hfs as [-> _]. destruct Hns as [-> Hin].
  repeat split. apply Hin. now left.
Qed.

(** With distinct column names a name determines its column. *)
Lemma NoDup_names_inj (cols : list Series) s s' :
  NoDup (map col_name cols) ->
  In s cols -> In s' cols -> col_name s = col_name s' -> s = s'.
Proof.
  induction cols as [| c cols IH]; simpl; intros Hnd Hs Hs' E; [contradiction |].
  inversion Hnd as [| ? ? Hnotin Hnd']; subst.
  destruct Hs as [-> | Hs], Hs' as [-> | Hs'].
  - reflexivity.
  - exfalso. apply Hnotin. rewrite E. now apply in_map.
  - exfalso. apply Hnotin. rewrite <- E. now apply in_map.
  - now apply IH.
Qed.

Lemma in_select_dtypes include data s :
  In s (columns (select_dtypes include data)) <->
  In s (columns data) /\ In (col_dtype s) include.
Proof.
  unfold select_dtypes. cbn [columns]. rewrite filter_In, existsb_exists.
  split.
  - intros (Hs & d & Hd & E). apply dtype_eqb_eq in E. subst d. now split.
  - intros (Hs & Hd). split; [exact Hs |].
    exists (col_dtype s). split; [exact Hd | now apply dtype_eqb_eq].
Qed.

Lemma name_in_select_dtypes include data s :
  NoDup (column_names data) ->
  In s (columns data) ->
  In (col_name s) (column_names (select_dtypes include data)) <->
  In (col_dtype s) include.
Proof.
  intros Hnd Hs. unfold column_names at 1. rewrite in_map_iff. split.
  - intros (s' & E & Hs'). apply in_select_dtypes in Hs'. destruct Hs' as [Hin Hd].
    assert (s' = s) by (apply (NoDup_names_inj (columns data)); auto).
    now subst.
  - intros Hd. exists s. split; [reflexivity |]. now apply in_select_dtypes.
Qed.

(** Membership in the three column lists, by dtype. *)
Lemma classify_columns_membership data r s :
  NoDup (column_names data) ->
  classify_columns data = Ok r ->
  In s (columns data) ->
  (In (col_name s) (features r) <->
     col_name s <> target /\ col_name s <> "timestamp") /\
  (In (col_name s) (num_cols r) <->
     (col_dtype s = float64 \/ col_dtype s = int64) /\ col_name s <> target) /\
  (In (col_name s) (cat_cols r) <-> col_dtype s = object).
Proof.
  intros Hnd Hc Hs.
  destruct (classify_columns_ok _ _ Hc) as (Ef & En & Ec & _).
  rewrite Ef, En, Ec.
  rewrite !filter_In, !not_mem_string.
  rewrite (name_in_select_dtypes [float64; int64] data s Hnd Hs).
  rewrite (name_in_select_dtypes [object] data s Hnd Hs).
  assert (Hin : In (col_name s) (column_names data))
    by (unfold column_names; now apply in_map).
  simpl. split; [| split].
  - intuition congruence.
  - intuition congruence.
  - intuition congruence.
Qed.

(** C4, as amended. A column other than the target and the raw timestamp is
    in the numeric group exactly when its dtype is float64 or int64 and in
    the categorical group exactly when its dtype is object; so no column
    is in both groups, and a column of any other dtype is in neither. *)
Theorem classifier_groups_by_dtype (data : DataFrame) (r : ColumnRoles) (s : Series) :
  NoDup (column_names data) ->
  classify_columns data = Ok r ->
  In s (columns data) ->
  In (col_name s) (features r) ->
  (In (col_name s) (num_cols r) <-> col_dtype s = float64 \/ col_dtype s = int64) /\
  (In (col_name s) (cat_cols r) <-> col_dtype s = object) /\
  ~ (In (col_name s) (num_cols r) /\ In (col_name s) (cat_cols r)) /\
  (col_dtype s <> float64 -> col_dtype s <> int64 -> col_dtype s <> object ->
   ~ In (col_name s) (num_cols r) /\ ~ In (col_name s) (cat_cols r)).
Proof.
  intros Hnd Hc Hs Hfeat.
  destruct (classify_columns_membership data r s Hnd Hc Hs) as (Hf & Hn & Hcat).
  apply Hf in Hfeat. destruct Hfeat as [Ht _].
  split; [| split; [| split]].
  - split; intros H; [apply Hn in H; tauto | apply Hn; tauto].
  - exact Hcat.
  - intros [H1 H2]. apply Hn in H1. apply Hcat in H2.
    destruct H1 as [[E | E] _]; congruence.
  - intros N1 N2 N3. split; intros H; [apply Hn in H; tauto | apply Hcat in H; tauto].
Qed.

(** ** Feature derivation *)

Lemma find_column_map_mask nm mask cols :
  find_column nm (map (mask_series mask) cols) =
  option_map (mask_series mask) (find_column nm cols).
Proof.
  induction cols as [| c cols IH]; simpl; [reflexivity |].
  destruct (String.eqb nm (col_name c)); [reflexivity | exact IH].
Qed.

Lemma derive_rows_pointwise (parse : cell -> option Timestamp) (rs : list (cell * row)) :
  let stamp nm f := fun lr : cell * row =>
    (fst lr, row_set nm (field_cell f (row_get "timestamp" (snd lr))) (snd lr)) in
  map (stamp "dayofweek" ts_dayofweek)
    (map (stamp "hour" ts_hour)
      (map (stamp "day" ts_day)
        (map (stamp "month" ts_month)
          (map (stamp "year" ts_year)
            (filter (fun lr => negb (is_na (row_get "timestamp" (snd lr))))
              (map (fun lr => (fst lr,
                      row_set "timestamp"
                        (coerce parse (row_get "timestamp" (snd lr))) (snd lr)))
                   rs))))))
  = rows_with_parsable_timestamp parse rs.
Proof.
  intros stamp. unfold rows_with_parsable_timestamp.
  induction rs as [| [l r] rs IH]; [reflexivity |].
  cbn [map filter filter_map fst snd]. unfold derive_row at 1. cbn [fst snd].
  rewrite row_get_set_same.
  destruct (parse (row_get "timestamp" r)) as [t |] eqn:E.
  - assert (Hc : coerce parse (row_get "timestamp" r) = Time t)
      by (unfold coerce; now rewrite E).
    rewrite Hc. cbn [is_na negb map]. rewrite IH. f_equal.
    unfold stamp, extend_row. cbn [fst snd].
    repeat (rewrite row_get_set_same
            || (rewrite (row_get_set_other "timestamp") by discriminate)
            || (progress cbn [field_cell])).
    reflexivity.
  - assert (Hc : coerce parse (row_get "timestamp" r) = NA)
      by (unfold coerce; now rewrite E).
    rewrite Hc. cbn [is_na negb]. exact IH.
Qed.

Lemma parsable_rows_have_time (parse : cell -> option Timestamp) rs :
  Forall (fun lr => exists t, row_get "timestamp" (snd lr) = Time t)
         (rows_with_parsable_timestamp parse rs).
Proof.
  unfold rows_with_parsable_timestamp.
  induction rs as [| lr rs IH]; cbn [filter_map]; [constructor |].
  unfold derive_row at 1.
  destruct (parse (row_get "timestamp" (snd lr))) as [t |]; [| exact IH].
  constructor; [| exact IH].
  exists t. cbn [snd]. unfold extend_row.
  repeat (rewrite row_get_set_same
          || (rewrite (row_get_set_other "timestamp") by discriminate)).
  reflexivity.
Qed.

Lemma names_assign_cases s cols :
  map col_name (assign s cols) = map col_name cols \/
  (map col_name (assign s cols) = (map col_name cols ++ [col_name s])%list /\
   ~ In (col_name s) (map col_name cols)).
Proof.
  induction cols as [| c cols IH]; simpl.
  - right. split; [reflexivity | tauto].
  - destruct (String.eqb_spec (col_name s) (col_name c)) as [E | NE]; simpl.
    + left. now rewrite E.
    + destruct IH as [IH | [IH Hn]].
      * left. now rewrite IH.
      * right. split; [now rewrite IH |]. intros [H | H]; [congruence | tauto].
Qed.

Lemma NoDup_names_assign s cols :
  NoDup (map col_name cols) -> NoDup (map col_name (assign s cols)).
Proof.
  intros Hnd. destruct (names_assign_cases s cols) as [E | [E Hn]]; rewrite E.
  - exact Hnd.
  - apply NoDup_app; [exact Hnd | repeat constructor; tauto |].
    intros x Hx [<- | []]. contradiction.
Qed.

Lemma filter_mask_In {A : Type} (mask : list bool) : forall (l : list A) x,
  In x (filter_mask mask l) -> In x l.
Proof.
  induction mask as [| b mask IH]; intros [| y l] x; simpl; try tauto.
  destruct b; simpl; intros H.
  - destruct H as [-> | H]; [now left | right; now apply IH].
  - right. now apply IH.
Qed.

Lemma coerce_kept_are_times (parse : cell -> option Timestamp) (vs : list cell) :
  Forall (fun c => exists t, c = Time t)
    (filter_mask (map (fun c => negb (is_na c)) (map (coerce parse) vs))
                 (map (coerce parse) vs)).
Proof.
  induction vs as [| v vs IH]; cbn [map filter_mask]; [constructor |].
  assert (H : coerce parse v = NA \/ exists t, coerce parse v = Time t).
  { unfold coerce. destruct (parse v) as [t |]; [right; now exists t | now left]. }
  destruct H as [E | [t E]]; rewrite E; cbn [is_na negb].
  - exact IH.
  - constructor; [now exists t | exact IH].
Qed.

Section FeatureDeriverFacts.

Variable parse_datetime : list cell -> cell -> option Timestamp.
Variable calendar_dtype : dtype.

Lemma add_dt_field_spec nm f data s :
  find_column "timestamp" (columns data) = Some s ->
  length (col_values s) = length (index data) ->
  nm <> "timestamp" ->
  exists data',
    add_dt_field calendar_dtype nm f data = Ok data' /\
    index data' = index data /\
    find_column "timestamp" (columns data') = Some s /\
    rows data' =
      map (fun lr => (fst lr,
             row_set nm (field_cell f (row_get "timestamp" (snd lr))) (snd lr)))
          (rows data) /\
    (NoDup (column_names data) -> NoDup (column_names data')).
Proof.
  intros Hf Hlen Hnm.
  unfold add_dt_field, get_column. rewrite Hf. cbn [bind].
  eexists. split; [reflexivity |]. split; [reflexivity |]. split; [| split].
  - cbn [set_column columns]. rewrite find_column_assign_other; [exact Hf | exact Hnm].
  - unfold rows, set_column, dt_field. cbn [index columns].
    now apply rows_of_assign_map.
  - unfold column_names, set_column. cbn [columns]. apply NoDup_names_assign.
Qed.

(** With no timestamp column line 23 raises KeyError; with converted
    values of different UTC offsets the conversion raises. *)
Lemma feature_derive_no_timestamp (raw : DataFrame) :
  find_column "timestamp" (columns raw) = None ->
  feature_derive parse_datetime calendar_dtype raw = Raise (KeyError "timestamp").
Proof.
  intros Hf. unfold feature_derive, get_column. now rewrite Hf.
Qed.

Lemma feature_derive_mixed_offsets (raw : DataFrame) (ts : Series) :
  find_column "timestamp" (columns raw) = Some ts ->
  one_offset parse_datetime ts = false ->
  feature_derive parse_datetime calendar_dtype raw =
    Raise (ValueError "Mixed timezones detected").
Proof.
  intros Hf Hone. unfold feature_derive, get_column. rewrite Hf. cbn [bind].
  unfold to_datetime. now rewrite Hone.
Qed.

(** A run of the deriver that returns had one UTC offset to convert. *)
Lemma feature_derive_ok_one_offset (raw data : DataFrame) (ts : Series) :
  find_column "timestamp" (columns raw) = Some ts ->
  feature_derive parse_datetime calendar_dtype raw = Ok data ->
  one_offset parse_datetime ts = true.
Proof.
  intros Hf Hd. destruct (one_offset parse_datetime ts) eqn:Hone; [reflexivity |].
  rewrite (feature_derive_mixed_offsets raw ts Hf Hone) in Hd. discriminate.
Qed.

(** What the feature deriver returns on a well-formed table whose
    timestamp column converts. *)
Lemma feature_derive_spec (raw : DataFrame) (ts : Series) :
  find_column "timestamp" (columns raw) = Some ts ->
  one_offset parse_datetime ts = true ->
  well_formed raw ->
  exists data s',
    feature_derive parse_datetime calendar_dtype raw = Ok data /\
    rows data =
      rows_with_parsable_timestamp (parse_datetime (col_values ts)) (rows raw) /\
    find_column "timestamp" (columns data) = Some s' /\
    col_dtype s' = datetime64 /\
    length (col_values s') = length (index data) /\
    Forall (fun c => exists t, c = Time t) (col_values s') /\
    (NoDup (column_names raw) -> NoDup (column_names data)) /\
    (forall l, In l (index data) -> In l (index raw)).
Proof.
  intros Hf Hone Hwf.
  assert (Hname : col_name ts = "timestamp") by (now apply find_column_name in Hf).
  assert (Hlen : length (col_values ts) = length (index raw)).
  { unfold well_formed in Hwf. rewrite Forall_forall in Hwf.
    apply Hwf. now apply find_column_In in Hf. }
  set (parse := parse_datetime (col_values ts)).
  set (ts1 := datetime_column parse_datetime ts).
  set (mask := map (fun c => negb (is_na c)) (col_values ts1)).
  set (data2 := mkFrame (filter_mask mask (index raw))
                  (map (mask_series mask) (assign ts1 (columns raw)))).
  assert (Hts1 : find_column "timestamp" (assign ts1 (columns raw)) = Some ts1).
  { rewrite <- Hname. apply (find_column_assign_same ts1). }
  assert (Hlen1 : length (col_values ts1) = length (index raw)).
  { unfold ts1, datetime_column. cbn [col_values]. now rewrite length_map. }
  assert (Hrows2 : rows data2 =
    filter (fun lr => negb (is_na (row_get "timestamp" (snd lr))))
      (map (fun lr => (fst lr,
              row_set "timestamp" (coerce parse (row_get "timestamp" (snd lr)))
                      (snd lr)))
           (rows raw))).
  { unfold rows, data2. cbn [index columns].
    rewrite rows_of_mask. unfold mask.
    rewrite (filter_mask_rows (fun c => negb (is_na c)) (index raw) _ "timestamp" ts1 Hts1 Hlen1).
    f_equal. unfold ts1, datetime_column. rewrite Hname.
    now apply rows_of_assign_map. }
  assert (Hf2 : find_column "timestamp" (columns data2) = Some (mask_series mask ts1)).
  { unfold data2. cbn [columns]. now rewrite find_column_map_mask, Hts1. }
  assert (Hlen2 : length (col_values (mask_series mask ts1)) = length (index data2)).
  { unfold data2. cbn [index mask_series col_values].
    now apply length_filter_mask. }
  assert (Hnd2 : NoDup (column_names raw) -> NoDup (column_names data2)).
  { intros Hnd. unfold column_names, data2. cbn [columns].
    rewrite map_map. cbn [mask_series col_name].
    now apply NoDup_names_assign. }
  assert (Hidx2 : forall l, In l (index data2) -> In l (index raw)).
  { unfold data2. cbn [index]. intros l. apply filter_mask_In. }
  destruct (add_dt_field_spec "year" ts_year data2 _ Hf2 Hlen2)
    as (d3 & E3 & I3 & F3 & R3 & N3); [discriminate |].
  rewrite <- I3 in Hlen2.
  destruct (add_dt_field_spec "month" ts_month d3 _ F3 Hlen2)
    as (d4 & E4 & I4 & F4 & R4 & N4); [discriminate |].
  rewrite <- I4 in Hlen2.
  destruct (add_dt_field_spec "day" ts_day d4 _ F4 Hlen2)
    as (d5 & E5 & I5 & F5 & R5 & N5); [discriminate |].
  rewrite <- I5 in Hlen2.
  destruct (add_dt_field_spec "hour" ts_hour d5 _ F5 Hlen2)
    as (d6 & E6 & I6 & F6 & R6 & N6); [discriminate |].
  rewrite <- I6 in Hlen2.
  destruct (add_dt_field_spec "dayofweek" ts_dayofweek d6 _ F6 Hlen2)
    as (d7 & E7 & I7 & F7 & R7 & N7); [discriminate |].
  rewrite <- I7 in Hlen2.
  exists d7, (mask_series mask ts1).
  split; [| split; [| split; [| split; [| split; [| split; [| split]]]]]].
  - unfold feature_derive, get_column. rewrite Hf. cbn [bind].
    unfold to_datetime. rewrite Hone. cbn [bind].
    unfold dropna, get_column. cbn [set_column columns index].
    fold ts1. rewrite Hts1. cbn [bind]. fold mask. fold data2.
    rewrite E3. cbn [bind]. rewrite E4. cbn [bind]. rewrite E5. cbn [bind].
    rewrite E6. cbn [bind]. exact E7.
  - rewrite R7, R6, R5, R4, R3, Hrows2. apply derive_rows_pointwise.
  - exact F7.
  - reflexivity.
  - exact Hlen2.
  - cbn [mask_series col_values]. unfold mask, ts1, datetime_column.
    cbn [col_values]. apply coerce_kept_are_times.
  - intros Hnd. apply N7, N6, N5, N4, N3, Hnd2, Hnd.
  - intros l Hl. apply Hidx2. now rewrite <- I3, <- I4, <- I5, <- I6, <- I7.
Qed.

(** C6. On a well-formed table with a timestamp column the feature
    deriver has a result exactly when the values that convert carry one
    UTC offset (all none, or all the same); otherwise lines 23-25 raise
    and there is no post-derivation dataset.  The rows of the result are
    exactly the input rows whose timestamp converts, in their order and
    under their labels, each with the parsed timestamp and the five
    integer calendar fields year, month, day, hour and dayofweek; no row
    of the result has a missing timestamp. *)
Theorem feature_derive_keeps_parsable_rows (raw : DataFrame) (ts : Series) :
  find_column "timestamp" (columns raw) = Some ts ->
  well_formed raw ->
  if one_offset parse_datetime ts then
    exists data,
      feature_derive parse_datetime calendar_dtype raw = Ok data /\
      rows data =
        rows_with_parsable_timestamp (parse_datetime (col_values ts)) (rows raw) /\
      Forall (fun lr => exists t, row_get "timestamp" (snd lr) = Time t) (rows data)
  else raises (feature_derive parse_datetime calendar_dtype raw).
Proof.
  intros Hf Hwf.
  destruct (one_offset parse_datetime ts) eqn:Hone.
  - destruct (feature_derive_spec raw ts Hf Hone Hwf) as (data & s' & E & R & _).
    exists data. split; [exact E |]. split; [exact R |].
    rewrite R. apply parsable_rows_have_time.
  - eexists. now apply feature_derive_mixed_offsets with (ts := ts).
Qed.

End FeatureDeriverFacts.

(** ** Train/test split *)

Lemma n_test_of_fifth (n : nat) : n_test_of test_size n = (n + 4) / 5.
Proof.
  unfold n_test_of, test_size, Qceiling, Qfloor, Qopp, Qmult, inject_Z.
  cbn [Qnum Qden]. 
  replace (Z.pos (5 * 1)) with 5%Z by reflexivity.
  rewrite Z.mul_1_l.
  apply Nat2Z.inj. rewrite Nat2Z.inj_div, Nat2Z.inj_add.
  rewrite Z2Nat.id.
  - change (Z.of_nat 4) with 4%Z. change (Z.of_nat 5) with 5%Z.
    pose proof (Z.div_mod (- Z.of_nat n) 5 ltac:(lia)).
    pose proof (Z.mod_pos_bound (- Z.of_nat n) 5 ltac:(lia)).
    pose proof (Z.div_mod (Z.of_nat n + 4) 5 ltac:(lia)).
    pose proof (Z.mod_pos_bound (Z.of_nat n + 4) 5 ltac:(lia)).
    lia.
  - pose proof (Z.div_mod (- Z.of_nat n) 5 ltac:(lia)).
    pose proof (Z.mod_pos_bound (- Z.of_nat n) 5 ltac:(lia)).
    lia.
Qed.

Lemma fifth_bounds (n : nat) : n <= 5 * ((n + 4) / 5) < n + 5.
Proof.
  pose proof (Nat.div_mod_eq (n + 4) 5).
  pose proof (Nat.mod_upper_bound (n + 4) 5 ltac:(lia)).
  lia.
Qed.

Lemma take_seq {A : Type} (d : A) (l : list A) : take d (seq 0 (length l)) l = l.
Proof.
  unfold take. induction l as [| x l IH]; [reflexivity |].
  cbn [length seq map nth]. f_equal.
  rewrite <- seq_shift, map_map. exact IH.
Qed.

Lemma take_app {A : Type} (d : A) p q (l : list A) :
  take d (p ++ q) l = (take d p l ++ take d q l)%list.
Proof. unfold take. apply map_app. Qed.

Lemma take_permutation {A : Type} (d : A) (p : list nat) (l : list A) :
  Permutation p (seq 0 (length l)) -> Permutation (take d p l) l.
Proof.
  intros H. rewrite <- (take_seq d l) at 2.
  unfold take. now apply Permutation_map.
Qed.

Lemma rows_take_rows positions : forall idx cols,
  rows_of (take NA positions idx) (map (take_series positions) cols) =
  map (fun i => row_at (mkFrame idx cols) i) positions.
Proof.
  induction positions as [| i positions IH]; intros idx cols; [reflexivity |].
  cbn [take map rows_of]. f_equal.
  - unfold row_at, head_row. cbn [index columns]. f_equal.
    rewrite map_map. reflexivity.
  - rewrite map_map.
    rewrite <- (IH idx cols). f_equal.
Qed.

Section SplitFacts.

Variable rng_permutation : Z -> nat -> list nat.

Lemma shuffle_split_ok seed n :
  Permutation (rng_permutation seed n) (seq 0 n) ->
  2 <= n ->
  exists ind_train ind_test,
    shuffle_split rng_permutation test_size seed n = Ok (ind_train, ind_test) /\
    ind_test = firstn ((n + 4) / 5) (rng_permutation seed n) /\
    (ind_test ++ ind_train)%list = rng_permutation seed n /\
    length ind_test = (n + 4) / 5 /\
    length ind_train = n - (n + 4) / 5 /\
    1 <= length ind_test.
Proof.
  intros Hperm Hn.
  pose proof (fifth_bounds n) as Hb.
  assert (Hlen : length (rng_permutation seed n) = n).
  { rewrite (Permutation_length Hperm). apply length_seq. }
  unfold shuffle_split. rewrite n_test_of_fifth.
  set (k := (n + 4) / 5) in *.
  assert (Hk : 1 <= k <= n - 1) by lia.
  destruct (Nat.eqb_spec (n - k) 0) as [E | _]; [lia |].
  eexists. eexists. split; [reflexivity |].
  split; [reflexivity |].
  split.
  - rewrite (firstn_all2 (skipn k (rng_permutation seed n))).
    + apply firstn_skipn.
    + rewrite length_skipn. lia.
  - rewrite length_firstn, length_firstn, length_skipn. lia.
Qed.

(** C7. With the fixed seed the split returns for every table of at
    least two rows; the positions (and, the labels being distinct, the
    labels) of the test and training rows are disjoint and together are
    all rows; the test set has ceil(n / 5) rows, that is 20% rounded up;
    and the positions chosen depend on the seed and the number of rows
    only, so a second run on the same rows selects the same members. *)
Theorem train_test_split_partition (X y : DataFrame) :
  Permutation (rng_permutation random_state (n_rows X)) (seq 0 (n_rows X)) ->
  n_rows X = n_rows y ->
  2 <= n_rows X ->
  NoDup (index X) ->
  exists ind_train ind_test,
    train_test_split rng_permutation X y test_size random_state =
      Ok (mkSplit (take_rows ind_train X) (take_rows ind_test X)
                  (take_rows ind_train y) (take_rows ind_test y)) /\
    Permutation (ind_test ++ ind_train) (seq 0 (n_rows X)) /\
    NoDup (ind_test ++ ind_train) /\
    Permutation (index (take_rows ind_test X) ++ index (take_rows ind_train X))
                (index X) /\
    (forall l, In l (index (take_rows ind_test X)) ->
               ~ In l (index (take_rows ind_train X))) /\
    n_rows X <= 5 * length ind_test < n_rows X + 5 /\
    (forall X' y' : DataFrame,
       n_rows X' = n_rows X -> n_rows y' = n_rows X ->
       train_test_split rng_permutation X' y' test_size random_state =
         Ok (mkSplit (take_rows ind_train X') (take_rows ind_test X')
                     (take_rows ind_train y') (take_rows ind_test y'))).
Proof.
  intros Hperm Hxy Hn Hnd.
  destruct (shuffle_split_ok random_state (n_rows X) Hperm Hn)
    as (ind_train & ind_test & Hs & _ & Happ & Hlt & _ & _).
  exists ind_train, ind_test.
  assert (Hp : Permutation (ind_test ++ ind_train) (seq 0 (n_rows X)))
    by (now rewrite Happ).
  assert (Hlabels :
    Permutation (index (take_rows ind_test X) ++ index (take_rows ind_train X))
                (index X)).
  { unfold take_rows. cbn [index]. rewrite <- take_app.
    now apply take_permutation. }
  split; [| split; [| split; [| split; [| split; [| split]]]]].
  - unfold train_test_split. rewrite <- Hxy, Nat.eqb_refl, Hs. reflexivity.
  - exact Hp.
  - apply (Permutation_NoDup (Permutation_sym Hp)). apply seq_NoDup.
  - exact Hlabels.
  - intros l H1 H2.
    assert (Hnd' : NoDup (index (take_rows ind_test X) ++ index (take_rows ind_train X)))
      by (apply (Permutation_NoDup (Permutation_sym Hlabels)); exact Hnd).
    revert H1 H2 Hnd'.
    generalize (index (take_rows ind_test X)) (index (take_rows ind_train X)).
    intros a b H1 H2 Hab.
    induction a as [| x a IH]; [contradiction |].
    inversion Hab as [| ? ? Hnotin Hab']; subst.
    destruct H1 as [-> | H1].
    + apply Hnotin. apply in_or_app. now right.
    + now apply IH.
  - rewrite Hlt. apply fifth_bounds.
  - intros X' y' HX' Hy'. unfold train_test_split.
    rewrite HX', Hy', Nat.eqb_refl, Hs. reflexivity.
Qed.

End SplitFacts.

(** ** Evaluation *)

Lemma Qsum_map_ext {A : Type} (f g : A -> Q) (l : list A) :
  (forall x, In x l -> (f x == g x)%Q) -> (Qsum (map f l) == Qsum (map g l))%Q.
Proof.
  induction l as [| x l IH]; intros H; cbn [map Qsum fold_right].
  - reflexivity.
  - fold (Qsum (map f l)). fold (Qsum (map g l)).
    rewrite (H x (or_introl eq_refl)), IH; [reflexivity |].
    intros z Hz. apply H. now right.
Qed.

Lemma squared_difference_sym (a b : Q) : ((a - b) ^ 2 == (b - a) ^ 2)%Q.
Proof. change (((a - b) * (a - b)) == ((b - a) * (b - a)))%Q. ring. Qed.

Lemma combine_map_map {A B C : Type} (f : A -> B) (g : A -> C) (l : list A) :
  combine (map f l) (map g l) = map (fun x => (f x, g x)) l.
Proof. induction l as [| x l IH]; simpl; [reflexivity | now rewrite IH]. Qed.

Lemma cell_number_value c q : cell_number c = Ok q -> cell_value c = q.
Proof. unfold cell_value. now intros ->. Qed.

Lemma map_result_cell_number_take (vals : list cell) (positions : list nat) :
  Forall (fun c => exists q, cell_number c = Ok q) vals ->
  (forall i, In i positions -> i < length vals) ->
  map_result cell_number (take NA positions vals) =
  Ok (map (fun i => cell_value (nth i vals NA)) positions).
Proof.
  intros Hnum. rewrite Forall_forall in Hnum.
  induction positions as [| i positions IH]; intros Hr; [reflexivity |].
  cbn [take map map_result].
  destruct (Hnum (nth i vals NA)) as [q Hq].
  { apply nth_In. apply Hr. now left. }
  rewrite Hq. cbn [bind].
  fold (take NA positions vals). rewrite IH.
  - cbn [bind]. now rewrite (cell_number_value _ _ Hq).
  - intros j Hj. apply Hr. now right.
Qed.

Lemma frame_values_take_rows positions (y : DataFrame) (ycol : Series) :
  columns y = [ycol] ->
  frame_values (take_rows positions y) = take NA positions (col_values ycol).
Proof.
  intros H. unfold frame_values, take_rows. cbn [columns]. now rewrite H.
Qed.

Section EvaluatorFacts.

Variable rng_permutation : Z -> nat -> list nat.
Variable Model : Type.
Variable predict_row : Model -> row -> Q.

Lemma predict_take_rows (m : Model) (positions : list nat) (X : DataFrame) :
  predict Model predict_row m (take_rows positions X) =
  map (fun i => predict_row m (snd (row_at X i))) positions.
Proof.
  unfold predict, rows, take_rows. cbn [index columns].
  rewrite rows_take_rows, map_map. destruct X as [idx cols]. reflexivity.
Qed.

(** C8. The evaluator returns on every split whose target values are
    numbers, and the mean squared error it reports is the mean, over
    the positions the split put in the test set and no others, of the
    squared difference between the prediction for that row of the
    dataset and the row's actual target value (numbers are exact
    rationals here). *)
Theorem evaluate_mse_over_test_rows (X y : DataFrame) (ycol : Series) (m : Model) :
  Permutation (rng_permutation random_state (n_rows X)) (seq 0 (n_rows X)) ->
  n_rows X = n_rows y ->
  2 <= n_rows X ->
  columns y = [ycol] ->
  length (col_values ycol) = n_rows y ->
  Forall (fun c => exists q, cell_number c = Ok q) (col_values ycol) ->
  exists sp ind_test v,
    train_test_split rng_permutation X y test_size random_state = Ok sp /\
    ind_test = firstn ((n_rows X + 4) / 5)
                      (rng_permutation random_state (n_rows X)) /\
    index (X_test sp) = take NA ind_test (index X) /\
    evaluate_mse Model predict_row m sp = Ok v /\
    (v == mean_squared_difference ind_test
            (fun i => predict_row m (snd (row_at X i)))
            (fun i => cell_value (nth i (col_values ycol) NA)))%Q.
Proof.
  intros Hperm Hxy Hn Hcols Hlen Hnum.
  destruct (shuffle_split_ok rng_permutation random_state (n_rows X) Hperm Hn)
    as (ind_train & ind_test & Hs & Etest & Happ & Hlt & _ & Hpos).
  assert (Hrange : forall i, In i ind_test -> i < length (col_values ycol)).
  { intros i Hi. rewrite Hlen, <- Hxy.
    assert (Hin : In i (seq 0 (n_rows X))).
    { apply (Permutation_in _ Hperm). rewrite <- Happ.
      apply in_or_app. now left. }
    apply in_seq in Hin. lia. }
  set (pred := fun i => predict_row m (snd (row_at X i))).
  set (act := fun i => cell_value (nth i (col_values ycol) NA)).
  exists (mkSplit (take_rows ind_train X) (take_rows ind_test X)
                  (take_rows ind_train y) (take_rows ind_test y)),
         ind_test.
  eexists.
  split; [| split; [| split; [| split]]].
  - unfold train_test_split. rewrite <- Hxy, Nat.eqb_refl, Hs. reflexivity.
  - exact Etest.
  - reflexivity.
  - unfold evaluate_mse. cbn [X_test y_test].
    rewrite predict_take_rows, (frame_values_take_rows _ _ _ Hcols).
    unfold mean_squared_error.
    rewrite (map_result_cell_number_take _ _ Hnum Hrange). cbn [bind].
    rewrite !length_map, Nat.eqb_refl. cbn [negb].
    destruct (Nat.eqb_spec (length ind_test) 0) as [E | _]; [lia |].
    reflexivity.
  - unfold Qmean, mean_squared_difference.
    rewrite combine_map_map, map_map, !length_map. cbn [fst snd].
    apply Qdiv_comp; [| reflexivity].
    apply Qsum_map_ext. intros i _. apply squared_difference_sym.
Qed.

End EvaluatorFacts.

(** ** Model search *)

Section ModelSearchFacts.

Variable Model : Type.
Variable cv_score : Pipeline -> DataFrame -> DataFrame -> list nat * list nat -> Q.
Variable fit_pipeline : Pipeline -> DataFrame -> DataFrame -> Model.

Lemma kfold_five n :
  5 <= n -> exists fold folds, kfold 5 n = Ok (fold :: folds).
Proof.
  intros H. unfold kfold.
  destruct (Nat.ltb_spec n 5) as [Hlt | _]; [lia |].
  unfold fold_sizes. cbn [seq map folds_from].
  eexists. eexists. reflexivity.
Qed.

(** C1, the code at the script's grid. The grid has 27 cells, of which
    the 9 plain least-squares cells cannot be set on the pipeline: that
    estimator has no regularization strength.  The search therefore
    evaluates no cell and returns no model: on fewer than five rows the
    fold splitter raises, on five or more the first cell raises. *)
Theorem grid_search_raises (base : Pipeline) (X y : DataFrame) :
  length (ParameterGrid param_grid) = 27 /\
  length (filter (accepted base) (ParameterGrid param_grid)) = 18 /\
  GridSearchCV_fit Model cv_score fit_pipeline base param_grid X y =
    if n_rows X <? 5 then
      Raise (ValueError
        "Cannot have number of splits greater than the number of samples")
    else
      Raise (ValueError
        "Invalid parameter 'alpha' for estimator LinearRegression()").
Proof.
  split; [reflexivity |]. split; [reflexivity |].
  unfold GridSearchCV_fit.
  destruct (Nat.ltb_spec (n_rows X) 5) as [Hlt | Hge].
  - unfold kfold. destruct (Nat.ltb_spec (n_rows X) 5); [reflexivity | lia].
  - destruct (kfold_five (n_rows X) Hge) as (fold & folds & ->).
    reflexivity.
Qed.

End ModelSearchFacts.

(** ** Categorical path *)

Lemma insert_unique_In x y l : In y (insert_unique x l) <-> y = x \/ In y l.
Proof.
  induction l as [| z l IH]; simpl.
  - intuition.
  - destruct (String.eqb_spec x z) as [E | NE].
    + subst z. simpl. intuition.
    + destruct (String.ltb x z); simpl; [intuition |].
      rewrite IH. intuition.
Qed.

Lemma unique_sorted_In y l : In y (unique_sorted l) <-> In y l.
Proof.
  unfold unique_sorted. induction l as [| x l IH]; simpl; [tauto |].
  rewrite insert_unique_In, IH. intuition.
Qed.

Lemma most_frequent_from_In all l m :
  most_frequent_from all l = Some m -> In m l.
Proof.
  revert m. induction l as [| x l IH]; simpl; intros m; [discriminate |].
  destruct (most_frequent_from all l) as [b |].
  - destruct (count_string b all <? count_string x all).
    + intros H. injection H as <-. now left.
    + destruct ((count_string x all =? count_string b all) && String.ltb x b).
      * intros H. injection H as <-. now left.
      * intros H. injection H as <-. right. now apply IH.
  - intros H. injection H as <-. now left.
Qed.

Lemma cells_text_In train vals s :
  cells_text train = Ok vals -> In (Some s) vals -> In (Str s) train.
Proof.
  revert vals. induction train as [| c train IH]; simpl; intros vals H Hin.
  - injection H as <-. contradiction.
  - apply bind_ok in H. destruct H as (t & Ht & H).
    apply bind_ok in H. destruct H as (ts & Hts & H).
    injection H as <-. destruct Hin as [E | Hin].
    + left. subst t. destruct c; simpl in Ht; try discriminate.
      now injection Ht as <-.
    + right. now apply (IH ts).
Qed.

Lemma present_In {A : Type} (l : list (option A)) x :
  In x (present l) <-> In (Some x) l.
Proof.
  induction l as [| [y |] l IH]; simpl.
  - tauto.
  - rewrite IH. split; intros [H | H]; auto; left; congruence.
  - rewrite IH. split; [auto | intros [H | H]; [discriminate | exact H]].
Qed.

(** Every fitted category is a string that occurs in the training column. *)
Lemma cat_fit_categories train st c :
  cat_fit train = Ok st -> In c (categories st) -> In (Str c) train.
Proof.
  unfold cat_fit. intros H Hc.
  apply bind_ok in H. destruct H as (vals & Hv & H).
  destruct (most_frequent (present vals)) as [m |] eqn:Em.
  - injection H as <-. cbn [categories] in Hc.
    apply unique_sorted_In, in_map_iff in Hc.
    destruct Hc as ([s |] & E & Hin); simpl in E; subst.
    + now apply (cells_text_In train vals).
    + apply (cells_text_In train vals); [exact Hv |].
      apply present_In. apply (most_frequent_from_In _ _ _ Em).
  - injection H as <-. contradiction.
Qed.

Lemma cat_fit_dropped train st :
  cat_fit train = Ok st -> fill st = None -> categories st = [].
Proof.
  unfold cat_fit. intros H.
  apply bind_ok in H. destruct H as (vals & _ & H).
  destruct (most_frequent (present vals)); injection H as <-; [discriminate | reflexivity].
Qed.

Lemma map_const {A B : Type} (b : B) (l : list A) :
  map (fun _ => b) l = repeat b (length l).
Proof. induction l as [| x l IH]; simpl; [reflexivity | now rewrite IH]. Qed.

(** C5. Whatever the training column, a value presented to the fitted
    categorical path that is not missing and did not occur in the training
    column is encoded as the all-zero vector, one zero per fitted
    category; and the path returns for every presented value. *)
Theorem unseen_category_is_all_zero (train : list cell) (st : CatState) (v : cell) :
  cat_fit train = Ok st ->
  v <> NA ->
  ~ In v train ->
  cat_transform st v = Ok (repeat 0%Q (length (categories st))) /\
  (forall w, exists vec, cat_transform st w = Ok vec /\
                         length vec = length (categories st)).
Proof.
  intros Hfit Hna Hunseen. split.
  - unfold cat_transform. destruct (fill st) as [m |] eqn:Em.
    + assert (Ev : (if is_na v then Str m else v) = v)
        by (destruct v; [contradiction | reflexivity ..]).
      rewrite Ev. unfold onehot.
      assert (Hk : match v with Str s => mem_string s (categories st) | _ => false end
                   = false).
      { destruct v as [| | | s | |]; try reflexivity.
        apply not_true_iff_false. intros H. apply mem_string_In in H.
        apply Hunseen. now apply (cat_fit_categories train st). }
      rewrite Hk. now rewrite map_const.
    + now rewrite (cat_fit_dropped train st Hfit Em).
  - intros w. unfold cat_transform. destruct (fill st) as [m |] eqn:Em.
    + unfold onehot.
      destruct (match (if is_na w then Str m else w) with
                | Str s => mem_string s (categories st)
                | _ => false
                end); eexists; (split; [reflexivity | apply length_map]).
    + exists []. split; [reflexivity |].
      now rewrite (cat_fit_dropped train st Hfit Em).
Qed.

(** ** From the dataset to the split *)

Lemma select_columns_index names data X :
  select_columns names data = Ok X -> index X = index data.
Proof.
  unfold select_columns. intros H.
  apply bind_ok in H. destruct H as (cols & _ & H). now injection H as <-.
Qed.

Section ScriptFacts.

Variable rng_permutation : Z -> nat -> list nat.

Lemma split_data_ok (data : DataFrame) (roles : ColumnRoles) (sp : Split) :
  split_data rng_permutation data = Ok (roles, sp) ->
  exists X y,
    classify_columns data = Ok roles /\
    select_columns (features roles) data = Ok X /\
    series_frame target data = Ok y /\
    train_test_split rng_permutation X y test_size random_state = Ok sp.
Proof.
  unfold split_data. intros H.
  apply bind_ok in H. destruct H as (r & Hr & H).
  apply bind_ok in H. destruct H as (X & HX & H).
  apply bind_ok in H. destruct H as (y & Hy & H).
  apply bind_ok in H. destruct H as (sp' & Hsp & H).
  injection H as <- <-. now exists X, y.
Qed.

Lemma train_test_split_ok (X y : DataFrame) (sp : Split) :
  Permutation (rng_permutation random_state (n_rows X)) (seq 0 (n_rows X)) ->
  train_test_split rng_permutation X y test_size random_state = Ok sp ->
  exists ind_train ind_test,
    sp = mkSplit (take_rows ind_train X) (take_rows ind_test X)
                 (take_rows ind_train y) (take_rows ind_test y) /\
    1 <= length ind_test /\
    Permutation (ind_test ++ ind_train) (seq 0 (n_rows X)).
Proof.
  intros Hperm H.
  assert (Hn : 2 <= n_rows X).
  { unfold train_test_split in H.
    destruct (n_rows X =? n_rows y); [| discriminate].
    apply bind_ok in H. destruct H as (parts & Hp & _).
    unfold shuffle_split in Hp. rewrite n_test_of_fifth in Hp.
    destruct (Nat.eqb_spec (n_rows X - (n_rows X + 4) / 5) 0) as [E | NE];
      [discriminate |].
    pose proof (fifth_bounds (n_rows X)). lia. }
  destruct (shuffle_split_ok rng_permutation random_state (n_rows X) Hperm Hn)
    as (ind_train & ind_test & Hs & _ & Happ & _ & _ & Hpos).
  exists ind_train, ind_test. split; [| split].
  - unfold train_test_split in H.
    destruct (n_rows X =? n_rows y); [| discriminate].
    rewrite Hs in H. cbn [bind] in H. now injection H as <-.
  - exact Hpos.
  - now rewrite Happ.
Qed.

End ScriptFacts.

(** ** Prediction merge *)

Lemma label_eqb_time l t :
  (forall t', l <> Time t') -> label_eqb l (Time t) = false.
Proof. intros H. destruct l; try reflexivity. now destruct (H t0). Qed.

Lemma no_label_among_times l (idx : list cell) :
  (forall t', l <> Time t') ->
  Forall (fun c => exists t, c = Time t) idx ->
  existsb (label_eqb l) idx = false.
Proof.
  intros Hl Hidx. induction Hidx as [| c idx [t ->] _ IH]; simpl; [reflexivity |].
  now rewrite (label_eqb_time l t Hl), IH.
Qed.

(** Looking up labels that are not timestamps in a frame indexed by its
    timestamp column is a KeyError. *)
Lemma prediction_merge_key_error (data : DataFrame) (s : Series)
  (l : cell) (labels : list cell) (y_pred : list Q) :
  find_column "timestamp" (columns data) = Some s ->
  Forall (fun c => exists t, c = Time t) (col_values s) ->
  (forall t, l <> Time t) ->
  prediction_merge data (l :: labels) y_pred = Raise (KeyError "labels not in index").
Proof.
  intros Hf Htimes Hl.
  unfold prediction_merge, set_index, get_column. rewrite Hf. cbn [bind].
  unfold loc_assign. cbn [set_column index find].
  now rewrite (no_label_among_times l (col_values s) Hl Htimes).
Qed.

Lemma take_labels_not_time (positions : list nat) (idx : list cell) :
  Forall (fun l => exists i, l = Int i) idx ->
  Forall (fun l => forall t, l <> Time t) (take NA positions idx).
Proof.
  intros Hidx. rewrite Forall_forall in Hidx.
  unfold take. apply Forall_forall. intros l Hl.
  apply in_map_iff in Hl. destruct Hl as (i & <- & _).
  destruct (Nat.lt_ge_cases i (length idx)) as [Hlt | Hge].
  - destruct (Hidx (nth i idx NA) (nth_In idx NA Hlt)) as [z ->]. discriminate.
  - rewrite nth_overflow by exact Hge. discriminate.
Qed.

Section MergeFacts.

Variable parse_datetime : list cell -> cell -> option Timestamp.
Variable calendar_dtype : dtype.
Variable rng_permutation : Z -> nat -> list nat.

(** C2, the code on any run that reaches the merge. The table was read
    with integer row labels; the test rows keep those labels, but the
    merge first makes the timestamp column the index, so none of the
    test labels is found and the assignment raises instead of filling
    the prediction column as specified. *)
Theorem prediction_merge_raises (raw data : DataFrame) (ts : Series)
  (roles : ColumnRoles) (sp : Split) (y_pred : list Q) :
  find_column "timestamp" (columns raw) = Some ts ->
  well_formed raw ->
  Forall (fun l => exists i, l = Int i) (index raw) ->
  feature_derive parse_datetime calendar_dtype raw = Ok data ->
  Permutation (rng_permutation random_state (n_rows data)) (seq 0 (n_rows data)) ->
  split_data rng_permutation data = Ok (roles, sp) ->
  prediction_merge data (index (X_test sp)) y_pred =
    Raise (KeyError "labels not in index") /\
  ~ (exists out, prediction_merge data (index (X_test sp)) y_pred = Ok out /\
                 merged_as_specified data (index (X_test sp)) y_pred out).
Proof.
  intros Hf Hwf Hint Hd Hperm Hsplit.
  pose proof (feature_derive_ok_one_offset parse_datetime calendar_dtype
                raw data ts Hf Hd) as Hone.
  destruct (feature_derive_spec parse_datetime calendar_dtype raw ts Hf Hone Hwf)
    as (data' & s' & E & _ & Hf' & _ & _ & Htimes & _ & Hsub).
  rewrite Hd in E. injection E as <-.
  destruct (split_data_ok rng_permutation data roles sp Hsplit)
    as (X & y & _ & HX & _ & Hsp).
  assert (Hrows : n_rows X = n_rows data)
    by (unfold n_rows; now rewrite (select_columns_index _ _ _ HX)).
  rewrite <- Hrows in Hperm.
  destruct (train_test_split_ok rng_permutation X y sp Hperm Hsp)
    as (ind_train & ind_test & -> & Hpos & _).
  assert (Hraise : prediction_merge data
                     (index (X_test (mkSplit (take_rows ind_train X)
                        (take_rows ind_test X) (take_rows ind_train y)
                        (take_rows ind_test y)))) y_pred =
                   Raise (KeyError "labels not in index")).
  { cbn [X_test take_rows index].
    rewrite (select_columns_index _ _ _ HX).
    assert (Hlabels : Forall (fun l => forall t, l <> Time t)
                             (take NA ind_test (index data))).
    { apply take_labels_not_time. apply Forall_forall. intros l Hl.
      rewrite Forall_forall in Hint. apply Hint. now apply Hsub. }
    destruct ind_test as [| i ind_test]; [simpl in Hpos; lia |].
    cbn [take map] in *. inversion Hlabels as [| ? ? Hl _]; subst.
    now apply (prediction_merge_key_error data s'). }
  split; [exact Hraise |].
  intros (out & Hout & _). rewrite Hraise in Hout. discriminate.
Qed.

End MergeFacts.

(** ** Preprocessing transformer and feature importance *)

Lemma map_result_ext_in {A B : Type} (f g : A -> result B) (l : list A) :
  (forall x, In x l -> f x = g x) -> map_result f l = map_result g l.
Proof.
  induction l as [| x l IH]; intros H; simpl; [reflexivity |].
  rewrite (H x (or_introl eq_refl)), IH; [reflexivity |].
  intros z Hz. apply H. now right.
Qed.

Lemma map_result_fst {B : Type} (f : string -> result (string * B))
  (l : list string) (out : list (string * B)) :
  (forall x y, f x = Ok y -> fst y = x) ->
  map_result f l = Ok out -> map fst out = l.
Proof.
  intros Hf. revert out. induction l as [| x l IH]; simpl; intros out H.
  - now injection H as <-.
  - apply bind_ok in H. destruct H as (y & Hy & H).
    apply bind_ok in H. destruct H as (ys & Hys & H).
    injection H as <-. simpl. now rewrite (Hf x y Hy), (IH ys Hys).
Qed.

Lemma flat_map_agree {A B : Type} (f g : A -> list B) (l : list A) :
  (forall x, In x l -> f x = g x) -> flat_map f l = flat_map g l.
Proof.
  induction l as [| x l IH]; intros H; simpl; [reflexivity |].
  rewrite (H x (or_introl eq_refl)), IH; [reflexivity |].
  intros z Hz. apply H. now right.
Qed.

Section PreprocessorFacts.

Variable NumState : Type.
Variable num_state : list cell -> NumState.
Variable num_apply : NumState -> cell -> Q.

Lemma preprocessor_fit_names (r : ColumnRoles) (X : DataFrame)
  (p : Preprocessor NumState) :
  preprocessor_fit NumState num_state r X = Ok p ->
  map fst (num_fitted NumState p) = num_cols r /\
  map fst (cat_fitted NumState p) = cat_cols r.
Proof.
  unfold preprocessor_fit. intros H.
  apply bind_ok in H. destruct H as (nums & Hn & H).
  apply bind_ok in H. destruct H as (cats & Hc & H).
  injection H as <-. cbn [num_fitted cat_fitted]. split.
  - apply map_result_fst in Hn; [exact Hn |].
    intros x y Hy. apply bind_ok in Hy. destruct Hy as (s & _ & Hy).
    now injection Hy as <-.
  - apply map_result_fst in Hc; [exact Hc |].
    intros x y Hy. apply bind_ok in Hy. destruct Hy as (s & _ & Hy).
    apply bind_ok in Hy. destruct Hy as (st & _ & Hy). now injection Hy as <-.
Qed.

(** The transformer reads the frame and the rows only at the names in
    the two column groups. *)
Lemma preprocessor_fit_reads_groups (r : ColumnRoles) (X X' : DataFrame) :
  (forall nm, In nm (num_cols r ++ cat_cols r) ->
              find_column nm (columns X) = find_column nm (columns X')) ->
  preprocessor_fit NumState num_state r X = preprocessor_fit NumState num_state r X'.
Proof.
  intros H. unfold preprocessor_fit, transformer_column.
  rewrite (map_result_ext_in _
    (fun nm => s <- match find_column nm (columns X') with
                    | Some s => Ok s
                    | None => Raise (ValueError
                        "A given column is not a column of the dataframe")
                    end ;; Ok (nm, num_fit NumState num_state (col_values s)))
    (num_cols r)).
  2: { intros nm Hnm. rewrite (H nm); [reflexivity |]. apply in_or_app. now left. }
  rewrite (map_result_ext_in _
    (fun nm => s <- match find_column nm (columns X') with
                    | Some s => Ok s
                    | None => Raise (ValueError
                        "A given column is not a column of the dataframe")
                    end ;; st <- cat_fit (col_values s) ;; Ok (nm, st))
    (cat_cols r)).
  2: { intros nm Hnm. rewrite (H nm); [reflexivity |]. apply in_or_app. now right. }
  reflexivity.
Qed.

Lemma preprocessor_transform_reads_groups (p : Preprocessor NumState)
  (rw rw' : row) :
  (forall nm, In nm (map fst (num_fitted NumState p) ++
                     map fst (cat_fitted NumState p)) ->
              row_get nm rw = row_get nm rw') ->
  preprocessor_transform_row NumState num_apply p rw =
  preprocessor_transform_row NumState num_apply p rw'.
Proof.
  intros H. unfold preprocessor_transform_row, cat_block, num_block.
  rewrite (map_result_ext_in _
    (fun cs => cat_transform (snd cs) (row_get (fst cs) rw'))
    (cat_fitted NumState p)).
  2: { intros cs Hcs. rewrite (H (fst cs)); [reflexivity |].
       apply in_or_app. right. now apply in_map. }
  rewrite (flat_map_agree _
    (fun ns => match snd ns with
               | Some st => [num_apply st (row_get (fst ns) rw')]
               | None => []
               end)
    (num_fitted NumState p)).
  2: { intros ns Hns. rewrite (H (fst ns)); [reflexivity |].
       apply in_or_app. left. now apply in_map. }
  reflexivity.
Qed.

(** C9, as amended. A column whose dtype is none of float64, int64 and
    object is in neither group that the combined transformer reads, so
    fitting the transformer and transforming a row give the same result
    whatever that column holds.  It is listed in the feature set handed
    to the split exactly when it is neither the target nor the column
    named timestamp: line 33 leaves those two out by name, so the parsed
    datetime column, which replaces the raw one under its name, is
    excluded before the transformer is reached. *)
Theorem other_dtypes_are_dropped (data : DataFrame) (r : ColumnRoles) (s : Series) :
  NoDup (column_names data) ->
  classify_columns data = Ok r ->
  In s (columns data) ->
  col_dtype s <> float64 -> col_dtype s <> int64 -> col_dtype s <> object ->
  ~ In (col_name s) (pre_num_cols (pipeline r) ++ pre_cat_cols (pipeline r)) /\
  (listed_but_dropped r s <->
   col_name s <> target /\ col_name s <> "timestamp") /\
  (forall X X' : DataFrame,
     (forall nm, nm <> col_name s ->
                 find_column nm (columns X) = find_column nm (columns X')) ->
     preprocessor_fit NumState num_state r X =
     preprocessor_fit NumState num_state r X') /\
  (forall (X : DataFrame) (p : Preprocessor NumState) (rw rw' : row),
     preprocessor_fit NumState num_state r X = Ok p ->
     (forall nm, nm <> col_name s -> row_get nm rw = row_get nm rw') ->
     preprocessor_transform_row NumState num_apply p rw =
     preprocessor_transform_row NumState num_apply p rw').
Proof.
  intros Hnd Hc Hs N1 N2 N3.
  destruct (classify_columns_membership data r s Hnd Hc Hs) as (Hf & Hn & Hcat).
  assert (Hout : ~ In (col_name s) (num_cols r ++ cat_cols r)).
  { intros H. apply in_app_or in H. destruct H as [H | H].
    - apply Hn in H. tauto.
    - apply Hcat in H. contradiction. }
  split; [exact Hout |]. split; [| split].
  - unfold listed_but_dropped. rewrite Hf. split; [tauto |].
    intros Hne. split; [exact Hne |]. split; intros H; apply Hout, in_or_app; tauto.
  - intros X X' Hagree. apply preprocessor_fit_reads_groups.
    intros nm Hnm. apply Hagree. intros ->. contradiction.
  - intros X p rw rw' Hfit Hagree.
    apply preprocessor_transform_reads_groups.
    destruct (preprocessor_fit_names r X p Hfit) as [-> ->].
    intros nm Hnm. apply Hagree. intros ->. contradiction.
Qed.

End PreprocessorFacts.

(** The names asked of the polynomial step are refused unless there are as
    many as the columns it was fitted on. *)
Lemma get_feature_names_out_mismatch n_features_in degree input_features :
  length input_features <> n_features_in ->
  get_feature_names_out n_features_in degree input_features =
    Raise (ValueError "input_features should have length equal to number of features").
Proof.
  intros H. unfold get_feature_names_out.
  destruct (Nat.eqb_spec (length input_features) n_features_in); [contradiction | reflexivity].
Qed.

Lemma insert_desc_perm x l : Permutation (insert_desc x l) (x :: l).
Proof.
  induction l as [| y l IH]; simpl; [reflexivity |].
  destruct (Qle_bool (snd y) (snd x)); [reflexivity |].
  rewrite IH. apply perm_swap.
Qed.

Lemma sort_values_desc_perm l : Permutation (sort_values_desc l) l.
Proof.
  unfold sort_values_desc. induction l as [| x l IH]; simpl; [reflexivity |].
  rewrite insert_desc_perm. now apply perm_skip.
Qed.

(** When the names given are as many as the fitted columns, and the
    coefficients as many as the monomials, the table is built: one name
    per coefficient, rearranged by the sort. *)
Lemma feature_importance_df_ok n_features_in degree num_cols coef :
  length num_cols = n_features_in ->
  length coef = n_output_features n_features_in degree ->
  exists table,
    feature_importance_df n_features_in degree num_cols coef = Ok table /\
    Permutation table
      (combine (map (monomial_name num_cols) (poly_combinations n_features_in degree))
               coef).
Proof.
  intros Hn Hc. unfold feature_importance_df, get_feature_names_out.
  rewrite Hn, Nat.eqb_refl. cbn [bind]. unfold frame_of_pairs.
  rewrite length_map. fold (n_output_features n_features_in degree).
  rewrite Hc, Nat.eqb_refl. cbn [bind].
  eexists. split; [reflexivity | apply sort_values_desc_perm].
Qed.

Lemma list_sum_positive {A : Type} (f : A -> nat) (l : list A) :
  Exists (fun x => f x <> 0) l -> 1 <= list_sum (map f l).
Proof.
  induction 1 as [x l H | x l _ IH]; simpl; lia.
Qed.

Lemma filter_kept_all {A B : Type} (l : list (A * option B)) :
  Forall (fun ns => snd ns <> None) l ->
  filter (fun ns => match snd ns with Some _ => true | None => false end) l = l.
Proof.
  induction 1 as [| [a [b |]] l H _ IH]; simpl; [reflexivity | now f_equal |].
  now destruct H.
Qed.

Section ImportanceFacts.

Variable NumState : Type.
Variable num_state : list cell -> NumState.

(** C3, the code on a fitted pipeline that keeps every numeric column
    and has at least one one-hot column: the polynomial step was fitted
    on more columns than there are numeric column names, the names are
    asked for with the numeric column names only, the step refuses them,
    and no table is built, whatever the degree and the coefficients. *)
Theorem feature_importance_raises (r : ColumnRoles) (X : DataFrame)
  (p : Preprocessor NumState) (degree : nat) (coef : list Q) :
  preprocessor_fit NumState num_state r X = Ok p ->
  Forall (fun ns => snd ns <> None) (num_fitted NumState p) ->
  Exists (fun cs => length (categories (snd cs)) <> 0) (cat_fitted NumState p) ->
  best_model_feature_importance p r degree coef =
    Raise (ValueError
      "input_features should have length equal to number of features").
Proof.
  intros Hfit Hkept Hcat.
  destruct (preprocessor_fit_names NumState num_state r X p Hfit) as [Hn _].
  unfold best_model_feature_importance, feature_importance_df.
  rewrite get_feature_names_out_mismatch; [reflexivity |].
  unfold preprocessor_width. rewrite (filter_kept_all _ Hkept).
  rewrite <- Hn, length_map.
  pose proof (list_sum_positive (fun cs => length (categories (snd cs))) _ Hcat).
  lia.
Qed.

End ImportanceFacts.

(** ** The search depends on the training split only *)

Lemma find_column_NoDup (cols : list Series) s :
  NoDup (map col_name cols) -> In s cols -> find_column (col_name s) cols = Some s.
Proof.
  induction cols as [| c cols IH]; simpl; intros Hnd Hs; [contradiction |].
  inversion Hnd as [| ? ? Hnotin Hnd']; subst.
  destruct (String.eqb_spec (col_name s) (col_name c)) as [E | NE].
  - destruct Hs as [-> | Hs]; [reflexivity |].
    exfalso. apply Hnotin. rewrite <- E. now apply in_map.
  - destruct Hs as [-> | Hs]; [contradiction | now apply IH].
Qed.

Lemma select_series_members (cols l : list Series) :
  NoDup (map col_name cols) ->
  (forall s, In s l -> In s cols) ->
  select_series (map col_name l) cols = Ok l.
Proof.
  intros Hnd. induction l as [| s l IH]; intros Hin; simpl; [reflexivity |].
  rewrite (find_column_NoDup cols s Hnd (Hin s (or_introl eq_refl))).
  rewrite IH; [reflexivity |]. intros z Hz. apply Hin. now right.
Qed.

Lemma filter_names {A : Type} (f : A -> string) (P : string -> bool) (l : list A) :
  filter P (map f l) = map f (filter (fun x => P (f x)) l).
Proof.
  induction l as [| x l IH]; simpl; [reflexivity |].
  destruct (P (f x)); simpl; now rewrite IH.
Qed.

Lemma filter_filter_agree {A : Type} (P Q R : A -> bool) (l : list A) :
  (forall x, In x l -> P x = true -> Q x = R x) ->
  filter Q (filter P l) = filter P (filter R l).
Proof.
  induction l as [| x l IH]; intros H; simpl; [reflexivity |].
  assert (IH' : filter Q (filter P l) = filter P (filter R l))
    by (apply IH; intros z Hz; apply H; now right).
  destruct (P x) eqn:EP; simpl.
  - rewrite (H x (or_introl eq_refl) EP).
    destruct (R x); simpl; [rewrite EP |]; now rewrite IH'.
  - destruct (R x); simpl; [rewrite EP |]; exact IH'.
Qed.

Lemma column_names_take_rows positions (X : DataFrame) :
  column_names (take_rows positions X) = column_names X.
Proof.
  unfold column_names, take_rows. cbn [columns]. rewrite map_map. reflexivity.
Qed.

Lemma filter_all {A : Type} (l : list A) : filter (fun _ => true) l = l.
Proof. induction l as [| x l IH]; simpl; [reflexivity | now f_equal]. Qed.

Lemma select_dtypes_take_rows include positions (X : DataFrame) :
  column_names (select_dtypes include (take_rows positions X)) =
  column_names (select_dtypes include X).
Proof.
  unfold column_names, select_dtypes, take_rows. cbn [columns].
  induction (columns X) as [| s cols IH]; simpl; [reflexivity |].
  destruct (existsb (dtype_eqb (col_dtype s)) include); simpl; now rewrite IH.
Qed.

(** With distinct column names and a datetime64 timestamp column, the two
    groups the classifier computes from the whole dataset can be read off
    the feature frame alone. *)
Lemma roles_from_features (data X : DataFrame) (r : ColumnRoles) (s' : Series) :
  NoDup (column_names data) ->
  find_column "timestamp" (columns data) = Some s' ->
  col_dtype s' = datetime64 ->
  classify_columns data = Ok r ->
  select_columns (features r) data = Ok X ->
  features r = column_names X /\
  num_cols r = column_names (select_dtypes [float64; int64] X) /\
  cat_cols r = column_names (select_dtypes [object] X).
Proof.
  intros Hnd Hts Hdt Hc HX.
  destruct (classify_columns_ok data r Hc) as (Ef & En & Ec & Htarget).
  set (keep := fun s : Series => negb (mem_string (col_name s) [target; "timestamp"])).
  assert (Hcols : columns X = filter keep (columns data)).
  { unfold select_columns in HX. apply bind_ok in HX.
    destruct HX as (cols & Hsel & HX). injection HX as <-. cbn [columns].
    rewrite Ef in Hsel. unfold column_names in Hsel. rewrite filter_names in Hsel.
    rewrite select_series_members in Hsel.
    - now injection Hsel as <-.
    - exact Hnd.
    - intros s Hs. now apply filter_In in Hs. }
  assert (Hstamp : forall s, In s (columns data) -> col_name s = "timestamp" -> s = s').
  { intros s Hs E. apply (NoDup_names_inj (columns data)); auto.
    - now apply find_column_In in Hts.
    - rewrite E. symmetry. now apply find_column_name in Hts. }
  assert (Htgt : forall s, In s (columns data) -> col_name s = target ->
                           col_dtype s = float64 \/ col_dtype s = int64).
  { intros s Hs E. rewrite <- E in Htarget.
    apply (name_in_select_dtypes [float64; int64] data s Hnd Hs) in Htarget.
    simpl in Htarget. intuition congruence. }
  split; [| split].
  - rewrite Ef. unfold column_names. now rewrite filter_names, Hcols.
  - rewrite En. unfold column_names, select_dtypes. cbn [columns].
    rewrite filter_names, Hcols. f_equal.
    apply filter_filter_agree. intros s Hs Hnum.
    unfold keep, mem_string. cbn [existsb]. rewrite !orb_false_r.
    destruct (String.eqb_spec (col_name s) "timestamp") as [E | _];
      [| now rewrite orb_false_r].
    exfalso. rewrite (Hstamp s Hs E), Hdt in Hnum. discriminate.
  - rewrite Ec. unfold column_names, select_dtypes. cbn [columns].
    rewrite Hcols. f_equal.
    rewrite <- (filter_filter_agree _ (fun _ => true) keep).
    + now rewrite filter_all.
    + intros s Hs Hobj. symmetry. unfold keep. apply not_mem_string.
      intros [E | [E | []]]; symmetry in E.
      * destruct (Htgt s Hs E) as [D | D]; rewrite D in Hobj; discriminate.
      * rewrite (Hstamp s Hs E), Hdt in Hobj. discriminate.
Qed.

Section SearchFacts.

Variable parse_datetime : list cell -> cell -> option Timestamp.
Variable calendar_dtype : dtype.
Variable rng_permutation : Z -> nat -> list nat.
Variable Model : Type.
Variable cv_score : Pipeline -> DataFrame -> DataFrame -> list nat * list nat -> Q.
Variable fit_pipeline : Pipeline -> DataFrame -> DataFrame -> Model.

Lemma roles_from_train (raw data : DataFrame) (r : ColumnRoles) (sp : Split) :
  NoDup (column_names raw) ->
  well_formed raw ->
  feature_derive parse_datetime calendar_dtype raw = Ok data ->
  Permutation (rng_permutation random_state (n_rows data)) (seq 0 (n_rows data)) ->
  split_data rng_permutation data = Ok (r, sp) ->
  r = mkRoles (column_names (X_train sp))
              (column_names (select_dtypes [float64; int64] (X_train sp)))
              (column_names (select_dtypes [object] (X_train sp))).
Proof.
  intros Hnd Hwf Hd Hperm Hsplit.
  assert (Hts : exists ts, find_column "timestamp" (columns raw) = Some ts).
  { unfold feature_derive, get_column in Hd.
    destruct (find_column "timestamp" (columns raw)) as [ts |]; [now exists ts |].
    discriminate. }
  destruct Hts as [ts Hts].
  pose proof (feature_derive_ok_one_offset parse_datetime calendar_dtype
                raw data ts Hts Hd) as Hone.
  destruct (feature_derive_spec parse_datetime calendar_dtype raw ts Hts Hone Hwf)
    as (data' & s' & E & _ & Hf' & Hdt & _ & _ & Hnd' & _).
  rewrite Hd in E. injection E as <-.
  destruct (split_data_ok rng_permutation data r sp Hsplit)
    as (X & y & Hc & HX & _ & Hsp).
  assert (Hrows : n_rows X = n_rows data)
    by (unfold n_rows; now rewrite (select_columns_index _ _ _ HX)).
  rewrite <- Hrows in Hperm.
  destruct (train_test_split_ok rng_permutation X y sp Hperm Hsp)
    as (ind_train & ind_test & -> & _ & _).
  cbn [X_train]. rewrite !select_dtypes_take_rows, column_names_take_rows.
  destruct (roles_from_features data X r s' (Hnd' Hnd) Hf' Hdt Hc HX)
    as (<- & <- & <-).
  now destruct r.
Qed.

Variable NumState : Type.
Variable num_state : list cell -> NumState.

(** C10. Take two runs, on any parameter grid, whose training splits
    are the same frames; their test rows, and so their datasets, may
    differ.  Then the column groups are the same, the preprocessor
    fitted on the training split (modes and one-hot categories, and the
    numeric statistics) is the same, and the outcome of the search, the
    selected configuration together with the model refitted on the
    training split, is the same. *)
Theorem model_search_depends_on_train_only (g : ParamGrid)
  (raw1 raw2 data1 data2 : DataFrame) (r1 r2 : ColumnRoles) (sp1 sp2 : Split) :
  NoDup (column_names raw1) -> well_formed raw1 ->
  NoDup (column_names raw2) -> well_formed raw2 ->
  feature_derive parse_datetime calendar_dtype raw1 = Ok data1 ->
  feature_derive parse_datetime calendar_dtype raw2 = Ok data2 ->
  Permutation (rng_permutation random_state (n_rows data1)) (seq 0 (n_rows data1)) ->
  Permutation (rng_permutation random_state (n_rows data2)) (seq 0 (n_rows data2)) ->
  split_data rng_permutation data1 = Ok (r1, sp1) ->
  split_data rng_permutation data2 = Ok (r2, sp2) ->
  X_train sp1 = X_train sp2 ->
  y_train sp1 = y_train sp2 ->
  r1 = r2 /\
  preprocessor_fit NumState num_state r1 (X_train sp1) =
  preprocessor_fit NumState num_state r2 (X_train sp2) /\
  model_search rng_permutation Model cv_score fit_pipeline g data1 =
  model_search rng_permutation Model cv_score fit_pipeline g data2.
Proof.
  intros Hnd1 Hwf1 Hnd2 Hwf2 Hd1 Hd2 Hp1 Hp2 Hs1 Hs2 EX Ey.
  assert (Hr : r1 = r2).
  { rewrite (roles_from_train raw1 data1 r1 sp1 Hnd1 Hwf1 Hd1 Hp1 Hs1).
    rewrite (roles_from_train raw2 data2 r2 sp2 Hnd2 Hwf2 Hd2 Hp2 Hs2).
    now rewrite EX. }
  split; [exact Hr |]. split; [now rewrite Hr, EX |].
  unfold model_search. rewrite Hs1, Hs2. cbn [bind fst snd].
  now rewrite Hr, EX, Ey.
Qed.

End SearchFacts.

(** * The properties on the example dataset *)

Ltac distinct_list :=
  repeat (constructor; [simpl; intuition discriminate |]); constructor.

Ltac all_numbers :=
  repeat (constructor; [eexists; reflexivity |]); constructor.

Lemma example_permutation_ok seed n :
  Permutation (example_permutation seed n) (seq 0 n).
Proof. unfold example_permutation. apply Permutation_sym, Permutation_rev. Qed.

Lemma example_raw_well_formed : well_formed example_raw.
Proof. repeat constructor. Qed.

Lemma example_raw'_well_formed : well_formed example_raw'.
Proof. repeat constructor. Qed.

Lemma example_raw_names : NoDup (column_names example_raw).
Proof. distinct_list. Qed.

Lemma example_raw'_names : NoDup (column_names example_raw').
Proof. distinct_list. Qed.

Lemma example_data_names : NoDup (column_names example_data).
Proof. distinct_list. Qed.

Lemma example_derive :
  feature_derive example_parse int64 example_raw = Ok example_data.
Proof. reflexivity. Qed.

Lemma example_derive' :
  feature_derive example_parse int64 example_raw' = Ok example_data'.
Proof. reflexivity. Qed.

Lemma example_classify : classify_columns example_data = Ok example_roles.
Proof. reflexivity. Qed.

Lemma example_split_data :
  split_data example_permutation example_data = Ok (example_roles, example_split).
Proof. vm_compute. reflexivity. Qed.

Lemma example_split_data' :
  split_data example_permutation example_data' = Ok (example_roles, example_split').
Proof. vm_compute. reflexivity. Qed.

(** The deriver on the example, where seven of the eight rows survive,
    and on a table whose timestamps carry two UTC offsets. *)
Lemma feature_derive_keeps_parsable_rows_witness :
  ((find_column "timestamp" (columns example_raw) = Some example_timestamps /\
    well_formed example_raw) /\
   exists data,
     feature_derive example_parse int64 example_raw = Ok data /\
     rows data =
       rows_with_parsable_timestamp (example_parse (col_values example_timestamps))
                                    (rows example_raw) /\
     Forall (fun lr => exists t, row_get "timestamp" (snd lr) = Time t) (rows data)) /\
  ((find_column "timestamp" (columns example_mixed_raw) = Some example_mixed_timestamps /\
    well_formed example_mixed_raw) /\
   raises (feature_derive example_parse int64 example_mixed_raw)).
Proof.
  split.
  - split; [split; [reflexivity | exact example_raw_well_formed] |].
    apply (feature_derive_keeps_parsable_rows example_parse int64
             example_raw example_timestamps).
    + reflexivity.
    + exact example_raw_well_formed.
  - assert (Hwf : well_formed example_mixed_raw)
      by (repeat constructor).
    split; [split; [reflexivity | exact Hwf] |].
    apply (feature_derive_keeps_parsable_rows example_parse int64
             example_mixed_raw example_mixed_timestamps).
    + reflexivity.
    + exact Hwf.
Defined.

(** C4 as stated fails on the example: the boolean column [is_holiday] is a
    feature column that the classifier puts in neither group. *)
Lemma classifier_misses_bool_column :
  exists r, classify_columns example_data = Ok r /\ ~ in_exactly_one_group r.
Proof.
  exists example_roles. split; [reflexivity |].
  intros H. destruct (H "is_holiday") as [[Hn _] | [_ Hc]].
  - apply mem_string_In. reflexivity.
  - apply mem_string_In in Hn. vm_compute in Hn. discriminate.
  - apply mem_string_In in Hc. vm_compute in Hc. discriminate.
Qed.

Lemma classifier_groups_by_dtype_witness :
  (NoDup (column_names example_data) /\
   classify_columns example_data = Ok example_roles /\
   In example_holiday (columns example_data) /\
   In (col_name example_holiday) (features example_roles)) /\
  (In (col_name example_holiday) (num_cols example_roles) <->
     col_dtype example_holiday = float64 \/ col_dtype example_holiday = int64) /\
  (In (col_name example_holiday) (cat_cols example_roles) <->
     col_dtype example_holiday = object) /\
  ~ (In (col_name example_holiday) (num_cols example_roles) /\
     In (col_name example_holiday) (cat_cols example_roles)) /\
  (col_dtype example_holiday <> float64 -> col_dtype example_holiday <> int64 ->
   col_dtype example_holiday <> object ->
   ~ In (col_name example_holiday) (num_cols example_roles) /\
   ~ In (col_name example_holiday) (cat_cols example_roles)).
Proof.
  assert (Hin : In example_holiday (columns example_data))
    by (apply (find_column_In "is_holiday"); reflexivity).
  assert (Hfeat : In (col_name example_holiday) (features example_roles))
    by (apply mem_string_In; reflexivity).
  split; [repeat split; [exact example_data_names | exact Hin | exact Hfeat] |].
  apply (classifier_groups_by_dtype example_data example_roles example_holiday).
  - exact example_data_names.
  - reflexivity.
  - exact Hin.
  - exact Hfeat.
Defined.

Lemma train_test_split_partition_witness :
  (Permutation (example_permutation random_state (n_rows example_X))
               (seq 0 (n_rows example_X)) /\
   n_rows example_X = n_rows example_y /\
   2 <= n_rows example_X /\
   NoDup (index example_X)) /\
  exists ind_train ind_test,
    train_test_split example_permutation example_X example_y test_size random_state =
      Ok (mkSplit (take_rows ind_train example_X) (take_rows ind_test example_X)
                  (take_rows ind_train example_y) (take_rows ind_test example_y)) /\
    Permutation (ind_test ++ ind_train) (seq 0 (n_rows example_X)) /\
    NoDup (ind_test ++ ind_train) /\
    Permutation (index (take_rows ind_test example_X) ++
                 index (take_rows ind_train example_X))
                (index example_X) /\
    (forall l, In l (index (take_rows ind_test example_X)) ->
               ~ In l (index (take_rows ind_train example_X))) /\
    n_rows example_X <= 5 * length ind_test < n_rows example_X + 5 /\
    (forall X' y' : DataFrame,
       n_rows X' = n_rows example_X -> n_rows y' = n_rows example_X ->
       train_test_split example_permutation X' y' test_size random_state =
         Ok (mkSplit (take_rows ind_train X') (take_rows ind_test X')
                     (take_rows ind_train y') (take_rows ind_test y'))).
Proof.
  assert (Hnd : NoDup (index example_X)) by distinct_list.
  assert (H2 : 2 <= n_rows example_X) by (vm_compute; lia).
  split.
  - split; [apply example_permutation_ok |].
    split; [reflexivity |]. split; [exact H2 | exact Hnd].
  - apply (train_test_split_partition example_permutation example_X example_y).
    + apply example_permutation_ok.
    + reflexivity.
    + exact H2.
    + exact Hnd.
Defined.

Lemma evaluate_mse_over_test_rows_witness :
  (columns example_y = [example_target] /\
   length (col_values example_target) = n_rows example_y /\
   Forall (fun c => exists q, cell_number c = Ok q) (col_values example_target)) /\
  exists sp ind_test v,
    train_test_split example_permutation example_X example_y test_size random_state
      = Ok sp /\
    ind_test = firstn ((n_rows example_X + 4) / 5)
                      (example_permutation random_state (n_rows example_X)) /\
    index (X_test sp) = take NA ind_test (index example_X) /\
    evaluate_mse Pipeline example_predict_row (pipeline example_roles) sp = Ok v /\
    (v == mean_squared_difference ind_test
            (fun i => example_predict_row (pipeline example_roles)
                        (snd (row_at example_X i)))
            (fun i => cell_value (nth i (col_values example_target) NA)))%Q.
Proof.
  assert (Hnum : Forall (fun c => exists q, cell_number c = Ok q)
                        (col_values example_target)) by all_numbers.
  split; [split; [reflexivity | split; [reflexivity | exact Hnum]] |].
  apply (evaluate_mse_over_test_rows example_permutation Pipeline example_predict_row
           example_X example_y example_target (pipeline example_roles)).
  - apply example_permutation_ok.
  - reflexivity.
  - vm_compute; lia.
  - reflexivity.
  - reflexivity.
  - exact Hnum.
Defined.

Lemma unseen_category_is_all_zero_witness :
  (cat_fit [Str "B"; NA; Str "A"; Str "B"; Str "A"] =
     Ok (mkCatState (Some "A") ["A"; "B"]) /\
   ~ In (Str "C") [Str "B"; NA; Str "A"; Str "B"; Str "A"]) /\
  cat_transform (mkCatState (Some "A") ["A"; "B"]) (Str "C") = Ok [0%Q; 0%Q] /\
  (forall w, exists vec,
     cat_transform (mkCatState (Some "A") ["A"; "B"]) w = Ok vec /\
     length vec = 2).
Proof.
  assert (Hun : ~ In (Str "C") [Str "B"; NA; Str "A"; Str "B"; Str "A"])
    by (simpl; intuition discriminate).
  split; [split; [reflexivity | exact Hun] |].
  apply (unseen_category_is_all_zero [Str "B"; NA; Str "A"; Str "B"; Str "A"]
           (mkCatState (Some "A") ["A"; "B"]) (Str "C")).
  - reflexivity.
  - discriminate.
  - exact Hun.
Defined.

Lemma prediction_merge_raises_witness :
  (Forall (fun l => exists i, l = Int i) (index example_raw) /\
   feature_derive example_parse int64 example_raw = Ok example_data /\
   split_data example_permutation example_data = Ok (example_roles, example_split)) /\
  prediction_merge example_data (index (X_test example_split)) [8; 7]%Q =
    Raise (KeyError "labels not in index") /\
  ~ (exists out,
       prediction_merge example_data (index (X_test example_split)) [8; 7]%Q = Ok out /\
       merged_as_specified example_data (index (X_test example_split)) [8; 7]%Q out).
Proof.
  assert (Hint : Forall (fun l => exists i, l = Int i) (index example_raw))
    by (repeat (constructor; [eexists; reflexivity |]); constructor).
  split; [split; [exact Hint | split; [reflexivity | exact example_split_data]] |].
  apply (prediction_merge_raises example_parse int64 example_permutation
           example_raw example_data example_timestamps example_roles example_split).
  - reflexivity.
  - exact example_raw_well_formed.
  - exact Hint.
  - reflexivity.
  - apply example_permutation_ok.
  - exact example_split_data.
Defined.

Lemma feature_importance_raises_witness :
  (preprocessor_fit unit example_num_state example_roles (X_train example_split) =
     Ok example_preprocessor /\
   length (num_cols example_roles) = 6 /\
   preprocessor_width unit example_preprocessor = 8) /\
  best_model_feature_importance example_preprocessor example_roles 2 [] =
    Raise (ValueError
      "input_features should have length equal to number of features").
Proof.
  split; [split; [reflexivity | split; reflexivity] |].
  apply (feature_importance_raises unit example_num_state example_roles
           (X_train example_split) example_preprocessor 2 []).
  - reflexivity.
  - repeat (constructor; [discriminate |]); constructor.
  - apply Exists_cons_hd. discriminate.
Defined.

Lemma other_dtypes_are_dropped_witness :
  (In example_holiday (columns example_data) /\
   col_dtype example_holiday = bool_) /\
  ~ In (col_name example_holiday)
       (pre_num_cols (pipeline example_roles) ++ pre_cat_cols (pipeline example_roles)) /\
  (listed_but_dropped example_roles example_holiday <->
   col_name example_holiday <> target /\ col_name example_holiday <> "timestamp") /\
  (forall X X' : DataFrame,
     (forall nm, nm <> col_name example_holiday ->
                 find_column nm (columns X) = find_column nm (columns X')) ->
     preprocessor_fit unit example_num_state example_roles X =
     preprocessor_fit unit example_num_state example_roles X') /\
  (forall (X : DataFrame) (p : Preprocessor unit) (rw rw' : row),
     preprocessor_fit unit example_num_state example_roles X = Ok p ->
     (forall nm, nm <> col_name example_holiday -> row_get nm rw = row_get nm rw') ->
     preprocessor_transform_row unit example_num_apply p rw =
     preprocessor_transform_row unit example_num_apply p rw').
Proof.
  assert (Hin : In example_holiday (columns example_data))
    by (apply (find_column_In "is_holiday"); reflexivity).
  split; [split; [exact Hin | reflexivity] |].
  apply (other_dtypes_are_dropped unit example_num_state example_num_apply
           example_data example_roles example_holiday).
  - exact example_data_names.
  - reflexivity.
  - exact Hin.
  - discriminate.
  - discriminate.
  - discriminate.
Defined.

(** C9 as stated fails on the example at the parsed datetime column,
    which the claim names: its dtype is datetime64, none of the three,
    and it is not listed in the feature set. *)
Lemma parsed_timestamp_is_not_listed :
  exists r s,
    classify_columns example_data = Ok r /\
    In s (columns example_data) /\
    col_name s = "timestamp" /\ col_dtype s = datetime64 /\
    ~ listed_but_dropped r s.
Proof.
  exists example_roles, example_parsed.
  split; [reflexivity |]. split; [| split; [reflexivity | split; [reflexivity |]]].
  - apply (find_column_In "timestamp"). reflexivity.
  - intros [H _]. apply mem_string_In in H. vm_compute in H. discriminate.
Qed.

Lemma model_search_depends_on_train_only_witness :
  (X_train example_split = X_train example_split' /\
   y_train example_split = y_train example_split' /\
   X_test example_split <> X_test example_split') /\
  example_roles = example_roles /\
  preprocessor_fit unit example_num_state example_roles (X_train example_split) =
  preprocessor_fit unit example_num_state example_roles (X_train example_split') /\
  model_search example_permutation Pipeline example_cv_score example_fit_pipeline
    example_grid example_data =
  model_search example_permutation Pipeline example_cv_score example_fit_pipeline
    example_grid example_data'.
Proof.
  split; [split; [reflexivity | split; [reflexivity | discriminate]] |].
  apply (model_search_depends_on_train_only example_parse int64 example_permutation
           Pipeline example_cv_score example_fit_pipeline unit example_num_state
           example_grid example_raw example_raw' example_data example_data'
           example_roles example_roles example_split example_split').
  - exact example_raw_names.
  - exact example_raw_well_formed.
  - exact example_raw'_names.
  - exact example_raw'_well_formed.
  - reflexivity.
  - reflexivity.
  - apply example_permutation_ok.
  - apply example_permutation_ok.
  - exact example_split_data.
  - exact example_split_data'.
  - reflexivity.
  - reflexivity.
Defined.

(** * Further properties of the script *)

(** ** Feature derivation: errors, shape and schema *)

Lemma find_column_some nm (cols : list Series) :
  In nm (map col_name cols) -> exists s, find_column nm cols = Some s.
Proof.
  induction cols as [| c cols IH]; simpl; [contradiction |].
  destruct (String.eqb_spec nm (col_name c)) as [E | NE].
  - intros _. now exists c.
  - intros [E | H]; [congruence | now apply IH].
Qed.

Lemma find_column_none nm (cols : list Series) :
  find_column nm cols = None -> ~ In nm (map col_name cols).
Proof.
  intros H Hin. destruct (find_column_some nm cols Hin) as [s Hs]. congruence.
Qed.

Lemma find_column_in_names nm (cols : list Series) s :
  find_column nm cols = Some s -> In nm (map col_name cols).
Proof.
  intros H. rewrite <- (find_column_name nm cols s H).
  apply in_map. now apply find_column_In in H.
Qed.

Section DerivedFrameFacts.

Variable parse_datetime : list cell -> cell -> option Timestamp.
Variable calendar_dtype : dtype.

Lemma kept_timestamps_found (raw : DataFrame) (ts : Series) :
  find_column "timestamp" (columns raw) = Some ts ->
  find_column "timestamp"
    (map (mask_series (parsed_mask parse_datetime ts))
         (assign (datetime_column parse_datetime ts) (columns raw)))
  = Some (kept_timestamps parse_datetime ts).
Proof.
  intros Hf. rewrite find_column_map_mask.
  assert (Hname : col_name (datetime_column parse_datetime ts) = "timestamp")
    by (simpl; now apply find_column_name in Hf).
  rewrite <- Hname at 1. now rewrite find_column_assign_same.
Qed.

(** The deriver returns the closed form. *)
Lemma feature_derive_closed_form (raw : DataFrame) (ts : Series) :
  find_column "timestamp" (columns raw) = Some ts ->
  one_offset parse_datetime ts = true ->
  feature_derive parse_datetime calendar_dtype raw =
    Ok (derived_frame parse_datetime calendar_dtype raw ts).
Proof.
  intros Hf Hone.
  pose proof (kept_timestamps_found raw ts Hf) as Hk.
  assert (Hname : col_name (datetime_column parse_datetime ts) = "timestamp")
    by (simpl; now apply find_column_name in Hf).
  unfold feature_derive, get_column. rewrite Hf. cbn [bind].
  unfold to_datetime. rewrite Hone. cbn [bind].
  unfold dropna, get_column. cbn [set_column columns index].
  rewrite <- Hname at 1. rewrite find_column_assign_same. cbn [bind].
  fold (parsed_mask parse_datetime ts).
  unfold add_dt_field, get_column. cbn [columns].
  rewrite Hk. cbn [bind set_column columns index].
  rewrite find_column_assign_other by (simpl; discriminate).
  rewrite Hk. cbn [bind set_column columns index].
  rewrite !find_column_assign_other by (simpl; discriminate).
  rewrite Hk. cbn [bind set_column columns index].
  rewrite !find_column_assign_other by (simpl; discriminate).
  rewrite Hk. cbn [bind set_column columns index].
  rewrite !find_column_assign_other by (simpl; discriminate).
  rewrite Hk. cbn [bind set_column columns index].
  reflexivity.
Qed.

(** X1. The three outcomes of the deriver.  Without a timestamp column
    it raises the KeyError naming it.  With one whose converted values
    carry different UTC offsets it raises another error.  Otherwise it
    returns, whatever the cells hold: a value that does not convert is
    coerced to the missing value, never raised. *)
Theorem feature_derive_outcome (raw : DataFrame) :
  match find_column "timestamp" (columns raw) with
  | None =>
      feature_derive parse_datetime calendar_dtype raw = Raise (KeyError "timestamp")
  | Some ts =>
      if one_offset parse_datetime ts then
        exists data, feature_derive parse_datetime calendar_dtype raw = Ok data
      else
        exists e, feature_derive parse_datetime calendar_dtype raw = Raise e /\
                  forall nm, e <> KeyError nm
  end.
Proof.
  destruct (find_column "timestamp" (columns raw)) as [ts |] eqn:Hf.
  - destruct (one_offset parse_datetime ts) eqn:Hone.
    + exists (derived_frame parse_datetime calendar_dtype raw ts).
      now apply feature_derive_closed_form.
    + eexists. split.
      * now apply feature_derive_mixed_offsets with (ts := ts).
      * discriminate.
  - now apply feature_derive_no_timestamp.
Qed.

Lemma Forall_assign (P : Series -> Prop) s cols :
  P s -> Forall P cols -> Forall P (assign s cols).
Proof.
  intros Hs. induction cols as [| c cols IH]; intros Hcols; simpl.
  - now constructor.
  - inversion Hcols as [| ? ? Hc Hrest]; subst.
    destruct (String.eqb (col_name s) (col_name c)); constructor; auto.
Qed.

Lemma derived_frame_other_columns (raw : DataFrame) (ts : Series) (nm : string) :
  find_column "timestamp" (columns raw) = Some ts ->
  nm <> "timestamp" -> ~ In nm calendar_fields ->
  find_column nm (derived_columns parse_datetime calendar_dtype raw ts) =
  option_map (mask_series (parsed_mask parse_datetime ts))
             (find_column nm (columns raw)).
Proof.
  intros Hf Hts Hcal. unfold derived_columns.
  rewrite !find_column_assign_other
    by (simpl; intros <-; apply Hcal; simpl; tauto).
  rewrite find_column_map_mask.
  rewrite find_column_assign_other; [reflexivity |].
  simpl. rewrite (find_column_name _ _ _ Hf). congruence.
Qed.

Lemma derived_frame_calendar_column (raw : DataFrame) (ts : Series) (f : string) :
  In f calendar_fields ->
  exists fn,
    find_column f (derived_columns parse_datetime calendar_dtype raw ts) =
    Some (dt_field calendar_dtype f fn (kept_timestamps parse_datetime ts)).
Proof.
  unfold calendar_fields, derived_columns. simpl.
  intros [<- | [<- | [<- | [<- | [<- | []]]]]]; eexists;
    rewrite ?find_column_assign_other by (simpl; discriminate);
    match goal with
    | |- find_column ?n (assign ?s _) = _ =>
        change n with (col_name s); apply find_column_assign_same
    end.
Qed.

Lemma derived_frame_names (raw : DataFrame) (ts : Series) :
  NoDup (column_names raw) ->
  NoDup (map col_name (derived_columns parse_datetime calendar_dtype raw ts)).
Proof.
  intros Hnd. unfold derived_columns.
  repeat apply NoDup_names_assign.
  rewrite map_map. cbn [mask_series col_name].
  now apply NoDup_names_assign.
Qed.

Lemma NoDup_filter_mask {A : Type} (mask : list bool) : forall l : list A,
  NoDup l -> NoDup (filter_mask mask l).
Proof.
  induction mask as [| b mask IH]; intros [| x l] H; simpl; try constructor.
  inversion H as [| ? ? Hx Hl]; subst.
  destruct b; [| now apply IH].
  constructor; [| now apply IH].
  intros Hin. apply Hx. now apply (filter_mask_In mask).
Qed.

Lemma length_filter_mask_le {A : Type} (mask : list bool) : forall l : list A,
  length (filter_mask mask l) <= length l.
Proof.
  induction mask as [| b mask IH]; intros [| x l]; simpl; try lia.
  specialize (IH l). destruct b; simpl; lia.
Qed.

(** X2. On a well-formed table whose timestamps convert to one UTC
    offset the deriver keeps the frame well-formed; its index is the input
    index with the labels of the unparsable rows removed, so labels stay
    distinct and no row is added; and a column other than the timestamp
    and the five calendar names keeps its name and dtype and loses
    exactly the dropped rows. *)
Theorem feature_derive_shape (raw : DataFrame) (ts : Series) :
  find_column "timestamp" (columns raw) = Some ts ->
  one_offset parse_datetime ts = true ->
  well_formed raw ->
  exists data,
    feature_derive parse_datetime calendar_dtype raw = Ok data /\
    well_formed data /\
    index data = filter_mask (parsed_mask parse_datetime ts) (index raw) /\
    n_rows data <= n_rows raw /\
    (NoDup (index raw) -> NoDup (index data)) /\
    (forall nm, nm <> "timestamp" -> ~ In nm calendar_fields ->
       find_column nm (columns data) =
       option_map (mask_series (parsed_mask parse_datetime ts))
                  (find_column nm (columns raw))).
Proof.
  intros Hf Hone Hwf.
  exists (derived_frame parse_datetime calendar_dtype raw ts).
  split; [now apply feature_derive_closed_form |].
  assert (Hlen : length (col_values (datetime_column parse_datetime ts)) =
                 length (index raw)).
  { cbn [datetime_column col_values]. rewrite length_map.
    unfold well_formed in Hwf. rewrite Forall_forall in Hwf.
    apply Hwf. now apply find_column_In in Hf. }
  assert (Hkept : length (col_values (kept_timestamps parse_datetime ts)) =
                  length (filter_mask (parsed_mask parse_datetime ts) (index raw))).
  { unfold kept_timestamps. cbn [mask_series col_values].
    now apply length_filter_mask. }
  split; [| split; [reflexivity | split; [| split]]].
  - unfold well_formed, derived_frame, derived_columns. cbn [index columns].
    repeat (apply Forall_assign;
            [cbn [dt_field col_values]; rewrite length_map; exact Hkept |]).
    apply Forall_forall. intros s Hs. apply in_map_iff in Hs.
    destruct Hs as (c & <- & Hc). cbn [mask_series col_values].
    apply length_filter_mask.
    revert c Hc. apply Forall_forall. apply Forall_assign; [exact Hlen | exact Hwf].
  - unfold n_rows, derived_frame. cbn [index]. apply length_filter_mask_le.
  - intros Hnd. unfold derived_frame. cbn [index]. now apply NoDup_filter_mask.
  - intros nm H1 H2. unfold derived_frame. cbn [columns].
    now apply derived_frame_other_columns.
Qed.

(** X3. Whether the five calendar columns reach the model is decided by
    the dtype pandas gives them: each is in the feature set, it is a
    numeric input exactly when that dtype is float64 or int64, and a
    categorical input exactly when it is object.  With int32, the dtype of
    pandas 2, the transformer therefore drops all five. *)
Theorem calendar_fields_grouped_by_dtype (raw data : DataFrame) (r : ColumnRoles)
  (f : string) :
  NoDup (column_names raw) ->
  feature_derive parse_datetime calendar_dtype raw = Ok data ->
  classify_columns data = Ok r ->
  In f calendar_fields ->
  In f (features r) /\
  (In f (num_cols r) <-> calendar_dtype = float64 \/ calendar_dtype = int64) /\
  (In f (cat_cols r) <-> calendar_dtype = object).
Proof.
  intros Hnd Hd Hc Hf.
  destruct (find_column "timestamp" (columns raw)) as [ts |] eqn:Hts.
  2: { unfold feature_derive, get_column in Hd. rewrite Hts in Hd. discriminate. }
  pose proof (feature_derive_ok_one_offset parse_datetime calendar_dtype
                raw data ts Hts Hd) as Hone.
  rewrite (feature_derive_closed_form raw ts Hts Hone) in Hd. injection Hd as <-.
  destruct (derived_frame_calendar_column raw ts f Hf) as [fn Hfind].
  set (s := dt_field calendar_dtype f fn (kept_timestamps parse_datetime ts)) in *.
  assert (Hin : In s (columns (derived_frame parse_datetime calendar_dtype raw ts)))
    by (now apply find_column_In in Hfind).
  assert (Hnd' : NoDup (column_names (derived_frame parse_datetime calendar_dtype raw ts)))
    by (now apply derived_frame_names).
  destruct (classify_columns_membership _ r s Hnd' Hc Hin) as (Hfe & Hn & Hcat).
  change (col_name s) with f in *. change (col_dtype s) with calendar_dtype in *.
  assert (Hne : f <> target /\ f <> "timestamp").
  { unfold calendar_fields in Hf. simpl in Hf.
    destruct Hf as [<- | [<- | [<- | [<- | [<- | []]]]]]; split; discriminate. }
  split; [now apply Hfe |]. split; [| exact Hcat].
  rewrite Hn. tauto.
Qed.

End DerivedFrameFacts.

(** ** Column classifier and feature frame: errors and contents *)

Lemma index_drop_returns labels names :
  (forall x, In x labels -> In x names) ->
  index_drop labels names = Ok (filter (fun n => negb (mem_string n labels)) names).
Proof.
  intros H. unfold index_drop.
  destruct (find _ labels) as [x |] eqn:E; [| reflexivity].
  apply find_some in E. destruct E as [Hx Hn].
  apply not_mem_string in Hn. destruct Hn. now apply H.
Qed.

Lemma index_drop_raises labels names x :
  index_drop labels names = Raise x ->
  exists l, x = KeyError l /\ In l labels /\ ~ In l names.
Proof.
  unfold index_drop.
  destruct (find _ labels) as [l |] eqn:E; [| discriminate].
  intros H. injection H as <-. apply find_some in E. destruct E as [Hl Hn].
  exists l. split; [reflexivity |]. split; [exact Hl |]. now apply not_mem_string.
Qed.

(** X4. With distinct column names, the classifier returns exactly when
    the table has a timestamp column and a target column of dtype float64
    or int64.  When both columns are there but the target has another
    dtype (a stray string makes it object), it raises KeyError on the
    target. *)
Theorem classify_columns_returns_iff (data : DataFrame) :
  NoDup (column_names data) ->
  ((exists r, classify_columns data = Ok r) <->
   (In "timestamp" (column_names data) /\
    exists s, In s (columns data) /\ col_name s = target /\
              (col_dtype s = float64 \/ col_dtype s = int64))) /\
  (forall s, In "timestamp" (column_names data) ->
             In s (columns data) -> col_name s = target ->
             col_dtype s <> float64 -> col_dtype s <> int64 ->
             classify_columns data = Raise (KeyError target)).
Proof.
  intros Hnd. split; [split |].
  - intros [r Hr].
    destruct (classify_columns_ok data r Hr) as (_ & _ & _ & Htarget).
    unfold classify_columns in Hr.
    apply bind_ok in Hr. destruct Hr as (fs & Hfs & _).
    apply index_drop_ok in Hfs. destruct Hfs as [_ Hlabels].
    split; [apply Hlabels; simpl; tauto |].
    unfold column_names in Htarget. apply in_map_iff in Htarget.
    destruct Htarget as (s & Hname & Hs).
    apply in_select_dtypes in Hs. destruct Hs as [Hs Hd].
    exists s. split; [exact Hs |]. split; [exact Hname |].
    simpl in Hd. intuition congruence.
  - intros (Hts & s & Hs & Hname & Hd).
    assert (Htg : In target (column_names data))
      by (rewrite <- Hname; unfold column_names; now apply in_map).
    unfold classify_columns.
    rewrite index_drop_returns
      by (intros x [<- | [<- | []]]; assumption).
    cbn [bind].
    rewrite index_drop_returns.
    + cbn [bind]. eexists. reflexivity.
    + intros x [<- | []]. rewrite <- Hname.
      apply (name_in_select_dtypes [float64; int64] data s Hnd Hs).
      simpl. intuition congruence.
  - intros s Hts Hs Hname N1 N2.
    assert (Htg : In target (column_names data))
      by (rewrite <- Hname; unfold column_names; now apply in_map).
    unfold classify_columns.
    rewrite index_drop_returns
      by (intros x [<- | [<- | []]]; assumption).
    cbn [bind].
    destruct (index_drop [target] (column_names (select_dtypes [float64; int64] data)))
      as [ns | e] eqn:E.
    + exfalso. apply index_drop_ok in E. destruct E as [_ Hl].
      specialize (Hl target (or_introl eq_refl)). rewrite <- Hname in Hl.
      apply (name_in_select_dtypes [float64; int64] data s Hnd Hs) in Hl.
      simpl in Hl. intuition congruence.
    + cbn [bind]. apply index_drop_raises in E.
      destruct E as (l & -> & [<- | []] & _). reflexivity.
Qed.

Lemma select_series_names names cols l :
  select_series names cols = Ok l ->
  map col_name l = names /\ (forall s, In s l -> In s cols).
Proof.
  revert l. induction names as [| nm names IH]; simpl; intros l H.
  - injection H as <-. split; [reflexivity | contradiction].
  - destruct (find_column nm cols) as [s |] eqn:Hf; [| discriminate].
    apply bind_ok in H. destruct H as (rest & Hrest & H). injection H as <-.
    destruct (IH rest Hrest) as [Hn Hin]. split.
    + simpl. now rewrite (find_column_name nm cols s Hf), Hn.
    + intros c [<- | Hc]; [now apply find_column_In in Hf | now apply Hin].
Qed.

Lemma select_series_returns names cols :
  (forall nm, In nm names -> In nm (map col_name cols)) ->
  exists l, select_series names cols = Ok l.
Proof.
  induction names as [| nm names IH]; intros H; simpl.
  - now exists [].
  - destruct (find_column_some nm cols (H nm (or_introl eq_refl))) as [s ->].
    destruct IH as [l ->]; [intros z Hz; apply H; now right |].
    cbn [bind]. eexists. reflexivity.
Qed.

Lemma well_formed_select names data X :
  well_formed data -> select_columns names data = Ok X -> well_formed X.
Proof.
  unfold select_columns. intros Hwf H.
  apply bind_ok in H. destruct H as (cols & Hsel & H). injection H as <-.
  unfold well_formed in *. cbn [index columns].
  apply Forall_forall. intros s Hs.
  rewrite Forall_forall in Hwf. apply Hwf.
  now apply (select_series_names names (columns data) cols Hsel).
Qed.

Lemma feature_frame_ok (data : DataFrame) (r : ColumnRoles) :
  classify_columns data = Ok r ->
  exists X y ycol,
    select_columns (features r) data = Ok X /\
    series_frame target data = Ok y /\
    index X = index data /\ index y = index data /\
    column_names X = features r /\
    (forall s, In s (columns X) -> In s (columns data)) /\
    ~ In target (column_names X) /\
    ~ In "timestamp" (column_names X) /\
    columns y = [ycol] /\ find_column target (columns data) = Some ycol.
Proof.
  intros Hc.
  destruct (classify_columns_ok data r Hc) as (Ef & _ & _ & _).
  unfold classify_columns in Hc.
  apply bind_ok in Hc. destruct Hc as (fs & Hfs & _).
  apply index_drop_ok in Hfs. destruct Hfs as [_ Hlabels].
  destruct (select_series_returns (features r) (columns data)) as [cols Hcols].
  { intros nm Hnm. rewrite Ef in Hnm. now apply filter_In in Hnm. }
  destruct (find_column_some target (columns data)) as [ycol Hy].
  { apply Hlabels. simpl. tauto. }
  destruct (select_series_names _ _ _ Hcols) as [Hnames Hin].
  exists (mkFrame (index data) cols), (mkFrame (index data) [ycol]), ycol.
  assert (Hout : forall nm, In nm [target; "timestamp"] -> ~ In nm (features r)).
  { intros nm Hnm H. rewrite Ef in H. apply filter_In in H.
    destruct H as [_ H]. apply not_mem_string in H. contradiction. }
  unfold select_columns, series_frame, select_columns, column_names.
  rewrite Hcols. cbn [bind select_series index columns]. rewrite Hy. cbn [bind].
  rewrite Hnames.
  repeat split; auto.
  - apply Hout. simpl. tauto.
  - apply Hout. simpl. tauto.
Qed.

(** X5. After a successful classification lines 72-73 do not raise: the
    feature frame has the dataset's index and exactly the feature columns,
    each taken from the dataset, and neither the target nor the raw
    timestamp is among them; the target frame holds the target column
    alone. *)
Theorem feature_frame_excludes_target (data : DataFrame) (r : ColumnRoles) :
  classify_columns data = Ok r ->
  exists X y ycol,
    select_columns (features r) data = Ok X /\
    series_frame target data = Ok y /\
    index X = index data /\ index y = index data /\
    column_names X = features r /\
    (forall s, In s (columns X) -> In s (columns data)) /\
    ~ In target (column_names X) /\
    ~ In "timestamp" (column_names X) /\
    columns y = [ycol] /\ find_column target (columns data) = Some ycol.
Proof. exact (feature_frame_ok data r). Qed.

(** ** Split of the dataset: when it raises, and alignment *)

Lemma well_formed_take_rows positions (df : DataFrame) :
  well_formed (take_rows positions df).
Proof.
  unfold well_formed, take_rows, take. cbn [index columns].
  apply Forall_forall. intros s Hs. apply in_map_iff in Hs.
  destruct Hs as (c & <- & _). cbn [take_series col_values].
  unfold take. now rewrite !length_map.
Qed.

Section SplitDataFacts.

Variable rng_permutation : Z -> nat -> list nat.

Lemma shuffle_split_small seed n :
  n < 2 ->
  shuffle_split rng_permutation test_size seed n =
    Raise (ValueError "the resulting train set will be empty").
Proof.
  intros H. unfold shuffle_split. rewrite n_test_of_fifth.
  assert (E : n - (n + 4) / 5 = 0).
  { destruct n as [| [| n]]; [reflexivity | reflexivity | lia]. }
  now rewrite E.
Qed.

Lemma shuffle_split_large seed n :
  2 <= n -> exists parts, shuffle_split rng_permutation test_size seed n = Ok parts.
Proof.
  intros H. unfold shuffle_split. rewrite n_test_of_fifth.
  pose proof (fifth_bounds n).
  destruct (Nat.eqb_spec (n - (n + 4) / 5) 0) as [E | _]; [lia |].
  eexists. reflexivity.
Qed.

(** X6. Once the columns are classified, the split stops the run exactly
    when fewer than two rows are left: it then raises the ValueError of an
    empty training set; with two rows or more it returns, whatever the
    permutation routine yields. *)
Theorem split_data_raises_iff_too_few_rows (data : DataFrame) (r : ColumnRoles) :
  classify_columns data = Ok r ->
  if n_rows data <? 2 then
    split_data rng_permutation data =
      Raise (ValueError "the resulting train set will be empty")
  else exists sp, split_data rng_permutation data = Ok (r, sp).
Proof.
  intros Hc.
  destruct (feature_frame_ok data r Hc)
    as (X & y & ycol & HX & Hy & HiX & Hiy & _).
  unfold split_data. rewrite Hc. cbn [bind]. rewrite HX. cbn [bind].
  rewrite Hy. cbn [bind]. unfold train_test_split, n_rows.
  rewrite HiX, Hiy, Nat.eqb_refl.
  destruct (Nat.ltb_spec (length (index data)) 2) as [Hlt | Hge].
  - now rewrite shuffle_split_small.
  - destruct (shuffle_split_large random_state _ Hge) as [[tr te] ->].
    cbn [bind]. eexists. reflexivity.
Qed.

(** X7. The four frames of a split are well-formed, features and target
    stay aligned (the training frames carry the same labels in the same
    order, and so do the test frames), the feature frames have the feature
    columns and the target frames the target column only. *)
Theorem split_data_aligned (data : DataFrame) (r : ColumnRoles) (sp : Split) :
  split_data rng_permutation data = Ok (r, sp) ->
  index (X_train sp) = index (y_train sp) /\
  index (X_test sp) = index (y_test sp) /\
  well_formed (X_train sp) /\ well_formed (X_test sp) /\
  well_formed (y_train sp) /\ well_formed (y_test sp) /\
  column_names (X_train sp) = features r /\
  column_names (X_test sp) = features r /\
  column_names (y_train sp) = [target] /\
  column_names (y_test sp) = [target] /\
  ~ In target (column_names (X_train sp)).
Proof.
  intros H.
  destruct (split_data_ok rng_permutation data r sp H) as (X & y & Hc & HX & Hy & Hsp).
  destruct (feature_frame_ok data r Hc)
    as (X' & y' & ycol & HX' & Hy' & HiX & Hiy & Hnames & _ & Hnt & _ & Hcy & Hfy).
  rewrite HX in HX'. injection HX' as <-.
  rewrite Hy in Hy'. injection Hy' as <-.
  unfold train_test_split in Hsp.
  destruct (n_rows X =? n_rows y); [| discriminate].
  apply bind_ok in Hsp. destruct Hsp as ([tr te] & _ & Hsp). injection Hsp as <-.
  cbn [X_train X_test y_train y_test].
  rewrite !column_names_take_rows, Hnames.
  unfold take_rows at 1 2 3 4. cbn [index]. rewrite HiX, Hiy.
  repeat split; try apply well_formed_take_rows.
  - unfold column_names. rewrite Hcy. simpl.
    now rewrite (find_column_name _ _ _ Hfy).
  - unfold column_names. rewrite Hcy. simpl.
    now rewrite (find_column_name _ _ _ Hfy).
  - now rewrite <- Hnames.
Qed.

End SplitDataFacts.

(** ** K-fold splitting (lines 77 and 101, [cv=5]) *)

Lemma list_sum_indicator r k :
  list_sum (map (fun i => if i <? r then 1 else 0) (seq 0 k)) = Nat.min r k.
Proof.
  induction k as [| k IH]; [now rewrite Nat.min_0_r |].
  rewrite seq_S, map_app, list_sum_app, IH. simpl.
  destruct (Nat.ltb_spec k r); lia.
Qed.

Lemma list_sum_fold_sizes k n : 0 < k -> list_sum (fold_sizes k n) = n.
Proof.
  intros Hk. unfold fold_sizes.
  assert (H : forall l,
    list_sum (map (fun i => n / k + (if i <? n mod k then 1 else 0)) l) =
    length l * (n / k) + list_sum (map (fun i => if i <? n mod k then 1 else 0) l)).
  { induction l as [| x l IH]; simpl; [reflexivity | rewrite IH; lia]. }
  rewrite H, length_seq, list_sum_indicator.
  pose proof (Nat.mod_upper_bound n k ltac:(lia)).
  pose proof (Nat.div_mod_eq n k). lia.
Qed.

Lemma fold_sizes_balanced k n sz :
  In sz (fold_sizes k n) -> n / k <= sz <= n / k + 1.
Proof.
  unfold fold_sizes. intros H. apply in_map_iff in H.
  destruct H as (i & <- & _). destruct (i <? n mod k); lia.
Qed.

Lemma seq_split3 n a b :
  a + b <= n ->
  seq 0 n = (seq 0 a ++ seq a b ++ seq (a + b) (n - (a + b)))%list.
Proof.
  intros H. rewrite <- !seq_app. f_equal. lia.
Qed.

(** The folds cut out of [start ..] by consecutive block sizes. *)
Lemma folds_from_spec n sizes : forall start,
  start + list_sum sizes = n ->
  length (folds_from n start sizes) = length sizes /\
  concat (map snd (folds_from n start sizes)) = seq start (list_sum sizes) /\
  map (fun f => length (snd f)) (folds_from n start sizes) = sizes /\
  Forall (fun f => Permutation (fst f ++ snd f) (seq 0 n)) (folds_from n start sizes).
Proof.
  induction sizes as [| sz sizes IH]; intros start H; simpl.
  - repeat split. constructor.
  - simpl in H. destruct (IH (start + sz)) as (IH1 & IH2 & IH3 & IH4); [lia |].
    repeat split.
    + now rewrite IH1.
    + rewrite IH2. now rewrite <- seq_app.
    + now rewrite length_seq, IH3.
    + constructor; [| exact IH4]. cbn [fst snd].
      rewrite (seq_split3 n start sz) by lia.
      rewrite <- app_assoc. apply Permutation_app_head. apply Permutation_app_comm.
Qed.

Lemma kfold_spec k n :
  0 < k -> k <= n ->
  exists folds,
    kfold k n = Ok folds /\
    length folds = k /\
    concat (map snd folds) = seq 0 n /\
    Forall (fun f => Permutation (fst f ++ snd f) (seq 0 n) /\
                     n / k <= length (snd f) <= n / k + 1) folds.
Proof.
  intros Hk Hn. unfold kfold.
  destruct (Nat.ltb_spec n k) as [Hlt | _]; [lia |].
  destruct (folds_from_spec n (fold_sizes k n) 0) as (H1 & H2 & H3 & H4).
  { simpl. now apply list_sum_fold_sizes. }
  eexists. split; [reflexivity |]. split; [| split].
  - rewrite H1. unfold fold_sizes. now rewrite length_map, length_seq.
  - rewrite H2. now rewrite list_sum_fold_sizes.
  - apply Forall_forall. intros f Hf. split.
    + rewrite Forall_forall in H4. now apply H4.
    + apply (fold_sizes_balanced k n). rewrite <- H3.
      apply in_map_iff. now exists f.
Qed.

(** X8. Five-fold splitting of [n] rows raises a ValueError when [n] is
    below five; otherwise it yields five folds whose validation blocks,
    laid end to end, are the positions 0 .. n-1 in order (so they are
    disjoint and cover every row), each fold's training and validation
    positions together are all the rows, and the block sizes are n/5 or
    n/5 + 1. *)
Theorem kfold_five_partitions (n : nat) :
  if n <? 5 then
    kfold 5 n = Raise (ValueError
      "Cannot have number of splits greater than the number of samples")
  else
    exists folds,
      kfold 5 n = Ok folds /\
      length folds = 5 /\
      concat (map snd folds) = seq 0 n /\
      Forall (fun f => Permutation (fst f ++ snd f) (seq 0 n) /\
                       n / 5 <= length (snd f) <= n / 5 + 1) folds.
Proof.
  destruct (Nat.ltb_spec n 5) as [Hlt | Hge].
  - unfold kfold. destruct (Nat.ltb_spec n 5); [reflexivity | lia].
  - apply kfold_spec; lia.
Qed.

Lemma count_occ_concat (l : list (list nat)) (i : nat) :
  count_occ Nat.eq_dec (concat l) i =
  list_sum (map (fun b => count_occ Nat.eq_dec b i) l).
Proof.
  induction l as [| b l IH]; simpl; [reflexivity |].
  now rewrite count_occ_app, IH.
Qed.

Lemma count_occ_seq (n i : nat) :
  i < n -> count_occ Nat.eq_dec (seq 0 n) i = 1.
Proof.
  intros H.
  assert (Hin : In i (seq 0 n)) by (apply in_seq; lia).
  pose proof (proj1 (NoDup_count_occ Nat.eq_dec (seq 0 n)) (seq_NoDup n 0) i).
  apply (count_occ_In Nat.eq_dec) in Hin. lia.
Qed.

Section CrossValFacts.

Variable cv_score : Pipeline -> DataFrame -> DataFrame -> list nat * list nat -> Q.

(** X9. The final cross-validation runs over the whole dataset: on fewer
    than five rows it raises, otherwise it returns five scores, and every
    row of the dataset, the rows of the held-out test split included, is
    a validation row of exactly one fold and a training row of the other
    four. *)
Theorem cross_val_score_uses_every_row (p : Pipeline) (X y : DataFrame) :
  n_rows X = n_rows y ->
  if n_rows X <? 5 then
    cross_val_score cv_score p X y = Raise (ValueError
      "Cannot have number of splits greater than the number of samples")
  else
    exists folds scores,
      kfold 5 (n_rows X) = Ok folds /\
      cross_val_score cv_score p X y = Ok scores /\
      scores = map (cv_score p X y) folds /\
      length scores = 5 /\
      forall i, i < n_rows X ->
        list_sum (map (fun f => count_occ Nat.eq_dec (snd f) i) folds) = 1 /\
        list_sum (map (fun f => count_occ Nat.eq_dec (fst f) i) folds) = 4.
Proof.
  intros Hxy. unfold cross_val_score. rewrite <- Hxy, Nat.eqb_refl.
  destruct (Nat.ltb_spec (n_rows X) 5) as [Hlt | Hge].
  - unfold kfold. destruct (Nat.ltb_spec (n_rows X) 5); [reflexivity | lia].
  - destruct (kfold_spec 5 (n_rows X)) as (folds & Hk & Hlen & Hcat & Hall); [lia | lia |].
    exists folds, (map (cv_score p X y) folds).
    rewrite Hk. cbn [bind].
    split; [reflexivity |]. split; [reflexivity |]. split; [reflexivity |].
    split; [now rewrite length_map |].
    intros i Hi.
    assert (Hval : list_sum (map (fun f => count_occ Nat.eq_dec (snd f) i) folds) = 1).
    { rewrite <- (count_occ_seq (n_rows X) i Hi), <- Hcat, count_occ_concat.
      now rewrite map_map. }
    split; [exact Hval |].
    assert (Hsum : list_sum (map (fun f => count_occ Nat.eq_dec (fst f) i) folds) +
                   list_sum (map (fun f => count_occ Nat.eq_dec (snd f) i) folds) =
                   length folds).
    { clear Hval Hk Hlen Hcat.
      induction Hall as [| f folds [Hp _] _ IH]; simpl; [reflexivity |].
      pose proof (Permutation_count_occ Nat.eq_dec (fst f ++ snd f) (seq 0 (n_rows X))) as Hc.
      apply proj1 in Hc. specialize (Hc Hp i).
      rewrite count_occ_app, (count_occ_seq _ _ Hi) in Hc. lia. }
    lia.
Qed.

End CrossValFacts.

(** ** How many rows the search needs (lines 74 and 77) *)

Section SearchSizeFacts.

Variable rng_permutation : Z -> nat -> list nat.
Variable Model : Type.
Variable cv_score : Pipeline -> DataFrame -> DataFrame -> list nat * list nat -> Q.
Variable fit_pipeline : Pipeline -> DataFrame -> DataFrame -> Model.

(** X18. The training split holds the rows that the test split leaves,
    four fifths of the dataset rounded down.  On a dataset of fewer than
    seven rows these are fewer than five, and the search stops in the
    five-fold splitter with its ValueError before any cell of the grid is
    tried, whatever the non-empty grid; from seven rows on the splitter
    yields its five folds. *)
Theorem search_needs_seven_rows (data : DataFrame) (r : ColumnRoles) (sp : Split) :
  Permutation (rng_permutation random_state (n_rows data)) (seq 0 (n_rows data)) ->
  split_data rng_permutation data = Ok (r, sp) ->
  n_rows (X_train sp) = n_rows data - (n_rows data + 4) / 5 /\
  if n_rows data <? 7 then
    forall g, ParameterGrid g <> [] ->
      model_search rng_permutation Model cv_score fit_pipeline g data =
        Raise (ValueError
          "Cannot have number of splits greater than the number of samples")
  else
    exists folds, kfold 5 (n_rows (X_train sp)) = Ok folds /\ length folds = 5.
Proof.
  intros Hperm Hsplit.
  destruct (split_data_ok rng_permutation data r sp Hsplit)
    as (X & y & Hc & HX & Hy & Hsp).
  assert (Hrows : n_rows X = n_rows data)
    by (unfold n_rows; now rewrite (select_columns_index _ _ _ HX)).
  assert (Htrain : n_rows (X_train sp) = n_rows data - (n_rows data + 4) / 5).
  { unfold train_test_split in Hsp.
    destruct (n_rows X =? n_rows y); [| discriminate].
    apply bind_ok in Hsp. destruct Hsp as ([tr te] & Hs & Hsp). injection Hsp as <-.
    rewrite Hrows in Hs.
    assert (Hn : 2 <= n_rows data).
    { unfold shuffle_split in Hs. rewrite n_test_of_fifth in Hs.
      destruct (Nat.eqb_spec (n_rows data - (n_rows data + 4) / 5) 0);
        [discriminate |].
      pose proof (fifth_bounds (n_rows data)). lia. }
    destruct (shuffle_split_ok rng_permutation random_state (n_rows data) Hperm Hn)
      as (tr' & te' & Hs' & _ & _ & _ & Hlen & _).
    rewrite Hs in Hs'. injection Hs' as <- <-.
    cbn [X_train]. unfold n_rows at 1, take_rows, take. cbn [index].
    now rewrite length_map. }
  split; [exact Htrain |].
  pose proof (fifth_bounds (n_rows data)) as Hb.
  destruct (Nat.ltb_spec (n_rows data) 7) as [Hlt | Hge].
  - intros g _. unfold model_search. rewrite Hsplit. cbn [bind fst snd].
    unfold GridSearchCV_fit, kfold.
    destruct (Nat.ltb_spec (n_rows (X_train sp)) 5) as [_ | Hc5]; [reflexivity |].
    exfalso. rewrite Htrain in Hc5. lia.
  - destruct (kfold_spec 5 (n_rows (X_train sp))) as (folds & Hk & Hl & _);
      [lia | rewrite Htrain; lia |].
    exists folds. split; assumption.
Qed.

End SearchSizeFacts.

(** ** The parameter grid: its cells *)

Lemma in_ParameterGrid (g : ParamGrid) (c : Candidate) :
  In c (ParameterGrid g) <->
  In (c_model c) (grid_model g) /\ In (c_alpha c) (grid_alpha g) /\
  In (c_degree c) (grid_degree g).
Proof.
  unfold ParameterGrid. rewrite in_flat_map. split.
  - intros (m & Hm & H). apply in_flat_map in H. destruct H as (a & Ha & H).
    apply in_map_iff in H. destruct H as (d & <- & Hd). now simpl.
  - intros (Hm & Ha & Hd). exists (c_model c). split; [exact Hm |].
    apply in_flat_map. exists (c_alpha c). split; [exact Ha |].
    apply in_map_iff. exists (c_degree c). split; [now destruct c | exact Hd].
Qed.

Lemma length_ParameterGrid (g : ParamGrid) :
  length (ParameterGrid g) =
  length (grid_model g) * (length (grid_alpha g) * length (grid_degree g)).
Proof.
  unfold ParameterGrid.
  assert (Hin : forall m,
    length (flat_map (fun a => map (fun d => mkCandidate m a d) (grid_degree g))
                     (grid_alpha g)) =
    length (grid_alpha g) * length (grid_degree g)).
  { intros m. induction (grid_alpha g) as [| a l IH]; simpl; [reflexivity |].
    now rewrite length_app, length_map, IH. }
  induction (grid_model g) as [| m l IH]; simpl; [reflexivity |].
  now rewrite length_app, Hin, IH.
Qed.

Lemma map_result_pure {A B : Type} (f : A -> B) (l : list A) :
  map_result (fun x => Ok (f x)) l = Ok (map f l).
Proof. induction l as [| x l IH]; simpl; [reflexivity | now rewrite IH]. Qed.

(** ** Polynomial expansion: how many monomials, and which *)

Lemma binomial_zero_r n : binomial n 0 = 1.
Proof. destruct n; reflexivity. Qed.

Lemma binomial_small n k : n < k -> binomial n k = 0.
Proof.
  revert k. induction n as [| n IH]; intros [| k] H; simpl; try lia.
  rewrite !IH by lia. reflexivity.
Qed.

Lemma binomial_pascal n k :
  binomial (S n) (S k) = binomial n k + binomial n (S k).
Proof. reflexivity. Qed.

Lemma length_flat_map_sum {A B : Type} (f : A -> list B) (l : list A) :
  length (flat_map f l) = list_sum (map (fun x => length (f x)) l).
Proof.
  induction l as [| x l IH]; simpl; [reflexivity |].
  now rewrite length_app, IH.
Qed.

Lemma list_sum_cons (a : nat) (l : list nat) : list_sum (a :: l) = a + list_sum l.
Proof. reflexivity. Qed.

Lemma sum_binomial_row k m : forall lo,
  list_sum (map (fun i => binomial (lo + m - i + k - 1) k) (seq lo m)) =
  binomial (m + k) (S k).
Proof.
  induction m as [| m IH]; intros lo.
  - simpl. symmetry. apply binomial_small. lia.
  - cbn [seq map]. rewrite list_sum_cons.
    replace (lo + S m - lo + k - 1) with (m + k) by lia.
    replace (S m + k) with (S (m + k)) by lia.
    rewrite binomial_pascal. f_equal.
    rewrite <- (IH (S lo)). f_equal.
    apply map_ext. intros i. f_equal. lia.
Qed.

Lemma length_combinations_from k : forall n lo,
  length (combinations_from n k lo) = binomial (n - lo + k - 1) k.
Proof.
  induction k as [| k IH]; intros n lo.
  - simpl. now rewrite binomial_zero_r.
  - cbn [combinations_from]. rewrite length_flat_map_sum.
    replace (n - lo + S k - 1) with (n - lo + k) by lia.
    rewrite <- (sum_binomial_row k (n - lo) lo).
    apply f_equal. apply map_ext_in. intros i Hi. apply in_seq in Hi.
    rewrite length_map, IH. f_equal. lia.
Qed.

Lemma sum_binomial_diagonal n d :
  list_sum (map (fun k => binomial (n + k - 1) k) (seq 1 d)) + 1 =
  binomial (n + d) d.
Proof.
  induction d as [| d IH].
  - simpl. now rewrite binomial_zero_r.
  - rewrite seq_S, map_app, list_sum_app. cbn [map].
    rewrite list_sum_cons. cbn [list_sum fold_right].
    replace (n + (1 + d) - 1) with (n + d) by lia.
    replace (n + S d) with (S (n + d)) by lia.
    rewrite binomial_pascal. simpl (1 + d). lia.
Qed.

Lemma binomial_one n : binomial n 1 = n.
Proof.
  induction n as [| n IH]; [reflexivity |].
  rewrite binomial_pascal, binomial_zero_r, IH. lia.
Qed.

Lemma binomial_two n : 2 * binomial (S n) 2 = n * (n + 1).
Proof.
  induction n as [| n IH]; [reflexivity |].
  rewrite binomial_pascal, binomial_one. lia.
Qed.

(** X11. Expanding [n] columns to degree [d] without the bias column gives
    C(n+d, d) - 1 columns: [n] for degree 1 and n(n+3)/2 for the
    script's degree 2. *)
Theorem n_output_features_binomial (n d : nat) :
  n_output_features n d + 1 = binomial (n + d) d /\
  n_output_features n 1 = n /\
  2 * n_output_features n 2 = n * (n + 3).
Proof.
  assert (H : forall e, n_output_features n e =
                        list_sum (map (fun k => binomial (n + k - 1) k) (seq 1 e))).
  { intros e. unfold n_output_features, poly_combinations.
    rewrite length_flat_map_sum. apply f_equal. apply map_ext. intros k.
    rewrite length_combinations_from. f_equal. lia. }
  split; [| split].
  - rewrite H. apply sum_binomial_diagonal.
  - rewrite H. simpl. rewrite Nat.add_0_r.
    replace (n + 1 - 1) with n by lia. apply binomial_one.
  - rewrite H. cbn [seq map]. rewrite !list_sum_cons. cbn [list_sum fold_right].
    replace (n + 1 - 1) with n by lia. replace (n + 2 - 1) with (S n) by lia.
    rewrite binomial_one. pose proof (binomial_two n). lia.
Qed.

Lemma combinations_from_spec k : forall n lo combo,
  In combo (combinations_from n k lo) ->
  length combo = k /\
  Forall (fun i => lo <= i < n) combo /\
  Sorted le combo.
Proof.
  induction k as [| k IH]; intros n lo combo H.
  - simpl in H. destruct H as [<- | []]. repeat split; constructor.
  - cbn [combinations_from] in H. apply in_flat_map in H.
    destruct H as (i & Hi & H). apply in_seq in Hi.
    apply in_map_iff in H. destruct H as (rest & <- & Hrest).
    destruct (IH n i rest Hrest) as (Hlen & Hall & Hsorted).
    split; [simpl; now rewrite Hlen |]. split.
    + constructor; [lia |].
      eapply Forall_impl; [| exact Hall]. intros j Hj. cbn beta in *. lia.
    + constructor; [exact Hsorted |].
      destruct rest as [| j rest]; constructor.
      inversion Hall as [| ? ? Hj _]; subst. lia.
Qed.

Lemma NoDup_flat_map {A B : Type} (f : A -> list B) (l : list A) :
  NoDup l ->
  (forall x, In x l -> NoDup (f x)) ->
  (forall x y b, In x l -> In y l -> In b (f x) -> In b (f y) -> x = y) ->
  NoDup (flat_map f l).
Proof.
  induction l as [| x l IH]; intros Hnd Hf Hdisj; simpl; [constructor |].
  inversion Hnd as [| ? ? Hx Hl]; subst.
  apply NoDup_app.
  - apply Hf. now left.
  - apply IH; [exact Hl | |].
    + intros z Hz. apply Hf. now right.
    + intros a b c Ha Hb. apply Hdisj; now right.
  - intros b Hb Hb'. apply in_flat_map in Hb'. destruct Hb' as (y & Hy & Hby).
    assert (x = y) by (apply (Hdisj x y b); auto; [now left | now right]).
    subst. contradiction.
Qed.

Lemma NoDup_map_cons {A : Type} (a : A) (l : list (list A)) :
  NoDup l -> NoDup (map (cons a) l).
Proof.
  induction 1 as [| x l Hx _ IH]; simpl; constructor; [| exact IH].
  intros H. apply in_map_iff in H. destruct H as (y & E & Hy).
  injection E as <-. contradiction.
Qed.

Lemma NoDup_combinations_from k : forall n lo, NoDup (combinations_from n k lo).
Proof.
  induction k as [| k IH]; intros n lo.
  - simpl. repeat constructor. tauto.
  - cbn [combinations_from]. apply NoDup_flat_map.
    + apply seq_NoDup.
    + intros i _. apply NoDup_map_cons. apply IH.
    + intros i j b _ _ Hi Hj.
      apply in_map_iff in Hi. destruct Hi as (ri & <- & _).
      apply in_map_iff in Hj. destruct Hj as (rj & E & _).
      now injection E.
Qed.

(** X12. The monomials of the expansion are non-empty, of at most the
    given degree, over valid column positions written in ascending order,
    and no monomial is generated twice. *)
Theorem poly_combinations_well_formed (n d : nat) :
  NoDup (poly_combinations n d) /\
  forall combo, In combo (poly_combinations n d) ->
    1 <= length combo <= d /\
    Forall (fun i => i < n) combo /\
    Sorted le combo.
Proof.
  split.
  - unfold poly_combinations. apply NoDup_flat_map.
    + apply seq_NoDup.
    + intros k _. apply NoDup_combinations_from.
    + intros j k b _ _ Hj Hk.
      apply combinations_from_spec in Hj. apply combinations_from_spec in Hk.
      destruct Hj as [Hj _], Hk as [Hk _]. congruence.
  - intros combo H. unfold poly_combinations in H. apply in_flat_map in H.
    destruct H as (k & Hk & H). apply in_seq in Hk.
    apply combinations_from_spec in H. destruct H as (Hlen & Hall & Hs).
    split; [lia |]. split; [| exact Hs].
    eapply Forall_impl; [| exact Hall]. intros i Hi. cbn beta in *. lia.
Qed.

Lemma combinations_degree_one n lo :
  combinations_from n 1 lo = map (fun i => [i]) (seq lo (n - lo)).
Proof.
  cbn [combinations_from]. generalize (seq lo (n - lo)). intros l.
  induction l as [| i l IH]; simpl; [reflexivity | now f_equal].
Qed.

Lemma Forall2_nth_seq (x : list Q) :
  Forall2 Qeq (map (fun i => (nth i x 0 * 1)%Q) (seq 0 (length x))) x.
Proof.
  induction x as [| q x IH]; [constructor |].
  cbn [length seq map nth]. constructor; [ring |].
  rewrite <- seq_shift, map_map. exact IH.
Qed.

(** X13. From degree 1 on, the expansion of a row starts with the row
    itself: the original features are kept, in their order, as the first
    columns; at degree 1 the expansion is the row. *)
Theorem poly_transform_keeps_features (d : nat) (x : list Q) :
  1 <= d ->
  Forall2 Qeq (firstn (length x) (poly_transform d x)) x /\
  Forall2 Qeq (poly_transform 1 x) x /\
  length (poly_transform d x) = n_output_features (length x) d.
Proof.
  intros Hd.
  assert (H1 : poly_transform 1 x =
               map (fun i => (nth i x 0 * 1)%Q) (seq 0 (length x))).
  { unfold poly_transform, poly_combinations. cbn [seq flat_map].
    rewrite app_nil_r, combinations_degree_one, map_map, Nat.sub_0_r. reflexivity. }
  split; [| split].
  - destruct d as [| d]; [lia |].
    unfold poly_transform, poly_combinations. cbn [seq flat_map].
    rewrite map_app, combinations_degree_one, map_map, Nat.sub_0_r.
    rewrite firstn_app, length_map, length_seq, Nat.sub_diag. cbn [firstn].
    rewrite app_nil_r, firstn_all2 by (now rewrite length_map, length_seq).
    apply Forall2_nth_seq.
  - rewrite H1. apply Forall2_nth_seq.
  - unfold poly_transform, n_output_features. apply length_map.
Qed.

(** ** Feature importance table when there is no one-hot column *)

Lemma insert_desc_sorted x l :
  Sorted (fun a b : string * Q => (snd b <= snd a)%Q) l ->
  Sorted (fun a b : string * Q => (snd b <= snd a)%Q) (insert_desc x l).
Proof.
  induction l as [| y l IH]; intros Hs; simpl.
  - repeat constructor.
  - inversion Hs as [| ? ? Hl Hhd]; subst.
    destruct (Qle_bool (snd y) (snd x)) eqn:E.
    + apply Qle_bool_iff in E. constructor; [exact Hs | now constructor].
    + assert (Hlt : (snd x < snd y)%Q).
      { apply Qnot_le_lt. intros Hc. apply Qle_bool_iff in Hc. congruence. }
      constructor; [now apply IH |].
      destruct l as [| z l]; simpl.
      * constructor. now apply Qlt_le_weak.
      * destruct (Qle_bool (snd z) (snd x)); constructor.
        -- now apply Qlt_le_weak.
        -- now inversion Hhd.
Qed.

Lemma sort_values_desc_sorted l :
  Sorted (fun a b : string * Q => (snd b <= snd a)%Q) (sort_values_desc l).
Proof.
  unfold sort_values_desc. induction l as [| x l IH]; simpl; [constructor |].
  now apply insert_desc_sorted.
Qed.

(** X14. When the preprocessor's output is exactly the numeric columns
    (no one-hot column, no numeric column discarded) and there is one
    coefficient per monomial, the importance table is built: it pairs
    each monomial name with its coefficient, one row per coefficient,
    by descending importance. *)
Theorem feature_importance_table_sorted {NumState : Type}
  (p : Preprocessor NumState) (r : ColumnRoles) (degree : nat) (coef : list Q) :
  preprocessor_width NumState p = length (num_cols r) ->
  length coef = n_output_features (length (num_cols r)) degree ->
  exists table,
    best_model_feature_importance p r degree coef = Ok table /\
    Permutation table
      (combine (map (monomial_name (num_cols r))
                    (poly_combinations (length (num_cols r)) degree)) coef) /\
    length table = length coef /\
    Sorted (fun a b : string * Q => (snd b <= snd a)%Q) table.
Proof.
  intros Hw Hc. unfold best_model_feature_importance. rewrite Hw.
  unfold feature_importance_df, get_feature_names_out.
  rewrite Nat.eqb_refl. cbn [bind]. unfold frame_of_pairs.
  rewrite length_map. fold (n_output_features (length (num_cols r)) degree).
  rewrite Hc, Nat.eqb_refl. cbn [bind].
  eexists. split; [reflexivity |]. split; [apply sort_values_desc_perm |].
  split; [| apply sort_values_desc_sorted].
  rewrite (Permutation_length (sort_values_desc_perm _)).
  rewrite length_combine, length_map.
  fold (n_output_features (length (num_cols r)) degree). rewrite <- Hc.
  apply Nat.min_id.
Qed.

(** ** Test metrics *)

Lemma Qsum_cons (a : Q) (l : list Q) : Qsum (a :: l) = (a + Qsum l)%Q.
Proof. reflexivity. Qed.

Lemma Qsum_nonneg (l : list Q) : Forall (fun a => (0 <= a)%Q) l -> (0 <= Qsum l)%Q.
Proof.
  induction 1 as [| a l Ha _ IH]; [apply Qle_refl |].
  rewrite Qsum_cons. lra.
Qed.

Lemma Qsum_zero_all (l : list Q) :
  Forall (fun a => (0 <= a)%Q) l -> (Qsum l == 0)%Q -> Forall (fun a => (a == 0)%Q) l.
Proof.
  induction 1 as [| a l Ha Hl IH]; intros Hs; [constructor |].
  rewrite Qsum_cons in Hs. pose proof (Qsum_nonneg l Hl).
  constructor; [lra | apply IH; lra].
Qed.

Lemma count_as_Q_pos (n : nat) : 0 < n -> (0 < inject_Z (Z.of_nat n))%Q.
Proof. intros H. change 0%Q with (inject_Z 0). rewrite <- Zlt_Qlt. lia. Qed.

Lemma Qsquare_nonneg (x : Q) : (0 <= x * x)%Q.
Proof.
  destruct (Qlt_le_dec x 0) as [Hneg | Hpos].
  - assert (E : (x * x == (- x) * (- x))%Q) by ring. rewrite E.
    apply Qmult_le_0_compat; lra.
  - now apply Qmult_le_0_compat.
Qed.

Lemma Qsum_all_zero (l : list Q) :
  Forall (fun a => (a == 0)%Q) l -> (Qsum l == 0)%Q.
Proof.
  induction 1 as [| a l Ha _ IH]; [reflexivity |].
  rewrite Qsum_cons, Ha, IH. ring.
Qed.

Lemma Forall_combine_Forall2 (ys ps : list Q) :
  length ys = length ps ->
  (Forall (fun tp => (fst tp == snd tp)%Q) (combine ys ps) <-> Forall2 Qeq ys ps).
Proof.
  revert ps. induction ys as [| y ys IH]; intros [| p ps] H; simpl in *;
    try discriminate.
  - split; constructor.
  - split; intros Hf; inversion Hf; subst; constructor; auto;
      apply (IH ps); auto.
Qed.

Lemma squares_zero_iff (pairs : list (Q * Q)) :
  (Qsum (map (fun tp => (fst tp - snd tp) ^ 2) pairs) == 0)%Q <->
  Forall (fun tp => (fst tp == snd tp)%Q) pairs.
Proof.
  split.
  - intros H. apply Qsum_zero_all in H.
    + rewrite Forall_map in H. eapply Forall_impl; [| exact H].
      intros tp Htp. cbn beta in Htp.
      change (((fst tp - snd tp) * (fst tp - snd tp)) == 0)%Q in Htp.
      apply Qmult_integral in Htp. destruct Htp; lra.
    + apply Forall_forall. intros e He. apply in_map_iff in He.
      destruct He as (tp & <- & _).
      change (0 <= (fst tp - snd tp) * (fst tp - snd tp))%Q.
      apply Qsquare_nonneg.
  - intros H. induction H as [| tp pairs Htp _ IH]; [reflexivity |].
    cbn [map]. rewrite Qsum_cons, IH.
    change (((fst tp - snd tp) * (fst tp - snd tp)) + 0 == 0)%Q.
    rewrite Htp. ring.
Qed.

Lemma squares_nonneg (pairs : list (Q * Q)) :
  (0 <= Qsum (map (fun tp => (fst tp - snd tp) ^ 2) pairs))%Q.
Proof.
  apply Qsum_nonneg. apply Forall_forall. intros e He. apply in_map_iff in He.
  destruct He as (tp & <- & _).
  change (0 <= (fst tp - snd tp) * (fst tp - snd tp))%Q. apply Qsquare_nonneg.
Qed.

(** X15. Whenever the target values are numbers, as many as the
    predictions, and there is at least one, both error metrics are
    computed; neither is negative, and both are zero when every
    prediction equals its target. *)
Theorem error_metrics_nonnegative (y_true : list cell) (ys y_pred : list Q) :
  map_result cell_number y_true = Ok ys ->
  length ys = length y_pred ->
  ys <> [] ->
  exists mse mae,
    mean_squared_error y_true y_pred = Ok mse /\
    mean_absolute_error y_true y_pred = Ok mae /\
    (0 <= mse)%Q /\ (0 <= mae)%Q /\
    (Forall2 Qeq ys y_pred -> (mse == 0)%Q /\ (mae == 0)%Q).
Proof.
  intros Hys Hlen Hne.
  assert (Hpos : 0 < length ys) by (destruct ys; [congruence | simpl; lia]).
  unfold mean_squared_error, mean_absolute_error. rewrite Hys. cbn [bind].
  rewrite Hlen, Nat.eqb_refl. cbn [negb].
  destruct (Nat.eqb_spec (length y_pred) 0) as [E | _]; [lia |].
  eexists. eexists. split; [reflexivity |]. split; [reflexivity |].
  assert (Hlp : length (combine ys y_pred) = length ys)
    by (rewrite length_combine; lia).
  pose proof (count_as_Q_pos (length ys) Hpos) as Hn.
  pose proof (squares_nonneg (combine ys y_pred)) as Hsq.
  pose proof (squares_zero_iff (combine ys y_pred)) as Hzero.
  rewrite (Forall_combine_Forall2 ys y_pred Hlen) in Hzero.
  assert (Hab : (0 <= Qsum (map (fun tp : Q * Q => Qabs (snd tp - fst tp))
                                (combine ys y_pred)))%Q).
  { apply Qsum_nonneg. apply Forall_forall. intros e He.
    apply in_map_iff in He. destruct He as (tp & <- & _). apply Qabs_nonneg. }
  assert (Habz : Forall2 Qeq ys y_pred ->
                 (Qsum (map (fun tp : Q * Q => Qabs (snd tp - fst tp))
                            (combine ys y_pred)) == 0)%Q).
  { intros Hex. apply (Forall_combine_Forall2 ys y_pred Hlen) in Hex.
    apply Qsum_all_zero. rewrite Forall_map.
    eapply Forall_impl; [| exact Hex]. intros tp Htp. cbn beta in *.
    assert (Hd : (snd tp - fst tp == 0)%Q) by lra.
    rewrite Hd. reflexivity. }
  unfold Qmean. rewrite !length_map, Hlp.
  generalize dependent (Qsum (map (fun tp : Q * Q => Qabs (snd tp - fst tp))
                                  (combine ys y_pred))).
  generalize dependent (Qsum (map (fun tp : Q * Q => ((fst tp - snd tp) ^ 2)%Q)
                                  (combine ys y_pred))).
  generalize dependent (inject_Z (Z.of_nat (length ys))).
  intros n Hn sq Hsq Hzero ab Hab Habz.
  split; [apply Qle_shift_div_l; [exact Hn | lra] |].
  split; [apply Qle_shift_div_l; [exact Hn | lra] |].
  intros Hex. split.
  - apply Hzero in Hex. rewrite Hex. field. lra.
  - rewrite (Habz Hex). field. lra.
Qed.


(** ** Numeric path: the median of the imputer *)










(** ** Categorical path: the fill value, the categories, a seen value *)

Lemma ltb_string_lt x y : String.ltb x y = true <-> string_lt x y.
Proof.
  unfold String.ltb, string_lt.
  rewrite <- OrderedTypeEx.String_as_OT.cmp_lt.
  unfold OrderedTypeEx.String_as_OT.cmp.
  destruct (String.compare x y); split; congruence.
Qed.

Lemma string_lt_trans x y z : string_lt x y -> string_lt y z -> string_lt x z.
Proof. apply OrderedTypeEx.String_as_OT.lt_trans. Qed.

Lemma string_lt_irrefl x : ~ string_lt x x.
Proof.
  intros H. apply OrderedTypeEx.String_as_OT.lt_not_eq in H.
  apply H. reflexivity.
Qed.

Lemma string_lt_total x y : x <> y -> String.ltb x y = false -> string_lt y x.
Proof.
  intros Hne Hlt. unfold string_lt.
  apply OrderedTypeEx.String_as_OT.cmp_lt.
  rewrite OrderedTypeEx.String_as_OT.cmp_antisym.
  unfold String.ltb in Hlt. unfold OrderedTypeEx.String_as_OT.cmp.
  destruct (String.compare x y) eqn:E; simpl; try reflexivity; try discriminate.
  apply String.compare_eq_iff in E. contradiction.
Qed.

Lemma insert_unique_sorted x l :
  StronglySorted string_lt l -> StronglySorted string_lt (insert_unique x l).
Proof.
  induction 1 as [| y l Hs IH Hall]; simpl.
  - repeat constructor.
  - destruct (String.eqb_spec x y) as [E | NE]; [now constructor |].
    destruct (String.ltb x y) eqn:Hlt.
    + apply ltb_string_lt in Hlt. constructor; [now constructor |].
      constructor; [exact Hlt |].
      eapply Forall_impl; [| exact Hall]. intros z Hz.
      now apply (string_lt_trans x y z).
    + constructor; [exact IH |].
      apply Forall_forall. intros z Hz. apply insert_unique_In in Hz.
      destruct Hz as [-> | Hz].
      * now apply string_lt_total.
      * rewrite Forall_forall in Hall. now apply Hall.
Qed.

Lemma unique_sorted_sorted l : StronglySorted string_lt (unique_sorted l).
Proof.
  unfold unique_sorted. induction l as [| x l IH]; simpl; [constructor |].
  now apply insert_unique_sorted.
Qed.

Lemma strongly_sorted_NoDup l : StronglySorted string_lt l -> NoDup l.
Proof.
  induction 1 as [| x l _ IH Hall]; constructor; [| exact IH].
  intros Hin. rewrite Forall_forall in Hall.
  apply (string_lt_irrefl x). now apply Hall.
Qed.


Lemma cells_text_In_conv train vals s :
  cells_text train = Ok vals -> In (Str s) train -> In (Some s) vals.
Proof.
  revert vals. induction train as [| c train IH]; simpl; intros vals H Hin;
    [contradiction |].
  apply bind_ok in H. destruct H as (t & Ht & H).
  apply bind_ok in H. destruct H as (ts & Hts & H). injection H as <-.
  destruct Hin as [-> | Hin].
  - simpl in Ht. injection Ht as <-. now left.
  - right. now apply IH.
Qed.





Lemma onehot_sum_one (s : string) (cats : list string) :
  NoDup cats -> In s cats ->
  (Qsum (map (fun c => if String.eqb s c then 1 else 0) cats) == 1)%Q.
Proof.
  induction 1 as [| c cats Hc _ IH]; intros Hin; [contradiction |].
  cbn [map]. rewrite Qsum_cons.
  destruct (String.eqb_spec s c) as [<- | NE].
  - assert (Hz : (Qsum (map (fun c => if String.eqb s c then 1 else 0) cats) == 0)%Q).
    { clear IH Hin. induction cats as [| d cats IH]; [reflexivity |].
      cbn [map]. rewrite Qsum_cons.
      destruct (String.eqb_spec s d) as [<- | _].
      - exfalso. apply Hc. now left.
      - rewrite IH; [ring |]. intros H. apply Hc. now right. }
    rewrite Hz. ring.
  - destruct Hin as [-> | Hin]; [contradiction |]. rewrite (IH Hin). ring.
Qed.

(** X22. The fitted categories are in strictly ascending order, hence
    distinct; a string that occurred in the training column is encoded
    with exactly one 1, at its category (the entries sum to 1), and a
    missing value is encoded as the fill value, the most frequent
    category. *)
Theorem seen_category_is_one_hot (train : list cell) (st : CatState) (s : string) :
  cat_fit train = Ok st ->
  In (Str s) train ->
  StronglySorted string_lt (categories st) /\
  NoDup (categories st) /\
  In s (categories st) /\
  cat_transform st (Str s) =
    Ok (map (fun c => if String.eqb s c then 1%Q else 0%Q) (categories st)) /\
  (Qsum (map (fun c => if String.eqb s c then 1 else 0) (categories st)) == 1)%Q /\
  exists m, fill st = Some m /\ In m (categories st) /\
            cat_transform st NA = cat_transform st (Str m).
Proof.
  intros Hfit Hin. unfold cat_fit in Hfit.
  apply bind_ok in Hfit. destruct Hfit as (vals & Hv & H).
  assert (Hsome : In (Some s) vals) by (now apply (cells_text_In_conv train vals)).
  destruct (most_frequent (present vals)) as [m |] eqn:Em.
  - injection H as <-. cbn [categories fill].
    set (cats := unique_sorted (map (impute_string m) vals)).
    assert (Hsorted : StronglySorted string_lt cats) by apply unique_sorted_sorted.
    assert (Hnd : NoDup cats) by (now apply strongly_sorted_NoDup).
    assert (Hs : In s cats).
    { apply unique_sorted_In. apply in_map_iff. now exists (Some s). }
    assert (Hm : In m cats).
    { apply unique_sorted_In. apply in_map_iff.
      exists (Some m). split; [reflexivity |]. apply present_In.
      now apply (most_frequent_from_In _ _ _ Em). }
    split; [exact Hsorted |]. split; [exact Hnd |]. split; [exact Hs |].
    split; [| split].
    + unfold cat_transform, onehot. cbn [fill categories is_na]. fold cats.
      apply mem_string_In in Hs. now rewrite Hs.
    + now apply onehot_sum_one.
    + exists m. split; [reflexivity |]. split; [exact Hm |]. reflexivity.
  - exfalso. unfold most_frequent in Em.
    assert (Hp : In s (present vals)) by (now apply present_In).
    destruct (present vals) as [| x l]; [contradiction |].
    simpl in Em.
    destruct (most_frequent_from (x :: l) l) as [b |];
      [destruct (count_string b (x :: l) <? count_string x (x :: l));
       [| destruct ((count_string x (x :: l) =? count_string b (x :: l)) && String.ltb x b)] |];
      discriminate.
Qed.

(** ** Width of the preprocessed rows *)

Lemma map_result_Forall {A B : Type} (f : A -> result B) (l : list A) (out : list B) :
  map_result f l = Ok out -> Forall (fun y => exists x, In x l /\ f x = Ok y) out.
Proof.
  revert out. induction l as [| x l IH]; simpl; intros out H.
  - injection H as <-. constructor.
  - apply bind_ok in H. destruct H as (y & Hy & H).
    apply bind_ok in H. destruct H as (ys & Hys & H). injection H as <-.
    constructor.
    + exists x. split; [now left | exact Hy].
    + eapply Forall_impl; [| exact (IH ys Hys)].
      intros z (x' & Hx' & Hz). exists x'. split; [now right | exact Hz].
Qed.

Lemma cat_transform_length (train : list cell) (st : CatState) (v : cell) :
  cat_fit train = Ok st ->
  exists vec, cat_transform st v = Ok vec /\ length vec = length (categories st).
Proof.
  intros Hfit. unfold cat_transform. destruct (fill st) as [m |] eqn:Em.
  - unfold onehot.
    destruct (match (if is_na v then Str m else v) with
              | Str s => mem_string s (categories st)
              | _ => false
              end); eexists; (split; [reflexivity | apply length_map]).
  - exists []. split; [reflexivity |].
    now rewrite (cat_fit_dropped train st Hfit Em).
Qed.

Section WidthFacts.

Variable NumState : Type.
Variable num_state : list cell -> NumState.
Variable num_apply : NumState -> cell -> Q.

Lemma length_num_block (p : Preprocessor NumState) (rw : row) :
  length (num_block NumState num_apply p rw) =
  length (filter (fun ns => match snd ns with Some _ => true | None => false end)
                 (num_fitted NumState p)).
Proof.
  unfold num_block. induction (num_fitted NumState p) as [| [nm [st |]] l IH];
    simpl; [reflexivity | now rewrite IH | exact IH].
Qed.

(** X23. Take a fitted preprocessor that kept a column of each group
    it was given (with a group whose columns are all missing throughout
    the training rows the fit itself fails).  It transforms every row
    that has the columns of the two groups, with numbers and strings in
    them or missing values, without raising, into as many entries as the
    fitted width, whatever the row holds there: missing cells and unseen
    categories included. *)
Theorem preprocessed_row_has_fitted_width (r : ColumnRoles) (X : DataFrame)
  (p : Preprocessor NumState) (rw : row) :
  preprocessor_fit NumState num_state r X = Ok p ->
  (num_cols r = [] \/ Exists (fun ns => snd ns <> None) (num_fitted NumState p)) ->
  (cat_cols r = [] \/
   Exists (fun cs => fill (snd cs) <> None) (cat_fitted NumState p)) ->
  row_fits r rw ->
  exists v,
    preprocessor_transform_row NumState num_apply p rw = Ok v /\
    length v = preprocessor_width NumState p.
Proof.
  intros Hfit _ _ _. unfold preprocessor_fit in Hfit.
  apply bind_ok in Hfit. destruct Hfit as (nums & _ & Hfit).
  apply bind_ok in Hfit. destruct Hfit as (cats & Hcats & Hfit).
  injection Hfit as <-.
  apply map_result_Forall in Hcats.
  assert (Hblocks : exists blocks,
    map_result (fun cs => cat_transform (snd cs) (row_get (fst cs) rw)) cats = Ok blocks /\
    length (concat blocks) = list_sum (map (fun cs => length (categories (snd cs))) cats)).
  { induction Hcats as [| [nm st] cats (x & _ & Hx) _ IH].
    - exists []. split; reflexivity.
    - apply bind_ok in Hx. destruct Hx as (s & _ & Hx).
      apply bind_ok in Hx. destruct Hx as (st' & Hst & Hx). injection Hx as _ <-.
      destruct (cat_transform_length (col_values s) st' (row_get nm rw) Hst)
        as (vec & Hvec & Hlen).
      destruct IH as (blocks & Hb & Hl).
      exists (vec :: blocks). cbn [map_result fst snd]. rewrite Hvec. cbn [bind].
      rewrite Hb. cbn [bind]. split; [reflexivity |].
      cbn [concat map]. rewrite length_app, Hlen, Hl. reflexivity. }
  destruct Hblocks as (blocks & Hb & Hl).
  unfold preprocessor_transform_row, cat_block. cbn [cat_fitted].
  rewrite Hb. cbn [bind]. eexists. split; [reflexivity |].
  rewrite length_app, length_num_block, Hl. reflexivity.
Qed.

End WidthFacts.

(** ** The parameter grid *)

(** X25. The candidates of a grid are exactly the combinations of one
    listed estimator, one listed strength and one listed degree, and
    there are as many as the product of the three list lengths. *)
Theorem parameter_grid_is_cross_product (g : ParamGrid) (c : Candidate) :
  (In c (ParameterGrid g) <->
   In (c_model c) (grid_model g) /\ In (c_alpha c) (grid_alpha g) /\
   In (c_degree c) (grid_degree g)) /\
  length (ParameterGrid g) =
  length (grid_model g) * (length (grid_alpha g) * length (grid_degree g)).
Proof.
  split; [apply in_ParameterGrid | apply length_ParameterGrid].
Qed.

(** ** Grid search on a grid that lists the plain least-squares estimator *)

Lemma map_result_raises {A B : Type} (f : A -> result B) (l : list A) (e : exn) :
  (exists x, In x l /\ f x = Raise e) ->
  (forall x e', In x l -> f x = Raise e' -> e' = e) ->
  map_result f l = Raise e.
Proof.
  induction l as [| x l IH]; intros (x0 & Hin & Hx0) Hsame; [contradiction |].
  simpl. destruct (f x) as [y | e'] eqn:Efx.
  - cbn [bind]. rewrite IH; [reflexivity | |].
    + destruct Hin as [-> | Hin]; [congruence | now exists x0].
    + intros z e' Hz. apply Hsame. now right.
  - cbn [bind]. f_equal. apply (Hsame x e'); [now left | exact Efx].
Qed.

Section GridSearchFailure.

Variable Model : Type.
Variable cv_score : Pipeline -> DataFrame -> DataFrame -> list nat * list nat -> Q.
Variable fit_pipeline : Pipeline -> DataFrame -> DataFrame -> Model.

(** X26. On at least five training rows, every grid that lists the plain
    least-squares estimator together with at least one strength and one
    degree makes the search raise the invalid-parameter error, wherever
    in the list that estimator stands and however the other cells
    score. *)
Theorem least_squares_in_grid_raises (base : Pipeline)
  (g : ParamGrid) (X y : DataFrame) :
  5 <= n_rows X ->
  In LinearRegression (grid_model g) ->
  grid_alpha g <> [] ->
  grid_degree g <> [] ->
  GridSearchCV_fit Model cv_score fit_pipeline base g X y =
    Raise (ValueError "Invalid parameter 'alpha' for estimator LinearRegression()").
Proof.
  intros Hn Hm Ha Hd.
  destruct (kfold_five (n_rows X) Hn) as (fold & folds & Hk).
  unfold GridSearchCV_fit. rewrite Hk. cbn [bind].
  assert (Hcell : forall c e,
    (scores <- map_result (fit_and_score cv_score base X y c) (fold :: folds) ;;
     Ok (c, Qmean scores)) = Raise e ->
    e = ValueError "Invalid parameter 'alpha' for estimator LinearRegression()").
  { intros c e.
    destruct (set_params base c) as [p | e0] eqn:Ep.
    - assert (Hs : map_result (fit_and_score cv_score base X y c) (fold :: folds) =
                   Ok (map (cv_score p X y) (fold :: folds))).
      { unfold fit_and_score. rewrite Ep. cbn [bind]. apply map_result_pure. }
      rewrite Hs. cbn [bind]. discriminate.
    - cbn [map_result]. unfold fit_and_score at 1. rewrite Ep. cbn [bind].
      intros H. injection H as <-.
      unfold set_params in Ep. destruct (c_model c); cbn [set_alpha bind] in Ep;
        [now injection Ep as <- | discriminate | discriminate]. }
  unfold evaluate_candidates.
  rewrite (map_result_raises _ _
    (ValueError "Invalid parameter 'alpha' for estimator LinearRegression()")).
  - reflexivity.
  - destruct (grid_alpha g) as [| a al] eqn:Ea; [congruence |].
    destruct (grid_degree g) as [| d dl] eqn:Ed; [congruence |].
    exists (mkCandidate LinearRegression a d). split.
    + apply (in_ParameterGrid g (mkCandidate LinearRegression a d)).
      cbn [c_model c_alpha c_degree].
      rewrite Ea, Ed. repeat split; [exact Hm | now left | now left].
    + reflexivity.
  - intros c e _ H. exact (Hcell c e H).
Qed.

End GridSearchFailure.

(** * The further properties on the example dataset *)

Lemma feature_derive_shape_witness :
  (find_column "timestamp" (columns example_raw) = Some example_timestamps /\
   one_offset example_parse example_timestamps = true /\
   well_formed example_raw) /\
  exists data,
    feature_derive example_parse int64 example_raw = Ok data /\
    well_formed data /\
    index data = filter_mask (parsed_mask example_parse example_timestamps)
                             (index example_raw) /\
    n_rows data <= n_rows example_raw /\
    (NoDup (index example_raw) -> NoDup (index data)) /\
    (forall nm, nm <> "timestamp" -> ~ In nm calendar_fields ->
       find_column nm (columns data) =
       option_map (mask_series (parsed_mask example_parse example_timestamps))
                  (find_column nm (columns example_raw))).
Proof.
  split; [split; [reflexivity | split; [reflexivity | exact example_raw_well_formed]] |].
  apply (feature_derive_shape example_parse int64 example_raw example_timestamps).
  - reflexivity.
  - reflexivity.
  - exact example_raw_well_formed.
Defined.

Lemma calendar_fields_grouped_by_dtype_witness :
  (feature_derive example_parse int32 example_raw = Ok example_data32 /\
   classify_columns example_data32 = Ok example_roles32) /\
  In "hour" (features example_roles32) /\
  (In "hour" (num_cols example_roles32) <-> int32 = float64 \/ int32 = int64) /\
  (In "hour" (cat_cols example_roles32) <-> int32 = object).
Proof.
  split; [split; reflexivity |].
  apply (calendar_fields_grouped_by_dtype example_parse int32
           example_raw example_data32 example_roles32 "hour").
  - exact example_raw_names.
  - reflexivity.
  - reflexivity.
  - apply mem_string_In. reflexivity.
Defined.

Lemma classify_columns_returns_iff_witness :
  NoDup (column_names example_data) /\
  ((exists r, classify_columns example_data = Ok r) <->
   (In "timestamp" (column_names example_data) /\
    exists s, In s (columns example_data) /\ col_name s = target /\
              (col_dtype s = float64 \/ col_dtype s = int64))) /\
  (forall s, In "timestamp" (column_names example_data) ->
             In s (columns example_data) -> col_name s = target ->
             col_dtype s <> float64 -> col_dtype s <> int64 ->
             classify_columns example_data = Raise (KeyError target)).
Proof.
  split; [exact example_data_names |].
  apply (classify_columns_returns_iff example_data). exact example_data_names.
Defined.

Lemma feature_frame_excludes_target_witness :
  classify_columns example_data = Ok example_roles /\
  exists X y ycol,
    select_columns (features example_roles) example_data = Ok X /\
    series_frame target example_data = Ok y /\
    index X = index example_data /\ index y = index example_data /\
    column_names X = features example_roles /\
    (forall s, In s (columns X) -> In s (columns example_data)) /\
    ~ In target (column_names X) /\
    ~ In "timestamp" (column_names X) /\
    columns y = [ycol] /\ find_column target (columns example_data) = Some ycol.
Proof.
  split; [reflexivity |].
  apply (feature_frame_excludes_target example_data example_roles). reflexivity.
Defined.

Lemma split_data_raises_iff_too_few_rows_witness :
  classify_columns example_data = Ok example_roles /\
  (if n_rows example_data <? 2 then
     split_data example_permutation example_data =
       Raise (ValueError "the resulting train set will be empty")
   else exists sp, split_data example_permutation example_data = Ok (example_roles, sp)).
Proof.
  split; [reflexivity |].
  apply (split_data_raises_iff_too_few_rows example_permutation
           example_data example_roles). reflexivity.
Defined.

Lemma split_data_aligned_witness :
  split_data example_permutation example_data = Ok (example_roles, example_split) /\
  index (X_train example_split) = index (y_train example_split) /\
  index (X_test example_split) = index (y_test example_split) /\
  well_formed (X_train example_split) /\ well_formed (X_test example_split) /\
  well_formed (y_train example_split) /\ well_formed (y_test example_split) /\
  column_names (X_train example_split) = features example_roles /\
  column_names (X_test example_split) = features example_roles /\
  column_names (y_train example_split) = [target] /\
  column_names (y_test example_split) = [target] /\
  ~ In target (column_names (X_train example_split)).
Proof.
  split; [exact example_split_data |].
  apply (split_data_aligned example_permutation example_data example_roles
           example_split).
  exact example_split_data.
Defined.

Lemma cross_val_score_uses_every_row_witness :
  n_rows example_X = n_rows example_y /\
  (if n_rows example_X <? 5 then
     cross_val_score example_cv_score (pipeline example_roles) example_X example_y =
       Raise (ValueError
         "Cannot have number of splits greater than the number of samples")
   else
     exists folds scores,
       kfold 5 (n_rows example_X) = Ok folds /\
       cross_val_score example_cv_score (pipeline example_roles) example_X example_y
         = Ok scores /\
       scores = map (example_cv_score (pipeline example_roles) example_X example_y)
                    folds /\
       length scores = 5 /\
       forall i, i < n_rows example_X ->
         list_sum (map (fun f => count_occ Nat.eq_dec (snd f) i) folds) = 1 /\
         list_sum (map (fun f => count_occ Nat.eq_dec (fst f) i) folds) = 4).
Proof.
  split; [reflexivity |].
  apply (cross_val_score_uses_every_row example_cv_score (pipeline example_roles)
           example_X example_y). reflexivity.
Defined.

Lemma poly_transform_keeps_features_witness :
  Forall2 Qeq (firstn (length [2; 3]%Q) (poly_transform 2 [2; 3]%Q)) [2; 3]%Q /\
  Forall2 Qeq (poly_transform 1 [2; 3]%Q) [2; 3]%Q /\
  length (poly_transform 2 [2; 3]%Q) = n_output_features (length [2; 3]%Q) 2.
Proof.
  apply (poly_transform_keeps_features 2 [2; 3]%Q). lia.
Defined.

Lemma feature_importance_table_sorted_witness :
  (preprocessor_width unit example_numeric_preprocessor =
     length (num_cols example_numeric_roles) /\
   length [1; 5; 3; 2; 4]%Q =
     n_output_features (length (num_cols example_numeric_roles)) 2) /\
  exists table,
    best_model_feature_importance example_numeric_preprocessor
      example_numeric_roles 2 [1; 5; 3; 2; 4]%Q = Ok table /\
    Permutation table
      (combine (map (monomial_name (num_cols example_numeric_roles))
                    (poly_combinations (length (num_cols example_numeric_roles)) 2))
               [1; 5; 3; 2; 4]%Q) /\
    length table = length [1; 5; 3; 2; 4]%Q /\
    Sorted (fun a b : string * Q => (snd b <= snd a)%Q) table.
Proof.
  split; [split; reflexivity |].
  apply (feature_importance_table_sorted example_numeric_preprocessor
           example_numeric_roles 2 [1; 5; 3; 2; 4]%Q); reflexivity.
Defined.

Lemma search_needs_seven_rows_witness :
  (Permutation (example_permutation random_state (n_rows example_data6))
               (seq 0 (n_rows example_data6)) /\
   split_data example_permutation example_data6 =
     Ok (fst example_split6, snd example_split6)) /\
  n_rows (X_train (snd example_split6)) =
    n_rows example_data6 - (n_rows example_data6 + 4) / 5 /\
  forall g, ParameterGrid g <> [] ->
    model_search example_permutation Pipeline example_cv_score example_fit_pipeline
      g example_data6 =
      Raise (ValueError
        "Cannot have number of splits greater than the number of samples").
Proof.
  assert (Hp : Permutation (example_permutation random_state (n_rows example_data6))
                           (seq 0 (n_rows example_data6)))
    by apply example_permutation_ok.
  assert (Hs : split_data example_permutation example_data6 =
               Ok (fst example_split6, snd example_split6))
    by (vm_compute; reflexivity).
  split; [split; [exact Hp | exact Hs] |].
  exact (search_needs_seven_rows example_permutation Pipeline example_cv_score
           example_fit_pipeline example_data6 (fst example_split6)
           (snd example_split6) Hp Hs).
Defined.

Lemma error_metrics_nonnegative_witness :
  exists mse mae,
    mean_squared_error [Float 18; Int 16] [8; 7]%Q = Ok mse /\
    mean_absolute_error [Float 18; Int 16] [8; 7]%Q = Ok mae /\
    (0 <= mse)%Q /\ (0 <= mae)%Q /\
    (Forall2 Qeq [18; inject_Z 16]%Q [8; 7]%Q -> (mse == 0)%Q /\ (mae == 0)%Q).
Proof.
  apply (error_metrics_nonnegative [Float 18; Int 16] [18; inject_Z 16]%Q [8; 7]%Q).
  - reflexivity.
  - reflexivity.
  - discriminate.
Defined.



Lemma preprocessed_row_has_fitted_width_witness :
  (preprocessor_fit unit example_num_state example_roles (X_train example_split) =
     Ok example_preprocessor /\
   Exists (fun ns => snd ns <> None) (num_fitted unit example_preprocessor) /\
   Exists (fun cs => fill (snd cs) <> None) (cat_fitted unit example_preprocessor) /\
   row_fits example_roles example_test_row) /\
  exists v,
    preprocessor_transform_row unit example_num_apply example_preprocessor
      example_test_row = Ok v /\
    length v = preprocessor_width unit example_preprocessor.
Proof.
  assert (Hn : Exists (fun ns : string * option unit => snd ns <> None)
                      (num_fitted unit example_preprocessor))
    by (apply Exists_cons_hd; discriminate).
  assert (Hc : Exists (fun cs : string * CatState => fill (snd cs) <> None)
                      (cat_fitted unit example_preprocessor))
    by (apply Exists_cons_hd; discriminate).
  assert (Hr : row_fits example_roles example_test_row).
  { split; intros nm H; vm_compute in H;
      repeat (destruct H as [<- | H]; [split; [vm_compute; tauto | reflexivity] |]);
      destruct H. }
  split; [split; [reflexivity | split; [exact Hn | split; [exact Hc | exact Hr]]] |].
  apply (preprocessed_row_has_fitted_width unit example_num_state example_num_apply
           example_roles (X_train example_split) example_preprocessor
           example_test_row).
  - reflexivity.
  - right. exact Hn.
  - right. exact Hc.
  - exact Hr.
Defined.

Lemma seen_category_is_one_hot_witness :
  StronglySorted string_lt ["A"; "B"] /\
  NoDup ["A"; "B"] /\
  In "B" ["A"; "B"] /\
  cat_transform (mkCatState (Some "A") ["A"; "B"]) (Str "B") =
    Ok (map (fun c => if String.eqb "B" c then 1%Q else 0%Q) ["A"; "B"]) /\
  (Qsum (map (fun c => if String.eqb "B" c then 1 else 0) ["A"; "B"]) == 1)%Q /\
  exists m, Some "A" = Some m /\ In m ["A"; "B"] /\
            cat_transform (mkCatState (Some "A") ["A"; "B"]) NA =
            cat_transform (mkCatState (Some "A") ["A"; "B"]) (Str m).
Proof.
  apply (seen_category_is_one_hot [Str "B"; NA; Str "A"; Str "B"; Str "A"]
           (mkCatState (Some "A") ["A"; "B"]) "B").
  - reflexivity.
  - simpl. tauto.
Defined.

Lemma least_squares_in_grid_raises_witness :
  (5 <= n_rows (X_train example_split) /\
   In LinearRegression (grid_model param_grid)) /\
  GridSearchCV_fit Pipeline example_cv_score example_fit_pipeline
    (pipeline example_roles) param_grid
    (X_train example_split) (y_train example_split) =
    Raise (ValueError "Invalid parameter 'alpha' for estimator LinearRegression()").
Proof.
  assert (H5 : 5 <= n_rows (X_train example_split)) by (vm_compute; lia).
  assert (Hin : In LinearRegression (grid_model param_grid)) by (now left).
  split; [split; [exact H5 | exact Hin] |].
  apply (least_squares_in_grid_raises Pipeline example_cv_score
           example_fit_pipeline (pipeline example_roles) param_grid
           (X_train example_split) (y_train example_split) H5 Hin); discriminate.
Defined.
